(** * Budget engine: envelope budgeting, debt payoff plan, goal progress

    A shallow embedding of [src/lib/budget-engine.ts] (class [BudgetEngine])
    and of the ledger types of [src/types/index.ts], with the properties
    the specification states about them.

    Conventions of the embedding.

    - The engine is embedded twice.  In the first embedding a JavaScript
      [number] holding a money amount is an exact rational ([Q]); equality
      of amounts is [==] ([Qeq]).  The ledger is assumed to hold finite
      amounts; sums, differences, [Math.max], [Math.min] and [Math.abs]
      keep them finite.  This embedding carries the properties of the
      control flow, of the order of entries and of the ledger's shape,
      which no rounding changes.
    - In the second embedding (module [Double]) a [number] is an IEEE 754
      binary64 value ([PrimFloat.float]) and every operation rounds as
      JavaScript's does, operation for operation in the source's order.
      It carries what rounding decides: whether two ways of computing an
      amount give the same double, and on which side of a threshold a
      computed value falls.
    - Where the engine itself can produce [Infinity] or [NaN] (the debt
      payoff plan, [monthsRemaining] of a goal) the value has type
      [number]: a rational, an infinity or NaN, with the IEEE results for
      the non-finite cases.
    - [this.data] is threaded explicitly: a method that only reads takes
      the ledger; a method that mutates it returns the new ledger too.  A
      [Budget] object returned by a mutating method is returned as its
      index in [budgets], since the caller receives the very object that
      sits in the array.
    - What a method reads from its host (the clock, the time zone used to
      read a date string, [Math.log]) is a field of [Host]. *)

From Stdlib Require Import List String Ascii Bool Arith ZArith QArith.
From Stdlib Require Import Qabs Qminmax Qround Qpower Lia Lqa.
From Stdlib Require Import Permutation Sorted DecimalString DecimalPos.
From Stdlib Require Import Floats.
Import ListNotations.

Open Scope string_scope.
Open Scope list_scope.
Open Scope Q_scope.

(** ** JavaScript values *)

(** [x ? .. : ..] and [x || 0] on a number: 0 is falsy. *)
Definition truthy (q : Q) : bool := negb (Qeq_bool q 0).

(** [o?.field || 0] for an optional number. *)
Definition orZero (o : option Q) : Q :=
  match o with
  | Some q => if truthy q then q else 0
  | None => 0
  end.

Definition Qlt_bool (x y : Q) : bool := negb (Qle_bool y x).

(** [Array.prototype.findIndex]. *)
Fixpoint findIndex {A : Type} (p : A -> bool) (l : list A) : option nat :=
  match l with
  | [] => None
  | x :: l' => if p x then Some O else option_map S (findIndex p l')
  end.

(** Assignment through a reference to the object at index [i]. *)
Fixpoint update_at {A : Type} (i : nat) (f : A -> A) (l : list A) : list A :=
  match l, i with
  | [], _ => []
  | x :: l', O => f x :: l'
  | x :: l', S j => x :: update_at j f l'
  end.

(** [arr.reduce((sum, x) => sum + f(x), 0)]. *)
Definition reduce_sum {A : Type} (f : A -> Q) (l : list A) : Q :=
  fold_left (fun sum x => sum + f x) l 0.

(** ** Numbers that may be infinite or NaN

    Arithmetic is exact on finite values and follows IEEE 754 on the
    others.  The sign of a zero is not kept: a division by zero takes the
    zero as positive (every zero divisor the engine can meet is one). *)

Inductive number := Fin (q : Q) | PInf | NInf | NaN.

Definition isFinite (x : number) : bool :=
  match x with Fin _ => true | _ => false end.

Definition nneg (x : number) : number :=
  match x with
  | Fin q => Fin (- q)
  | PInf => NInf
  | NInf => PInf
  | NaN => NaN
  end.

Definition nadd (x y : number) : number :=
  match x, y with
  | NaN, _ | _, NaN => NaN
  | Fin a, Fin b => Fin (a + b)
  | PInf, NInf | NInf, PInf => NaN
  | PInf, _ | _, PInf => PInf
  | NInf, _ | _, NInf => NInf
  end.

Definition nsub (x y : number) : number := nadd x (nneg y).

(** Infinity times a finite value, by the sign of that value. *)
Definition inf_times (a : Q) (pos neg : number) : number :=
  match a ?= 0 with
  | Eq => NaN
  | Gt => pos
  | Lt => neg
  end.

Definition nmul (x y : number) : number :=
  match x, y with
  | NaN, _ | _, NaN => NaN
  | Fin a, Fin b => Fin (a * b)
  | Fin a, PInf | PInf, Fin a => inf_times a PInf NInf
  | Fin a, NInf | NInf, Fin a => inf_times a NInf PInf
  | PInf, PInf | NInf, NInf => PInf
  | PInf, NInf | NInf, PInf => NInf
  end.

Definition ndiv (x y : number) : number :=
  match x, y with
  | NaN, _ | _, NaN => NaN
  | Fin a, Fin b =>
      if Qeq_bool b 0 then inf_times a PInf NInf else Fin (a / b)
  | Fin _, PInf | Fin _, NInf => Fin 0
  | PInf, Fin b => if Qlt_bool b 0 then NInf else PInf
  | NInf, Fin b => if Qlt_bool b 0 then PInf else NInf
  | _, _ => NaN
  end.

(** [Math.max]: NaN if either argument is. *)
Definition nmax (x y : number) : number :=
  match x, y with
  | NaN, _ | _, NaN => NaN
  | PInf, _ | _, PInf => PInf
  | NInf, z | z, NInf => z
  | Fin a, Fin b => Fin (Qmax a b)
  end.

(** [x <= y] and [x > y]: false as soon as NaN is involved. *)
Definition nle_bool (x y : number) : bool :=
  match x, y with
  | NaN, _ | _, NaN => false
  | NInf, _ | _, PInf => true
  | Fin a, Fin b => Qle_bool a b
  | _, _ => false
  end.

Definition ngt_bool (x y : number) : bool :=
  match x, y with
  | NaN, _ | _, NaN => false
  | Fin a, Fin b => Qlt_bool b a
  | PInf, PInf | NInf, _ => false
  | PInf, _ | _, NInf => true
  | Fin _, PInf => false
  end.

(** [Math.ceil]. *)
Definition nceil (x : number) : number :=
  match x with
  | Fin q => Fin (inject_Z (Qceiling q))
  | _ => x
  end.

(** ** The host

    What the engine reads from outside the ledger. *)

Record Host := mkHost {
  (** [Date.now()], in milliseconds, as the [assignMoney] call number [n]
      of an engine call would read it ([0] for a direct call). *)
  Date_now : nat -> Z;
  (** [new Date().getFullYear()] and [new Date().getMonth()]. *)
  now_year : Z;
  now_month : Z;
  (** [getTime()] of [new Date()] moved 90 days back with [setDate]. *)
  ninety_days_ago : Z;
  (** [getFullYear()] and [getMonth()] of [new Date(s)] in the host's time
      zone; [None] for an invalid date. *)
  Date_year_month : string -> option (Z * Z);
  (** [new Date(s).getTime()]; [None] for an invalid date (NaN). *)
  Date_getTime : string -> option Z;
  (** [Math.log] on a positive finite argument. *)
  ln : Q -> Q }.

(** [Math.log]: NaN below zero, minus infinity at zero. *)
Definition Math_log (h : Host) (x : number) : number :=
  match x with
  | NaN | NInf => NaN
  | PInf => PInf
  | Fin q =>
      match q ?= 0 with
      | Lt => NaN
      | Eq => NInf
      | Gt => Fin (ln h q)
      end
  end.

(** ** Ledger types ([src/types/index.ts])

    Fields the engine never reads (icons, colours, notes, payee, splits,
    creation dates and the like) are left out. *)

Inductive TransactionType := income | expense | transfer.
Inductive AccountType :=
  checking | savings | credit_card | loan | investment | cash.
Inductive GoalType := target_balance | monthly_funding | target_date.
Inductive Strategy := snowball | avalanche.

Definition TransactionType_eqb (a b : TransactionType) : bool :=
  match a, b with
  | income, income | expense, expense | transfer, transfer => true
  | _, _ => false
  end.

Definition AccountType_eqb (a b : AccountType) : bool :=
  match a, b with
  | checking, checking | savings, savings | credit_card, credit_card
  | loan, loan | investment, investment | cash, cash => true
  | _, _ => false
  end.

Module Account.
Record t := mk {
  id : string;
  name : string;
  type : AccountType;
  balance : Q;
  isActive : bool;
  interestRate : option Q;
  creditLimit : option Q }.
End Account.

(** [isGoal] and [isDebt] are optional flags; an absent flag reads as
    [undefined], which is falsy, and is [false] here. *)
Module Category.
Record t := mk {
  id : string;
  label : string;
  type : TransactionType;
  isDebt : bool;
  isGoal : bool }.
End Category.

Module Transaction.
Record t := mk {
  id : string;
  type : TransactionType;
  accountId : string;
  categoryId : string;
  amount : Q;
  description : string;
  date : string;
  isReconciled : bool }.
End Transaction.

Module Budget.
Record t := mk {
  id : string;
  categoryId : string;
  month : string;
  assigned : Q;
  activity : Q;
  available : Q }.
End Budget.

Module Goal.
Record t := mk {
  id : string;
  categoryId : string;
  name : string;
  type : GoalType;
  targetAmount : Q;
  targetDate : option string;
  monthlyFunding : option Q;
  currentAmount : Q;
  isActive : bool }.
End Goal.

(** [settings] is never read by the engine and is left out. *)
Record BudgetData := mkData {
  accounts : list Account.t;
  categories : list Category.t;
  transactions : list Transaction.t;
  budgets : list Budget.t;
  goals : list Goal.t }.

Definition set_budgets (bs : list Budget.t) (d : BudgetData) : BudgetData :=
  mkData (accounts d) (categories d) (transactions d) bs (goals d).

(** ** Month keys *)

(** [s.split('-')]. *)
Fixpoint split_dash_aux (cur : string) (s : string) : list string :=
  match s with
  | EmptyString => [cur]
  | String c s' =>
      if Ascii.eqb c "-"%char then cur :: split_dash_aux "" s'
      else split_dash_aux (cur ++ String c "") s'
  end.

Definition split_dash (s : string) : list string := split_dash_aux "" s.

(** [Number(s)] for a segment of a month key: the empty string is 0, a run
    of decimal digits is its value, and anything else is NaN ([None]).
    The numeric literal forms a [YYYY-MM] key never has (sign, fraction,
    exponent, radix prefix, surrounding blanks) are not modelled. *)
Definition Number_of_segment (s : string) : option Z :=
  match NilEmpty.uint_of_string s with
  | Some u => Some (Z.of_uint u)
  | None => None
  end.

Definition string_of_Z (z : Z) : string :=
  NilZero.string_of_int (Z.to_int z).

(** [s.padStart(2, '0')]. *)
Definition padStart2 (s : string) : string :=
  match String.length s with
  | O => "00"
  | S O => "0" ++ s
  | _ => s
  end.

(** [getPreviousMonth]: [new Date(year, monthNum - 1)], one month back with
    [setMonth], printed as [YYYY-MM].  The constructor reads a year in
    0..99 as 1900 + year and carries a month index outside 0..11 into the
    year; a NaN component makes the date invalid and the result
    ["NaN-NaN"].  The range limit of [Date] (about 270000 years around
    1970) is not modelled. *)
Definition getPreviousMonth (month : string) : string :=
  match map Number_of_segment (split_dash month) with
  | Some year :: Some monthNum :: _ =>
      let y := if ((0 <=? year) && (year <=? 99))%Z then (1900 + year)%Z else year in
      let idx := (y * 12 + (monthNum - 1) - 1)%Z in
      string_of_Z (idx / 12) ++ "-" ++ padStart2 (string_of_Z (idx mod 12 + 1))
  | _ => "NaN-NaN"
  end.

(** ** Envelope budgeting *)

Definition budgetFor (categoryId month : string) (b : Budget.t) : bool :=
  (Budget.categoryId b =? categoryId)%string && (Budget.month b =? month)%string.

Definition getMonthlyIncome (month : string) (d : BudgetData) : Q :=
  reduce_sum Transaction.amount
    (filter (fun t => String.prefix month (Transaction.date t)
                      && TransactionType_eqb (Transaction.type t) income)
            (transactions d)).

Definition signedAmount (t : Transaction.t) : Q :=
  if TransactionType_eqb (Transaction.type t) expense
  then - Transaction.amount t else Transaction.amount t.

Definition getCategoryActivity (categoryId month : string) (d : BudgetData) : Q :=
  reduce_sum signedAmount
    (filter (fun t => String.prefix month (Transaction.date t)
                      && (Transaction.categoryId t =? categoryId)%string)
            (transactions d)).

Definition calculateCategoryAvailable (categoryId month : string) (d : BudgetData) : Q :=
  let budget := find (budgetFor categoryId month) (budgets d) in
  let previousMonth := getPreviousMonth month in
  let previousBudget := find (budgetFor categoryId previousMonth) (budgets d) in
  let assigned := orZero (option_map Budget.assigned budget) in
  let activity := getCategoryActivity categoryId month d in
  let previousAvailable := orZero (option_map Budget.available previousBudget) in
  previousAvailable + assigned + activity.

Definition calculateOverspending (month : string) (d : BudgetData) : Q :=
  reduce_sum
    (fun budget =>
       let available := calculateCategoryAvailable (Budget.categoryId budget) month d in
       Qmax 0 (- available))
    (filter (fun b => (Budget.month b =? month)%string) (budgets d)).

Definition totalAssignedIn (month : string) (d : BudgetData) : Q :=
  reduce_sum Budget.assigned
    (filter (fun b => (Budget.month b =? month)%string) (budgets d)).

Definition calculateAvailableToBudget (month : string) (d : BudgetData) : Q :=
  let monthlyIncome := getMonthlyIncome month d in
  let previousMonth := getPreviousMonth month in
  let previousMonthAssigned := totalAssignedIn previousMonth d in
  let previousMonthIncome := getMonthlyIncome previousMonth d in
  let previousUnassigned := Qmax 0 (previousMonthIncome - previousMonthAssigned) in
  let previousOverspending := calculateOverspending previousMonth d in
  monthlyIncome + previousUnassigned - previousOverspending.

Record BudgetSummary := mkSummary {
  availableToBudget : Q;
  totalAssigned : Q;
  toBeBudgeted : Q;
  isFullyAssigned : bool;
  isOverAssigned : bool }.

Definition getMonthlyBudgetSummary (month : string) (d : BudgetData) : BudgetSummary :=
  let totalAssigned := totalAssignedIn month d in
  let availableToBudget := calculateAvailableToBudget month d in
  let toBeBudgeted := availableToBudget - totalAssigned in
  mkSummary availableToBudget totalAssigned toBeBudgeted
            (Qeq_bool toBeBudgeted 0) (Qlt_bool toBeBudgeted 0).

Definition set_assigned (v : Q) (b : Budget.t) : Budget.t :=
  Budget.mk (Budget.id b) (Budget.categoryId b) (Budget.month b)
            v (Budget.activity b) (Budget.available b).

Definition set_available (v : Q) (b : Budget.t) : Budget.t :=
  Budget.mk (Budget.id b) (Budget.categoryId b) (Budget.month b)
            (Budget.assigned b) (Budget.activity b) v.

(** The id of a new record: [`budget-${Date.now()}-${categoryId}`]. *)
Definition newBudgetId (now : Z) (categoryId : string) : string :=
  "budget-" ++ string_of_Z now ++ "-" ++ categoryId.

(** [assignMoney].  In the first branch [existingBudget] is the object at
    the index of the first match; [available] is recomputed after
    [assigned] has been updated.  In the second branch [available] is
    computed before [newBudget] is pushed; [now] is what [Date.now()]
    gives there. *)
Definition assignMoney (now : Z) (categoryId month : string) (amount : Q)
    (d : BudgetData) : nat * BudgetData :=
  match findIndex (budgetFor categoryId month) (budgets d) with
  | Some existingBudget =>
      let d1 :=
        set_budgets
          (update_at existingBudget
             (fun b => set_assigned (Budget.assigned b + amount) b) (budgets d)) d in
      let available := calculateCategoryAvailable categoryId month d1 in
      (existingBudget,
       set_budgets (update_at existingBudget (set_available available) (budgets d1)) d1)
  | None =>
      let newBudget :=
        Budget.mk (newBudgetId now categoryId) categoryId month amount
                  (getCategoryActivity categoryId month d) 0 in
      let newBudget' :=
        set_available (calculateCategoryAvailable categoryId month d) newBudget in
      (List.length (budgets d), set_budgets (budgets d ++ [newBudget']) d)
  end.

(** ** Goal progress *)

Inductive Result (A : Type) :=
  | Ok (a : A)
  | Throw (message : string).
Arguments Ok {A} a.
Arguments Throw {A} message.

Record GoalProgress := mkProgress {
  progress : Q;
  monthsRemaining : number;
  onTrack : bool;
  recommendedMonthly : Q }.

Definition GoalType_eqb (a b : GoalType) : bool :=
  match a, b with
  | target_balance, target_balance | monthly_funding, monthly_funding
  | target_date, target_date => true
  | _, _ => false
  end.

(** A string is truthy unless it is empty; an absent one is [undefined]. *)
Definition truthy_string (o : option string) : bool :=
  match o with
  | Some s => negb (s =? "")%string
  | None => false
  end.

Definition truthy_opt (o : option Q) : bool :=
  match o with
  | Some q => truthy q
  | None => false
  end.

Definition calculateGoalProgress (h : Host) (goalId : string) (d : BudgetData)
    : Result GoalProgress :=
  match find (fun g => (Goal.id g =? goalId)%string) (goals d) with
  | None => Throw "Goal not found"
  | Some goal =>
      let currentAmount := Goal.currentAmount goal in
      let progress :=
        if Qlt_bool 0 (Goal.targetAmount goal)
        then (currentAmount / Goal.targetAmount goal) * 100 else 0 in
      if GoalType_eqb (Goal.type goal) target_date
         && truthy_string (Goal.targetDate goal) then
        match Date_year_month h (match Goal.targetDate goal with
                                 | Some s => s | None => "" end) with
        | None =>
            (* [Math.max(0, NaN)] is NaN, and [NaN > 0] is false *)
            Ok (mkProgress progress NaN true 0)
        | Some (targetYear, targetMonth) =>
            let monthsRemaining :=
              inject_Z (Z.max 0 ((targetYear - now_year h) * 12
                                 + (targetMonth - now_month h))) in
            if Qlt_bool 0 monthsRemaining then
              let recommendedMonthly :=
                (Goal.targetAmount goal - currentAmount) / monthsRemaining in
              let onTrack :=
                match Goal.monthlyFunding goal with
                | Some f => if truthy f then Qle_bool recommendedMonthly f else false
                | None => false
                end in
              Ok (mkProgress progress (Fin monthsRemaining) onTrack recommendedMonthly)
            else Ok (mkProgress progress (Fin monthsRemaining) true 0)
        end
      else if GoalType_eqb (Goal.type goal) monthly_funding
              && truthy_opt (Goal.monthlyFunding goal) then
        let recommendedMonthly :=
          match Goal.monthlyFunding goal with Some f => f | None => 0 end in
        if Qlt_bool 0 recommendedMonthly then
          Ok (mkProgress progress
                (Fin (inject_Z (Qceiling ((Goal.targetAmount goal - currentAmount)
                                          / recommendedMonthly))))
                true recommendedMonthly)
        else Ok (mkProgress progress (Fin 0) true recommendedMonthly)
      else Ok (mkProgress progress (Fin 0) true 0)
  end.

(** ** Auto-assignment *)

Definition getOverspentCategories (month : string) (d : BudgetData) : list string :=
  map Budget.categoryId
    (filter (fun b => Qlt_bool (calculateCategoryAvailable (Budget.categoryId b) month d) 0)
       (filter (fun b => (Budget.month b =? month)%string) (budgets d))).

(** First loop of [autoAssignMoney]: the list of overspent categories was
    computed before the loop; [needed] is recomputed on the current
    ledger. *)
Fixpoint coverOverspent (h : Host) (month : string) (overspentCategories : list string)
    (assigned : list nat) (remainingMoney : Q) (d : BudgetData)
    : list nat * Q * BudgetData :=
  match overspentCategories with
  | [] => (assigned, remainingMoney, d)
  | categoryId :: rest =>
      if Qle_bool remainingMoney 0 then (assigned, remainingMoney, d)
      else
        let needed := Qabs (calculateCategoryAvailable categoryId month d) in
        let toAssign := Qmin needed remainingMoney in
        let '(budget, d') :=
          assignMoney (Date_now h (List.length assigned)) categoryId month toAssign d in
        coverOverspent h month rest (assigned ++ [budget]) (remainingMoney - toAssign) d'
  end.

(** Second loop: goals in priority order.  An exception of
    [calculateGoalProgress] would leave the method with the ledger as
    mutated so far. *)
Fixpoint fundGoals (h : Host) (month : string) (priorities : list string)
    (assigned : list nat) (remainingMoney : Q) (d : BudgetData)
    : Result (list nat) * BudgetData :=
  match priorities with
  | [] => (Ok assigned, d)
  | categoryId :: rest =>
      if Qle_bool remainingMoney 0 then (Ok assigned, d)
      else
        match find (fun c => (Category.id c =? categoryId)%string) (categories d) with
        | Some category =>
            if Category.isGoal category then
              match find (fun g => (Goal.categoryId g =? categoryId)%string
                                   && Goal.isActive g) (goals d) with
              | Some goal =>
                  match calculateGoalProgress h (Goal.id goal) d with
                  | Throw message => (Throw message, d)
                  | Ok p =>
                      let currentAssigned :=
                        orZero (option_map Budget.assigned
                                  (find (budgetFor categoryId month) (budgets d))) in
                      let toAssign :=
                        Qmin (Qmax 0 (recommendedMonthly p - currentAssigned))
                             remainingMoney in
                      if Qlt_bool 0 toAssign then
                        let '(budget, d') :=
                          assignMoney (Date_now h (List.length assigned))
                                      categoryId month toAssign d in
                        fundGoals h month rest (assigned ++ [budget])
                                  (remainingMoney - toAssign) d'
                      else fundGoals h month rest assigned remainingMoney d
                  end
              | None => fundGoals h month rest assigned remainingMoney d
              end
            else fundGoals h month rest assigned remainingMoney d
        | None => fundGoals h month rest assigned remainingMoney d
        end
  end.

Definition autoAssignMoney (h : Host) (month : string) (priorities : list string)
    (d : BudgetData) : Result (list nat) * BudgetData :=
  let toBeBudgeted := toBeBudgeted (getMonthlyBudgetSummary month d) in
  if Qle_bool toBeBudgeted 0 then (Ok [], d)
  else
    let overspentCategories := getOverspentCategories month d in
    let '(assigned, remainingMoney, d1) :=
      coverOverspent h month overspentCategories [] toBeBudgeted d in
    fundGoals h month priorities assigned remainingMoney d1.

(** ** Debt payoff plan *)

Definition getDebtAccounts (d : BudgetData) : list Account.t :=
  filter (fun account => AccountType_eqb (Account.type account) credit_card
                         || AccountType_eqb (Account.type account) loan)
         (accounts d).

Module DebtPlan.
Record t := mk {
  accountId : string;
  name : string;
  balance : Q;
  interestRate : Q;
  minimumPayment : number;
  payoffOrder : Z;
  monthsToPayoff : number;
  totalInterest : number }.
End DebtPlan.

(** [calculateLoanPayment(balance, annualRate, years = 10)];
    [Math.pow] with the whole exponent [years * 12] is exact. *)
Definition calculateLoanPayment (balance annualRate : Q) (years : Z) : number :=
  let monthlyRate := annualRate / 100 / 12 in
  let numPayments := (years * 12)%Z in
  if Qeq_bool monthlyRate 0 then Fin (balance / inject_Z numPayments)
  else
    ndiv (Fin (balance * (monthlyRate * (1 + monthlyRate) ^ numPayments)))
         (Fin ((1 + monthlyRate) ^ numPayments - 1)).

Record PayoffTime := mkPayoff {
  months : number;
  payoffInterest : number }.

Definition calculatePayoffTime (h : Host) (balance annualRate : Q) (payment : number)
    : PayoffTime :=
  if nle_bool payment (Fin 0) then mkPayoff PInf (Fin 0)
  else
    let monthlyRate := annualRate / 100 / 12 in
    if Qeq_bool monthlyRate 0 then
      mkPayoff (nceil (ndiv (Fin balance) payment)) (Fin 0)
    else
      let months :=
        nceil (ndiv (nneg (Math_log h (nsub (Fin 1)
                                            (ndiv (Fin (balance * monthlyRate)) payment))))
                    (Math_log h (Fin (1 + monthlyRate)))) in
      let totalInterest := nsub (nmul payment months) (Fin balance) in
      mkPayoff months (nmax (Fin 0) totalInterest).

(** [Array.prototype.sort] with a comparator: a stable sort that puts [a]
    before [b] when [compare a b <= 0]. *)
Fixpoint sort_insert {A : Type} (compare : A -> A -> Q) (x : A) (l : list A) : list A :=
  match l with
  | [] => [x]
  | y :: l' =>
      if Qle_bool (compare x y) 0 then x :: y :: l'
      else y :: sort_insert compare x l'
  end.

Definition sort {A : Type} (compare : A -> A -> Q) (l : list A) : list A :=
  fold_right (sort_insert compare) [] l.

Definition planEntry (debt : Account.t) : DebtPlan.t :=
  DebtPlan.mk
    (Account.id debt)
    (Account.name debt)
    (Qabs (Account.balance debt))
    (orZero (Account.interestRate debt))
    (if AccountType_eqb (Account.type debt) credit_card
     then Fin (Qmax 25 (Qabs (Account.balance debt) * (2 # 100)))
     else match Account.interestRate debt with
          | Some rate =>
              if truthy rate
              then calculateLoanPayment (Qabs (Account.balance debt)) rate 10
              else Fin 0
          | None => Fin 0
          end)
    0 (Fin 0) (Fin 0).

Definition sortPlan (strategy : Strategy) (plan : list DebtPlan.t) : list DebtPlan.t :=
  match strategy with
  | avalanche =>
      sort (fun a b => DebtPlan.interestRate b - DebtPlan.interestRate a) plan
  | snowball =>
      sort (fun a b => DebtPlan.balance a - DebtPlan.balance b) plan
  end.

(** The body of [plan.forEach((debt, index) => ..)]. *)
Definition schedule (h : Host) (extraPayment : Q) (index : nat) (debt : DebtPlan.t)
    : DebtPlan.t :=
  let pt :=
    calculatePayoffTime h (DebtPlan.balance debt) (DebtPlan.interestRate debt)
      (nadd (DebtPlan.minimumPayment debt)
            (Fin (if Nat.eqb index 0 then extraPayment else 0))) in
  DebtPlan.mk (DebtPlan.accountId debt) (DebtPlan.name debt)
              (DebtPlan.balance debt) (DebtPlan.interestRate debt)
              (DebtPlan.minimumPayment debt)
              (Z.of_nat index + 1) (months pt) (payoffInterest pt).

Fixpoint forEach_indexed {A : Type} (f : nat -> A -> A) (index : nat) (l : list A)
    : list A :=
  match l with
  | [] => []
  | x :: l' => f index x :: forEach_indexed f (S index) l'
  end.

Definition calculateDebtPayoffPlan (h : Host) (extraPayment : Q) (strategy : Strategy)
    (d : BudgetData) : list DebtPlan.t :=
  let debtAccounts := getDebtAccounts d in
  let plan := map planEntry debtAccounts in
  forEach_indexed (schedule h extraPayment) 0 (sortPlan strategy plan).

(** ** Net worth and age of money *)

Record NetWorth := mkNetWorth {
  assets : Q;
  liabilities : Q;
  netWorth : Q;
  (** the object keyed by account name, as the list of its entries in
      the order they were first stored; the properties read it by key *)
  accountBreakdown : list (string * Q) }.

(** [obj[key] = v] for a property of the object's own: a key already
    present keeps its place. *)
Fixpoint obj_put (key : string) (v : Q) (obj : list (string * Q)) : list (string * Q) :=
  match obj with
  | [] => [(key, v)]
  | (k, w) :: obj' =>
      if (k =? key)%string then (k, v) :: obj' else (k, w) :: obj_put key v obj'
  end.

(** [obj[key] = v] on an object literal, for a number [v].  The key
    [__proto__] reaches the setter of [Object.prototype], which ignores a
    value that is neither an object nor null: nothing is stored. *)
Definition obj_set (key : string) (v : Q) (obj : list (string * Q)) : list (string * Q) :=
  if (key =? "__proto__")%string then obj else obj_put key v obj.

Definition calculateNetWorth (d : BudgetData) : NetWorth :=
  let '(assets, liabilities, accountBreakdown) :=
    fold_left
      (fun '(assets, liabilities, accountBreakdown) account =>
         let accountBreakdown :=
           obj_set (Account.name account) (Account.balance account) accountBreakdown in
         if Qle_bool 0 (Account.balance account)
         then (assets + Account.balance account, liabilities, accountBreakdown)
         else (assets, liabilities + Qabs (Account.balance account), accountBreakdown))
      (accounts d) (0, 0, []) in
  mkNetWorth assets liabilities (assets - liabilities) accountBreakdown.

Definition getTime (h : Host) (t : Transaction.t) : Q :=
  match Date_getTime h (Transaction.date t) with
  | Some ms => inject_Z ms
  | None => 0
  end.

(** [Math.round]: the nearest integer, a half going up. *)
Definition Math_round (x : Q) : Q := inject_Z (Qfloor (x + (1 # 2))).

Definition calculateAgeOfMoney (h : Host) (d : BudgetData) : Q :=
  let recentTransactions :=
    filter (fun t => match Date_getTime h (Transaction.date t) with
                     | Some ms => (ninety_days_ago h <=? ms)%Z
                     | None => false
                     end) (transactions d) in
  let incomeTransactions :=
    filter (fun t => TransactionType_eqb (Transaction.type t) income) recentTransactions in
  let expenseTransactions :=
    filter (fun t => TransactionType_eqb (Transaction.type t) expense) recentTransactions in
  if Nat.eqb (List.length incomeTransactions) 0
     || Nat.eqb (List.length expenseTransactions) 0 then 0
  else
    let avgIncomeDate :=
      reduce_sum (getTime h) incomeTransactions
      / inject_Z (Z.of_nat (List.length incomeTransactions)) in
    let avgExpenseDate :=
      reduce_sum (getTime h) expenseTransactions
      / inject_Z (Z.of_nat (List.length expenseTransactions)) in
    let daysDifference := (avgExpenseDate - avgIncomeDate) / (1000 * 60 * 60 * 24) in
    Qmax 0 (Math_round daysDifference).

(** ** The engine as a whole

    One public method call, and what its caller observes: the value
    returned (a returned [Budget] is read in the ledger the call leaves)
    and the ledger. *)

Inductive Call :=
  | CalculateAvailableToBudget (month : string)
  | GetMonthlyBudgetSummary (month : string)
  | AssignMoney (categoryId month : string) (amount : Q)
  | CalculateCategoryAvailable (categoryId month : string)
  | GetDebtAccounts
  | CalculateDebtPayoffPlan (extraPayment : Q) (strategy : Strategy)
  | CalculateGoalProgress (goalId : string)
  | AutoAssignMoney (month : string) (priorities : list string)
  | CalculateNetWorth
  | CalculateAgeOfMoney.

Inductive Value :=
  | VNumber (q : Q)
  | VSummary (s : BudgetSummary)
  | VBudget (b : option Budget.t)
  | VBudgets (bs : list (option Budget.t))
  | VAccounts (l : list Account.t)
  | VPlan (l : list DebtPlan.t)
  | VProgress (p : GoalProgress)
  | VNetWorth (n : NetWorth).

Definition call (h : Host) (c : Call) (d : BudgetData) : Result Value * BudgetData :=
  match c with
  | CalculateAvailableToBudget month =>
      (Ok (VNumber (calculateAvailableToBudget month d)), d)
  | GetMonthlyBudgetSummary month =>
      (Ok (VSummary (getMonthlyBudgetSummary month d)), d)
  | AssignMoney categoryId month amount =>
      let '(budget, d') := assignMoney (Date_now h 0) categoryId month amount d in
      (Ok (VBudget (nth_error (budgets d') budget)), d')
  | CalculateCategoryAvailable categoryId month =>
      (Ok (VNumber (calculateCategoryAvailable categoryId month d)), d)
  | GetDebtAccounts => (Ok (VAccounts (getDebtAccounts d)), d)
  | CalculateDebtPayoffPlan extraPayment strategy =>
      (Ok (VPlan (calculateDebtPayoffPlan h extraPayment strategy d)), d)
  | CalculateGoalProgress goalId =>
      match calculateGoalProgress h goalId d with
      | Ok p => (Ok (VProgress p), d)
      | Throw message => (Throw message, d)
      end
  | AutoAssignMoney month priorities =>
      match autoAssignMoney h month priorities d with
      | (Ok assigned, d') =>
          (Ok (VBudgets (map (nth_error (budgets d')) assigned)), d')
      | (Throw message, d') => (Throw message, d')
      end
  | CalculateNetWorth => (Ok (VNetWorth (calculateNetWorth d)), d)
  | CalculateAgeOfMoney => (Ok (VNumber (calculateAgeOfMoney h d)), d)
  end.


(** ** Notions the properties are stated with *)

(** The [assigned] field of the (category, month) record, 0 if absent. *)
Definition assignedOf (categoryId month : string) (d : BudgetData) : Q :=
  match find (budgetFor categoryId month) (budgets d) with
  | Some b => Budget.assigned b
  | None => 0
  end.

(** The [available] field stored in the (category, month) record, 0 if
    absent. *)
Definition storedAvailable (categoryId month : string) (d : BudgetData) : Q :=
  match find (budgetFor categoryId month) (budgets d) with
  | Some b => Budget.available b
  | None => 0
  end.

(** The signed sum of a category's transactions dated in a month. *)
Fixpoint activitySum (categoryId month : string) (ts : list Transaction.t) : Q :=
  match ts with
  | [] => 0
  | t :: ts' =>
      (if String.prefix month (Transaction.date t)
          && (Transaction.categoryId t =? categoryId)%string
       then match Transaction.type t with
            | expense => - Transaction.amount t
            | _ => Transaction.amount t
            end
       else 0)
      + activitySum categoryId month ts'
  end.

(** The sum of the income transactions dated in a month. *)
Fixpoint incomeSum (month : string) (ts : list Transaction.t) : Q :=
  match ts with
  | [] => 0
  | t :: ts' =>
      (if String.prefix month (Transaction.date t)
       then match Transaction.type t with
            | income => Transaction.amount t
            | _ => 0
            end
       else 0)
      + incomeSum month ts'
  end.

(** The sum of [f] over the Budget records of a month. *)
Fixpoint sumOverMonth (f : Budget.t -> Q) (month : string) (bs : list Budget.t) : Q :=
  match bs with
  | [] => 0
  | b :: bs' =>
      (if (Budget.month b =? month)%string then f b else 0) + sumOverMonth f month bs'
  end.

(** The sum of [assigned] over all Budget records. *)
Definition sumAssigned (d : BudgetData) : Q := reduce_sum Budget.assigned (budgets d).

(** At most one Budget record per (categoryId, month). *)
Definition budgetKey (b : Budget.t) : string * string :=
  (Budget.categoryId b, Budget.month b).

Definition uniqueBudgets (d : BudgetData) : Prop :=
  NoDup (map budgetKey (budgets d)).

(** The recursion the specification states: the envelope balance of a
    month is the recomputed balance of the month before plus this month's
    assigned and activity. *)
Definition carryForwardRecursion (d : BudgetData) : Prop :=
  forall categoryId month,
    calculateCategoryAvailable categoryId month d
    == calculateCategoryAvailable categoryId (getPreviousMonth month) d
       + assignedOf categoryId month d
       + activitySum categoryId month (transactions d).



(** What [assignMoney] does to a record it finds. *)
Definition reassign (amount available : Q) (b : Budget.t) : Budget.t :=
  set_available available (set_assigned (Budget.assigned b + amount) b).

Definition goalExists (goalId : string) (d : BudgetData) : Prop :=
  exists g, In g (goals d) /\ Goal.id g = goalId.

(** The order a comparator stands for. *)
Definition before {A : Type} (compare : A -> A -> Q) (a b : A) : Prop :=
  compare a b <= 0.

(** Equality of two numbers as values. *)
Definition number_eq (x y : number) : Prop :=
  match x, y with
  | Fin a, Fin b => a == b
  | PInf, PInf | NInf, NInf | NaN, NaN => True
  | _, _ => False
  end.

(** The fixed payment that amortizes [B] in [n] months at the monthly
    rate [r]: [B r (1+r)^n / ((1+r)^n - 1)]. *)
Definition amortization (B r : Q) (n : Z) : number :=
  ndiv (Fin (B * r * (1 + r) ^ n)) (Fin ((1 + r) ^ n - 1)).

Definition monthlyRateOf (debt : Account.t) : Q :=
  match Account.interestRate debt with
  | Some rate => rate / 100 / 12
  | None => 0
  end.

(** The minimum payment the specification states for a loan. *)
Definition statedLoanPayment (debt : Account.t) : number :=
  if Qeq_bool (monthlyRateOf debt) 0
  then Fin (Qabs (Account.balance debt) / 120)
  else amortization (Qabs (Account.balance debt)) (monthlyRateOf debt) 120.

(** The minimum payment the engine gives a loan. *)
Definition loanPayment (debt : Account.t) : number :=
  if Qeq_bool (monthlyRateOf debt) 0
  then Fin 0
  else amortization (Qabs (Account.balance debt)) (monthlyRateOf debt) 120.

(** The order a strategy asks for: avalanche, the higher interest rate
    first; snowball, the smaller balance first. *)
Definition byStrategy (strategy : Strategy) (a b : DebtPlan.t) : Prop :=
  match strategy with
  | avalanche => DebtPlan.interestRate b <= DebtPlan.interestRate a
  | snowball => DebtPlan.balance a <= DebtPlan.balance b
  end.

(** Two hosts that are the same machine: same [Math.log], same reading
    of date strings. *)
Definition sameMachine (h1 h2 : Host) : Prop :=
  (forall x, ln h1 x = ln h2 x)
  /\ (forall s, Date_year_month h1 s = Date_year_month h2 s)
  /\ (forall s, Date_getTime h1 s = Date_getTime h2 s).

(** Two hosts at the same moment. *)
Definition sameClock (h1 h2 : Host) : Prop :=
  (forall n, Date_now h1 n = Date_now h2 n)
  /\ now_year h1 = now_year h2
  /\ now_month h1 = now_month h2
  /\ ninety_days_ago h1 = ninety_days_ago h2.

(** The calls whose result can depend on the moment they are made:
    [assignMoney] when it creates the record, [calculateGoalProgress] on a
    [target_date] goal that has a date, [autoAssignMoney] (which calls
    both) and [calculateAgeOfMoney]. *)
Definition readsClock (c : Call) (d : BudgetData) : bool :=
  match c with
  | AssignMoney categoryId month _ =>
      match find (budgetFor categoryId month) (budgets d) with
      | Some _ => false
      | None => true
      end
  | CalculateGoalProgress goalId =>
      match find (fun g => (Goal.id g =? goalId)%string) (goals d) with
      | Some goal =>
          GoalType_eqb (Goal.type goal) target_date
          && truthy_string (Goal.targetDate goal)
      | None => false
      end
  | AutoAssignMoney _ _ | CalculateAgeOfMoney => true
  | _ => false
  end.

(** ** Example hosts and ledgers *)

Definition emptyLedger : BudgetData := mkData [] [] [] [] [].

(** A machine in UTC: how it reads an ISO date [YYYY-MM-DD]. *)
Definition isoDate (s : string) : option (Z * Z * Z) :=
  match map Number_of_segment (split_dash s) with
  | [Some y; Some m; Some dd] =>
      if ((1 <=? m) && (m <=? 12) && (1 <=? dd) && (dd <=? 31))%Z
      then Some (y, m, dd) else None
  | _ => None
  end.

Definition isoYearMonth (s : string) : option (Z * Z) :=
  match isoDate s with
  | Some (y, m, _) => Some (y, (m - 1)%Z)
  | None => None
  end.

(** Days from 1970-01-01 to a date of the Gregorian calendar. *)
Definition daysFromEpoch (y m dd : Z) : Z :=
  (let y' := if m <=? 2 then y - 1 else y in
   let era := y' / 400 in
   let yoe := y' - era * 400 in
   let doy := (153 * (if 2 <? m then m - 3 else m + 9) + 2) / 5 + dd - 1 in
   let doe := yoe * 365 + yoe / 4 - yoe / 100 + doy in
   era * 146097 + doe - 719468)%Z.

Definition isoTime (s : string) : option Z :=
  match isoDate s with
  | Some (y, m, dd) => Some (daysFromEpoch y m dd * 86400000)%Z
  | None => None
  end.

(** A host in UTC on the given day, [ms] milliseconds after midnight.
    Its [Math.log] is the stand-in [x - 1], positive above 1 as the
    logarithm is. *)
Definition utcHost (y m dd ms : Z) : Host :=
  mkHost (fun _ => daysFromEpoch y m dd * 86400000 + ms)%Z y (m - 1)
         ((daysFromEpoch y m dd - 90) * 86400000 + ms)
         isoYearMonth isoTime (fun x => x - 1).

(** 1 March 2024, at midnight and one millisecond later. *)
Definition host0 : Host := utcHost 2024 3 1 0.
Definition host1 : Host := utcHost 2024 3 1 1.

(** A January envelope funded with 30, and a purchase of 10 recorded in
    January afterwards. *)
Definition ledgerStale : BudgetData :=
  mkData [] []
    [Transaction.mk "t1" expense "checking" "groceries" 10 "food" "2024-01-15" false]
    [Budget.mk "b1" "groceries" "2024-01" 30 0 30]
    [].

(** January and February 2024: a salary each month, groceries
    overspent in January, a December envelope carried forward. *)
Definition ledgerWinter : BudgetData :=
  mkData
    [Account.mk "checking" "Primary Checking" checking 2000 true None None;
     Account.mk "visa" "Visa" credit_card (-500) true (Some 24) None]
    [Category.mk "groceries" "Groceries" expense false false;
     Category.mk "rent" "Housing" expense false false;
     Category.mk "vacation" "Vacation" expense false true]
    [Transaction.mk "t1" income "checking" "salary" 3000 "pay" "2024-01-05" true;
     Transaction.mk "t2" expense "checking" "groceries" 320 "food" "2024-01-15" true;
     Transaction.mk "t3" income "checking" "salary" 3000 "pay" "2024-02-05" true;
     Transaction.mk "t4" expense "checking" "groceries" 150 "food" "2024-02-10" false]
    [Budget.mk "b0" "groceries" "2023-12" 100 (-80) 20;
     Budget.mk "b1" "groceries" "2024-01" 250 (-320) (-50);
     Budget.mk "b2" "rent" "2024-01" 1000 0 1000;
     Budget.mk "b3" "groceries" "2024-02" 0 (-150) (-200)]
    [Goal.mk "g1" "vacation" "Trip" target_date 1200 (Some "2024-09-01") (Some 200) 0 true;
     Goal.mk "g2" "vacation" "Fund" target_balance 6000 None None 1500 true].

(** [ledgerWinter] with a November purchase added and another amount
    assigned in December. *)
Definition ledgerWinterOlder : BudgetData :=
  mkData (accounts ledgerWinter) (categories ledgerWinter)
    (Transaction.mk "t0" expense "checking" "groceries" 75 "food" "2023-11-20" true
     :: transactions ledgerWinter)
    [Budget.mk "b0" "groceries" "2023-12" 140 (-80) 20;
     Budget.mk "b1" "groceries" "2024-01" 250 (-320) (-50);
     Budget.mk "b2" "rent" "2024-01" 1000 0 1000;
     Budget.mk "b3" "groceries" "2024-02" 0 (-150) (-200)]
    (goals ledgerWinter).

(** [ledgerWinter] with nothing left in the groceries envelope at the
    end of December: the stored [available] of the 2023-12 record is 0
    instead of 20, and nothing else differs. *)
Definition ledgerWinterCarry : BudgetData :=
  mkData (accounts ledgerWinter) (categories ledgerWinter) (transactions ledgerWinter)
    [Budget.mk "b0" "groceries" "2023-12" 100 (-80) 0;
     Budget.mk "b1" "groceries" "2024-01" 250 (-320) (-50);
     Budget.mk "b2" "rent" "2024-01" 1000 0 1000;
     Budget.mk "b3" "groceries" "2024-02" 0 (-150) (-200)]
    (goals ledgerWinter).

(** A loan of 12000 on which no interest rate was entered. *)
Definition interestFreeLoan : Account.t :=
  Account.mk "car" "Car loan" loan (-12000) true None None.

Definition ledgerInterestFreeLoan : BudgetData :=
  mkData [interestFreeLoan] [] [] [] [].

(** The same loan with the interest rate entered as 0. *)
Definition zeroRateLoan : Account.t :=
  Account.mk "car" "Car loan" loan (-12000) true (Some 0) None.

Definition ledgerZeroRateLoan : BudgetData :=
  mkData [zeroRateLoan] [] [] [] [].

(** Three debts at 24%, 12% and 5%, with balances 500, 5000 and 1000. *)
Definition ledgerThreeDebts : BudgetData :=
  mkData
    [Account.mk "a" "Card A" credit_card (-500) true (Some 24) None;
     Account.mk "b" "Card B" credit_card (-5000) true (Some 12) None;
     Account.mk "c" "Loan C" loan (-1000) true (Some 5) None]
    [] [] [] [].

(** A credit card at 30% a year with 10000 owed: the minimum payment of
    2% is 200, the first month's interest is 250. *)
Definition ledgerHighRateCard : BudgetData :=
  mkData [Account.mk "visa" "Visa" credit_card (-10000) true (Some 30) None]
         [] [] [] [].

(** ** Month navigation *)

(** The key [YYYY-MM] of month [m] of year [y], as the engine prints it. *)
Definition monthKey (y m : Z) : string :=
  string_of_Z y ++ "-" ++ padStart2 (string_of_Z m).

Inductive Direction := prev | next.

(** [navigateMonth] of the page component: the construction of
    [getPreviousMonth], one month forward or back; the result is the key
    handed to [setSelectedMonth]. *)
Definition navigateMonth (direction : Direction) (selectedMonth : string) : string :=
  match map Number_of_segment (split_dash selectedMonth) with
  | Some year :: Some month :: _ =>
      let y := if ((0 <=? year) && (year <=? 99))%Z then (1900 + year)%Z else year in
      let idx := (y * 12 + (month - 1)
                  + match direction with next => 1 | prev => -1 end)%Z in
      string_of_Z (idx / 12) ++ "-" ++ padStart2 (string_of_Z (idx mod 12 + 1))
  | _ => "NaN-NaN"
  end.

(** A string without the separator of month keys. *)
Fixpoint noDash (s : string) : Prop :=
  match s with
  | EmptyString => True
  | String c s' => Ascii.eqb c "-"%char = false /\ noDash s'
  end.

(** A month key [YYYY-MM] with a four-digit year and a month 01..12. *)
Definition wellFormedMonth (month : string) : Prop :=
  exists y m, (1000 <= y <= 9999)%Z /\ (1 <= m <= 12)%Z /\ month = monthKey y m.

(** ** The months a budget looks back on *)



(** A transaction dated in [month] or in [prior]. *)
Definition datedInEither (month prior : string) (t : Transaction.t) : bool :=
  String.prefix month (Transaction.date t) || String.prefix prior (Transaction.date t).




(** Two Budget records with the same key, the same [assigned] if they
    are of [prior], and the same stored [available] if they are of
    [before]. *)
Definition sameLookbackAt (prior before : string) (b b' : Budget.t) : Prop :=
  Budget.categoryId b = Budget.categoryId b'
  /\ Budget.month b = Budget.month b'
  /\ (Budget.month b = prior -> Budget.assigned b == Budget.assigned b')
  /\ (Budget.month b = before -> Budget.available b == Budget.available b').

(** ** What auto-assignment keeps *)

(** [d'] comes from [d] by assigning non-negative amounts to envelopes
    of [month] only. *)
Definition assignedWithin (month : string) (d d' : BudgetData) : Prop :=
  transactions d' = transactions d
  /\ calculateAvailableToBudget month d' == calculateAvailableToBudget month d
  /\ (forall c, calculateCategoryAvailable c month d
                <= calculateCategoryAvailable c month d')
  /\ totalAssignedIn month d' - totalAssignedIn month d == sumAssigned d' - sumAssigned d
  /\ filter (fun b => negb (Budget.month b =? month)%string) (budgets d')
     = filter (fun b => negb (Budget.month b =? month)%string) (budgets d).

(** ** Reading the net worth breakdown *)

(** [obj[key]] for a key the object holds itself. *)
Fixpoint obj_get (key : string) (obj : list (string * Q)) : option Q :=
  match obj with
  | [] => None
  | (k, v) :: obj' => if (k =? key)%string then Some v else obj_get key obj'
  end.

(** The balance of the last account of the list that has the name. *)
Fixpoint lastBalance (name : string) (l : list Account.t) : option Q :=
  match l with
  | [] => None
  | a :: l' =>
      match lastBalance name l' with
      | Some v => Some v
      | None => if (Account.name a =? name)%string then Some (Account.balance a) else None
      end
  end.

(** ** The debt dashboard ([DebtDashboard.tsx]) *)

(** The strategy of the settings: one the engine knows, or [custom]. *)
Inductive DebtStrategy := engine_strategy (s : Strategy) | custom.

(** [Math.max(...xs)]: minus infinity for no argument, NaN if an
    argument is. *)
Definition Math_max (xs : list number) : number := fold_left nmax xs NInf.

Module DebtOverview.
Record t := mk {
  totalDebt : Q;
  totalMinimumPayments : Q;
  totalInterest : number;
  timeToPayoff : number;
  accounts : list Account.t;
  payoffPlan : list DebtPlan.t }.
End DebtOverview.

(** [debtOverview] of the dashboard, for the ledger its engine holds. *)
Definition debtOverview (h : Host) (extraPayment : Q) (strategy : DebtStrategy)
    (d : BudgetData) : DebtOverview.t :=
  let debtAccounts := getDebtAccounts d in
  let totalDebt := reduce_sum (fun account => Qabs (Account.balance account)) debtAccounts in
  let totalMinimumPayments :=
    reduce_sum
      (fun account =>
         if AccountType_eqb (Account.type account) credit_card
         then Qmax 25 (Qabs (Account.balance account) * (2 # 100))
         else 0)
      debtAccounts in
  let payoffPlan :=
    calculateDebtPayoffPlan h extraPayment
      (match strategy with custom => avalanche | engine_strategy s => s end) d in
  let totalInterest :=
    fold_left (fun sum debt => nadd sum (DebtPlan.totalInterest debt)) payoffPlan (Fin 0) in
  let maxMonths := Math_max (map DebtPlan.monthsToPayoff payoffPlan) in
  DebtOverview.mk totalDebt totalMinimumPayments totalInterest maxMonths
                  debtAccounts payoffPlan.

(** [x <= y] for numbers that are not NaN. *)
Definition nle (x y : number) : Prop := nle_bool x y = true.

(** ** Goals *)

(** A goal funded with 150 a month towards 1000, of which 400 are saved,
    and one with a date that cannot be read. *)
Definition ledgerSavingPlan : BudgetData :=
  mkData [] [Category.mk "vacation" "Vacation" expense false true] [] []
    [Goal.mk "g1" "vacation" "Trip" monthly_funding 1000 None (Some 150) 400 true;
     Goal.mk "g2" "vacation" "Someday" target_date 500 (Some "soon") (Some 50) 0 true].

(** ** The goals tracker ([GoalsTracker.tsx]) *)

(** An entry of [goalsWithProgress]: [{ ...goal, ...progress, category }]. *)
Record GoalWithProgress := mkGoalWithProgress {
  goal_of : Goal.t;
  progress_of : GoalProgress;
  category_of : option Category.t }.

(** The [map] of [goalsWithProgress].  The engine of the component is
    made once, from the ledger [engineData] the component is mounted
    with; the goals and categories are read from the [data] of each
    rendering.  An exception of [calculateGoalProgress] ends the [map]. *)
Fixpoint mapGoals (h : Host) (engineData : BudgetData) (cats : list Category.t)
    (gs : list Goal.t) : Result (list GoalWithProgress) :=
  match gs with
  | [] => Ok []
  | goal :: gs' =>
      match calculateGoalProgress h (Goal.id goal) engineData with
      | Throw message => Throw message
      | Ok progress =>
          let category :=
            find (fun c => (Category.id c =? Goal.categoryId goal)%string) cats in
          match mapGoals h engineData cats gs' with
          | Throw message => Throw message
          | Ok rest => Ok (mkGoalWithProgress goal progress category :: rest)
          end
      end
  end.

(** [goalsWithProgress] before its [sort].  The comparator of the
    [sort] is not an ordering (it compares by target date or by progress
    according to the pair), so the order it leaves is the
    implementation's; what is stated of the sorted list is stated of
    every permutation of this one. *)
Definition goalsWithProgress (h : Host) (engineData data : BudgetData)
    : Result (list GoalWithProgress) :=
  mapGoals h engineData (categories data) (filter Goal.isActive (goals data)).

Module GoalsSummary.
Record t := mk {
  total : nat;
  completed : nat;
  onTrack : nat;
  behindSchedule : nat;
  totalTarget : Q;
  totalSaved : Q;
  overallProgress : Q }.
End GoalsSummary.


(** [handleAddGoal] of the page, called at the time [now]: the goal gets
    the id [goal-<now>] and is added at the end. *)
Definition handleAddGoal (now : Z) (goalData : Goal.t) (d : BudgetData) : BudgetData :=
  let newGoal :=
    Goal.mk ("goal-" ++ string_of_Z now) (Goal.categoryId goalData)
            (Goal.name goalData) (Goal.type goalData) (Goal.targetAmount goalData)
            (Goal.targetDate goalData) (Goal.monthlyFunding goalData)
            (Goal.currentAmount goalData) (Goal.isActive goalData) in
  mkData (accounts d) (categories d) (transactions d) (budgets d)
         (goals d ++ [newGoal]).

(** ** The envelope view ([EnvelopeBudget.tsx]) *)

(** [handleAssignMoney].  The engine of the component holds the ledger
    [engineData]; [dataBudgets] are the records of the [data.budgets] of
    the rendering as [filter] reads them, after the engine's call (a
    record the two share is the engine's).  The result is the list handed
    to [onUpdateBudget], if any, with the engine's ledger afterwards. *)
Definition handleAssignMoney (now : Z) (dataBudgets : list Budget.t)
    (month categoryId : string) (amount : Q) (engineData : BudgetData)
    : option (list Budget.t) * BudgetData :=
  if Qeq_bool amount 0 then (None, engineData)
  else
    let '(newBudget, engineData') :=
      assignMoney now categoryId month amount engineData in
    let updatedBudgets :=
      filter (fun b => negb ((Budget.categoryId b =? categoryId)%string
                             && (Budget.month b =? month)%string))
             dataBudgets in
    (Some (updatedBudgets ++ match nth_error (budgets engineData') newBudget with
                             | Some b => [b]
                             | None => []
                             end),
     engineData').

(** * The engine on double-precision numbers

    The definitions above take a money amount as an exact rational.  The
    code computes with JavaScript numbers, IEEE 754 binary64 with
    rounding to nearest (ties to even), which Rocq's primitive [float]
    is.  This module embeds the engine again on [float], operation for
    operation and in the order of the source, for the properties that
    rounding decides.  Strings, dates and the shape of the ledger are as
    above; [Math.log] and [Math.pow], which ECMAScript leaves to the
    implementation, are fields of the host. *)

Set Warnings "-inexact-float".

Module Double.

Local Open Scope float_scope.

(** ** JavaScript numbers *)

(** [x ? .. : ..] and [x || 0] on a number: 0, -0 and NaN are falsy. *)
Definition truthy (x : float) : bool := negb ((x =? 0) || is_nan x).

(** [o?.field || 0] for an optional number. *)
Definition orZero (o : option float) : float :=
  match o with
  | Some x => if truthy x then x else 0
  | None => 0
  end.

Definition truthy_opt (o : option float) : bool :=
  match o with
  | Some x => truthy x
  | None => false
  end.

(** [arr.reduce((sum, x) => sum + f(x), 0)]. *)
Definition reduce_sum {A : Type} (f : A -> float) (l : list A) : float :=
  fold_left (fun sum x => sum + f x) l 0.

(** [Math.max] and [Math.min] of two numbers: NaN if either is, and +0
    above -0. *)
Definition Math_max (x y : float) : float :=
  if is_nan x || is_nan y then nan
  else if x <? y then y
  else if y <? x then x
  else if get_sign x then y else x.

Definition Math_min (x y : float) : float :=
  if is_nan x || is_nan y then nan
  else if x <? y then x
  else if y <? x then y
  else if get_sign x then x else y.

(** A whole number as a double (exact below 2^53). *)
Definition of_Z (z : Z) : float :=
  match z with
  | Z0 => 0
  | Zpos p => of_uint63 (Uint63.of_Z (Zpos p))
  | Zneg p => - of_uint63 (Uint63.of_Z (Zpos p))
  end.

(** [Math.ceil]: a double with a negative exponent is [m / 2^-e] with
    [m] below 2^53; the others are whole, infinite or NaN already.  A
    value in (-1, 0) gives -0. *)
Definition Math_ceil (x : float) : float :=
  match Prim2SF x with
  | S754_finite s m e =>
      if (0 <=? e)%Z then x
      else
        let whole := (Z.pos m / 2 ^ (- e))%Z in
        let exact := (Z.pos m mod 2 ^ (- e) =? 0)%Z in
        if s then - of_Z whole
        else of_Z (if exact then whole else whole + 1)
  | _ => x
  end.

(** ** The host *)

(** The clock and the reading of date strings, as above. *)
Definition Dates : Type := Host.

Record Host := mkHost {
  dates : Dates;
  Math_log : float -> float;
  Math_pow : float -> float -> float }.


(** ** Ledger types *)

Module Account.
Record t := mk {
  id : string;
  name : string;
  type : AccountType;
  balance : float;
  isActive : bool;
  interestRate : option float;
  creditLimit : option float }.
End Account.

Module Transaction.
Record t := mk {
  id : string;
  type : TransactionType;
  accountId : string;
  categoryId : string;
  amount : float;
  description : string;
  date : string;
  isReconciled : bool }.
End Transaction.

Module Budget.
Record t := mk {
  id : string;
  categoryId : string;
  month : string;
  assigned : float;
  activity : float;
  available : float }.
End Budget.

Module Goal.
Record t := mk {
  id : string;
  categoryId : string;
  name : string;
  type : GoalType;
  targetAmount : float;
  targetDate : option string;
  monthlyFunding : option float;
  currentAmount : float;
  isActive : bool }.
End Goal.

Record BudgetData := mkData {
  accounts : list Account.t;
  categories : list Category.t;
  transactions : list Transaction.t;
  budgets : list Budget.t;
  goals : list Goal.t }.

Definition set_budgets (bs : list Budget.t) (d : BudgetData) : BudgetData :=
  mkData (accounts d) (categories d) (transactions d) bs (goals d).

(** ** Envelope budgeting *)

Definition budgetFor (categoryId month : string) (b : Budget.t) : bool :=
  (Budget.categoryId b =? categoryId)%string && (Budget.month b =? month)%string.

Definition getMonthlyIncome (month : string) (d : BudgetData) : float :=
  reduce_sum Transaction.amount
    (filter (fun t => String.prefix month (Transaction.date t)
                      && TransactionType_eqb (Transaction.type t) income)
            (transactions d)).

Definition signedAmount (t : Transaction.t) : float :=
  if TransactionType_eqb (Transaction.type t) expense
  then - Transaction.amount t else Transaction.amount t.

Definition getCategoryActivity (categoryId month : string) (d : BudgetData) : float :=
  reduce_sum signedAmount
    (filter (fun t => String.prefix month (Transaction.date t)
                      && (Transaction.categoryId t =? categoryId)%string)
            (transactions d)).

Definition calculateCategoryAvailable (categoryId month : string) (d : BudgetData)
    : float :=
  let budget := find (budgetFor categoryId month) (budgets d) in
  let previousMonth := getPreviousMonth month in
  let previousBudget := find (budgetFor categoryId previousMonth) (budgets d) in
  let assigned := orZero (option_map Budget.assigned budget) in
  let activity := getCategoryActivity categoryId month d in
  let previousAvailable := orZero (option_map Budget.available previousBudget) in
  previousAvailable + assigned + activity.

Definition calculateOverspending (month : string) (d : BudgetData) : float :=
  reduce_sum
    (fun budget =>
       let available := calculateCategoryAvailable (Budget.categoryId budget) month d in
       Math_max 0 (- available))
    (filter (fun b => (Budget.month b =? month)%string) (budgets d)).

Definition calculateAvailableToBudget (month : string) (d : BudgetData) : float :=
  let monthlyIncome := getMonthlyIncome month d in
  let previousMonth := getPreviousMonth month in
  let previousMonthBudgets :=
    filter (fun b => (Budget.month b =? previousMonth)%string) (budgets d) in
  let previousMonthAssigned := reduce_sum Budget.assigned previousMonthBudgets in
  let previousMonthIncome := getMonthlyIncome previousMonth d in
  let previousUnassigned := Math_max 0 (previousMonthIncome - previousMonthAssigned) in
  let previousOverspending := calculateOverspending previousMonth d in
  monthlyIncome + previousUnassigned - previousOverspending.

Record BudgetSummary := mkSummary {
  availableToBudget : float;
  totalAssigned : float;
  toBeBudgeted : float;
  isFullyAssigned : bool;
  isOverAssigned : bool }.

Definition getMonthlyBudgetSummary (month : string) (d : BudgetData) : BudgetSummary :=
  let budgets := filter (fun b => (Budget.month b =? month)%string) (budgets d) in
  let totalAssigned := reduce_sum Budget.assigned budgets in
  let availableToBudget := calculateAvailableToBudget month d in
  let toBeBudgeted := availableToBudget - totalAssigned in
  mkSummary availableToBudget totalAssigned toBeBudgeted
            (toBeBudgeted =? 0) (toBeBudgeted <? 0).

Definition set_assigned (v : float) (b : Budget.t) : Budget.t :=
  Budget.mk (Budget.id b) (Budget.categoryId b) (Budget.month b)
            v (Budget.activity b) (Budget.available b).

Definition set_available (v : float) (b : Budget.t) : Budget.t :=
  Budget.mk (Budget.id b) (Budget.categoryId b) (Budget.month b)
            (Budget.assigned b) (Budget.activity b) v.

(** [assignMoney], as above: the record found is updated in place, its
    [available] recomputed after [assigned += amount]; a new record gets
    the [available] computed before it is pushed. *)
Definition assignMoney (now : Z) (categoryId month : string) (amount : float)
    (d : BudgetData) : nat * BudgetData :=
  match findIndex (budgetFor categoryId month) (budgets d) with
  | Some existingBudget =>
      let d1 :=
        set_budgets
          (update_at existingBudget
             (fun b => set_assigned (Budget.assigned b + amount) b) (budgets d)) d in
      let available := calculateCategoryAvailable categoryId month d1 in
      (existingBudget,
       set_budgets (update_at existingBudget (set_available available) (budgets d1)) d1)
  | None =>
      let newBudget :=
        Budget.mk (newBudgetId now categoryId) categoryId month amount
                  (getCategoryActivity categoryId month d) 0 in
      let newBudget' :=
        set_available (calculateCategoryAvailable categoryId month d) newBudget in
      (List.length (budgets d), set_budgets (budgets d ++ [newBudget']) d)
  end.

(** ** Goal progress *)

Record GoalProgress := mkProgress {
  progress : float;
  monthsRemaining : float;
  onTrack : bool;
  recommendedMonthly : float }.

(** The years and months of the two dates are whole numbers far below
    2^53, on which the double arithmetic of the source is exact; their
    difference is computed in [Z]. *)
Definition calculateGoalProgress (h : Host) (goalId : string) (d : BudgetData)
    : Result GoalProgress :=
  match find (fun g => (Goal.id g =? goalId)%string) (goals d) with
  | None => Throw "Goal not found"
  | Some goal =>
      let currentAmount := Goal.currentAmount goal in
      let progress :=
        if 0 <? Goal.targetAmount goal
        then (currentAmount / Goal.targetAmount goal) * 100 else 0 in
      if GoalType_eqb (Goal.type goal) target_date
         && truthy_string (Goal.targetDate goal) then
        let monthsRemaining :=
          match Date_year_month (dates h) (match Goal.targetDate goal with
                                           | Some s => s | None => ""%string end) with
          | None => nan
          | Some (targetYear, targetMonth) =>
              Math_max 0 (of_Z ((targetYear - now_year (dates h)) * 12
                                + (targetMonth - now_month (dates h))))
          end in
        if 0 <? monthsRemaining then
          let recommendedMonthly :=
            (Goal.targetAmount goal - currentAmount) / monthsRemaining in
          let onTrack :=
            match Goal.monthlyFunding goal with
            | Some f => if truthy f then recommendedMonthly <=? f else false
            | None => false
            end in
          Ok (mkProgress progress monthsRemaining onTrack recommendedMonthly)
        else Ok (mkProgress progress monthsRemaining true 0)
      else if GoalType_eqb (Goal.type goal) monthly_funding
              && truthy_opt (Goal.monthlyFunding goal) then
        let recommendedMonthly :=
          match Goal.monthlyFunding goal with Some f => f | None => 0 end in
        if 0 <? recommendedMonthly then
          Ok (mkProgress progress
                (Math_ceil ((Goal.targetAmount goal - currentAmount)
                            / recommendedMonthly))
                true recommendedMonthly)
        else Ok (mkProgress progress 0 true recommendedMonthly)
      else Ok (mkProgress progress 0 true 0)
  end.

(** ** Auto-assignment *)

Definition getOverspentCategories (month : string) (d : BudgetData) : list string :=
  map Budget.categoryId
    (filter (fun b => calculateCategoryAvailable (Budget.categoryId b) month d <? 0)
       (filter (fun b => (Budget.month b =? month)%string) (budgets d))).

Fixpoint coverOverspent (h : Host) (month : string) (overspentCategories : list string)
    (assigned : list nat) (remainingMoney : float) (d : BudgetData)
    : list nat * float * BudgetData :=
  match overspentCategories with
  | [] => (assigned, remainingMoney, d)
  | categoryId :: rest =>
      if remainingMoney <=? 0 then (assigned, remainingMoney, d)
      else
        let needed := abs (calculateCategoryAvailable categoryId month d) in
        let toAssign := Math_min needed remainingMoney in
        let '(budget, d') :=
          assignMoney (Date_now (dates h) (List.length assigned))
                      categoryId month toAssign d in
        coverOverspent h month rest (assigned ++ [budget]) (remainingMoney - toAssign) d'
  end.

Fixpoint fundGoals (h : Host) (month : string) (priorities : list string)
    (assigned : list nat) (remainingMoney : float) (d : BudgetData)
    : Result (list nat) * BudgetData :=
  match priorities with
  | [] => (Ok assigned, d)
  | categoryId :: rest =>
      if remainingMoney <=? 0 then (Ok assigned, d)
      else
        match find (fun c => (Category.id c =? categoryId)%string) (categories d) with
        | Some category =>
            if Category.isGoal category then
              match find (fun g => (Goal.categoryId g =? categoryId)%string
                                   && Goal.isActive g) (goals d) with
              | Some goal =>
                  match calculateGoalProgress h (Goal.id goal) d with
                  | Throw message => (Throw message, d)
                  | Ok p =>
                      let currentAssigned :=
                        orZero (option_map Budget.assigned
                                  (find (budgetFor categoryId month) (budgets d))) in
                      let toAssign :=
                        Math_min (Math_max 0 (recommendedMonthly p - currentAssigned))
                                 remainingMoney in
                      if 0 <? toAssign then
                        let '(budget, d') :=
                          assignMoney (Date_now (dates h) (List.length assigned))
                                      categoryId month toAssign d in
                        fundGoals h month rest (assigned ++ [budget])
                                  (remainingMoney - toAssign) d'
                      else fundGoals h month rest assigned remainingMoney d
                  end
              | None => fundGoals h month rest assigned remainingMoney d
              end
            else fundGoals h month rest assigned remainingMoney d
        | None => fundGoals h month rest assigned remainingMoney d
        end
  end.

Definition autoAssignMoney (h : Host) (month : string) (priorities : list string)
    (d : BudgetData) : Result (list nat) * BudgetData :=
  let toBeBudgeted := toBeBudgeted (getMonthlyBudgetSummary month d) in
  if toBeBudgeted <=? 0 then (Ok [], d)
  else
    let overspentCategories := getOverspentCategories month d in
    let '(assigned, remainingMoney, d1) :=
      coverOverspent h month overspentCategories [] toBeBudgeted d in
    fundGoals h month priorities assigned remainingMoney d1.

(** ** Debt payoff plan *)

Definition getDebtAccounts (d : BudgetData) : list Account.t :=
  filter (fun account => AccountType_eqb (Account.type account) credit_card
                         || AccountType_eqb (Account.type account) loan)
         (accounts d).

Module DebtPlan.
Record t := mk {
  accountId : string;
  name : string;
  balance : float;
  interestRate : float;
  minimumPayment : float;
  payoffOrder : Z;
  monthsToPayoff : float;
  totalInterest : float }.
End DebtPlan.

Definition calculateLoanPayment (h : Host) (balance annualRate years : float) : float :=
  let monthlyRate := annualRate / 100 / 12 in
  let numPayments := years * 12 in
  if monthlyRate =? 0 then balance / numPayments
  else
    balance * (monthlyRate * Math_pow h (1 + monthlyRate) numPayments)
    / (Math_pow h (1 + monthlyRate) numPayments - 1).

Record PayoffTime := mkPayoff {
  months : float;
  totalInterest : float }.

Definition calculatePayoffTime (h : Host) (balance annualRate payment : float)
    : PayoffTime :=
  if payment <=? 0 then mkPayoff infinity 0
  else
    let monthlyRate := annualRate / 100 / 12 in
    if monthlyRate =? 0 then mkPayoff (Math_ceil (balance / payment)) 0
    else
      let months :=
        Math_ceil (- Math_log h (1 - (balance * monthlyRate) / payment)
                   / Math_log h (1 + monthlyRate)) in
      let totalInterest := (payment * months) - balance in
      mkPayoff months (Math_max 0 totalInterest).

(** [Array.prototype.sort] with a comparator, as above; a comparator
    value of NaN counts as 0. *)
Fixpoint sort_insert {A : Type} (compare : A -> A -> float) (x : A) (l : list A)
    : list A :=
  match l with
  | [] => [x]
  | y :: l' =>
      if is_nan (compare x y) || (compare x y <=? 0) then x :: y :: l'
      else y :: sort_insert compare x l'
  end.

Definition sort {A : Type} (compare : A -> A -> float) (l : list A) : list A :=
  fold_right (sort_insert compare) [] l.

Definition planEntry (h : Host) (debt : Account.t) : DebtPlan.t :=
  DebtPlan.mk
    (Account.id debt)
    (Account.name debt)
    (abs (Account.balance debt))
    (orZero (Account.interestRate debt))
    (if AccountType_eqb (Account.type debt) credit_card
     then Math_max 25 (abs (Account.balance debt) * 0.02)
     else match Account.interestRate debt with
          | Some rate =>
              if truthy rate
              then calculateLoanPayment h (abs (Account.balance debt)) rate 10
              else 0
          | None => 0
          end)
    0 0 0.

Definition sortPlan (strategy : Strategy) (plan : list DebtPlan.t) : list DebtPlan.t :=
  match strategy with
  | avalanche =>
      sort (fun a b => DebtPlan.interestRate b - DebtPlan.interestRate a) plan
  | snowball =>
      sort (fun a b => DebtPlan.balance a - DebtPlan.balance b) plan
  end.

Definition schedule (h : Host) (extraPayment : float) (index : nat) (debt : DebtPlan.t)
    : DebtPlan.t :=
  let pt :=
    calculatePayoffTime h (DebtPlan.balance debt) (DebtPlan.interestRate debt)
      (DebtPlan.minimumPayment debt + (if Nat.eqb index 0 then extraPayment else 0)) in
  DebtPlan.mk (DebtPlan.accountId debt) (DebtPlan.name debt)
              (DebtPlan.balance debt) (DebtPlan.interestRate debt)
              (DebtPlan.minimumPayment debt)
              (Z.of_nat index + 1) (months pt) (totalInterest pt).

Definition calculateDebtPayoffPlan (h : Host) (extraPayment : float)
    (strategy : Strategy) (d : BudgetData) : list DebtPlan.t :=
  let debtAccounts := getDebtAccounts d in
  let plan := map (planEntry h) debtAccounts in
  forEach_indexed (schedule h extraPayment) 0 (sortPlan strategy plan).

(** ** The months a budget looks back on *)

Definition datedInEither (month prior : string) (t : Transaction.t) : bool :=
  String.prefix month (Transaction.date t) || String.prefix prior (Transaction.date t).

(** Two Budget records with the same key, the same [assigned] if they
    are of [prior], and the same stored [available] if they are of
    [before]. *)
Definition sameLookbackAt (prior before : string) (b b' : Budget.t) : Prop :=
  Budget.categoryId b = Budget.categoryId b'
  /\ Budget.month b = Budget.month b'
  /\ (Budget.month b = prior -> Budget.assigned b = Budget.assigned b')
  /\ (Budget.month b = before -> Budget.available b = Budget.available b').

(** ** Example host and ledgers *)

(** A stand-in for [Math.log]: the values ECMAScript fixes and, on the
    positive numbers, [x - 1], which has the sign of the logarithm. *)
Definition standInLog (x : float) : float :=
  if x =? 0 then neg_infinity
  else if x <? 0 then nan
  else if is_nan x then nan
  else x - 1.

(** A stand-in for [Math.pow] on a whole exponent: repeated
    multiplication. *)
Definition wholeExponent (y : float) : option N :=
  match Prim2SF y with
  | S754_zero _ => Some 0%N
  | S754_finite false m e =>
      if (0 <=? e)%Z then Some (Z.to_N (Z.pos m * 2 ^ e))
      else if (Z.pos m mod 2 ^ (- e) =? 0)%Z then Some (Z.to_N (Z.pos m / 2 ^ (- e)))
      else None
  | _ => None
  end.

Definition standInPow (x y : float) : float :=
  match wholeExponent y with
  | Some n => N.iter n (fun acc => acc * x) 1
  | None => nan
  end.

(** The machine of [host0], on 1 March 2024. *)
Definition host0 : Host := mkHost host0 standInLog standInPow.


(** The transactions and Budget records of [ledgerWinter], and the
    same with 0 instead of 20 left in groceries at the end of December;
    a third with a November purchase added and another amount assigned
    in December. *)
Definition ledgerWinter : BudgetData :=
  mkData [] []
    [Transaction.mk "t1" income "checking" "salary" 3000 "pay" "2024-01-05" true;
     Transaction.mk "t2" expense "checking" "groceries" 320 "food" "2024-01-15" true;
     Transaction.mk "t3" income "checking" "salary" 3000 "pay" "2024-02-05" true;
     Transaction.mk "t4" expense "checking" "groceries" 150 "food" "2024-02-10" false]
    [Budget.mk "b0" "groceries" "2023-12" 100 (-80) 20;
     Budget.mk "b1" "groceries" "2024-01" 250 (-320) (-50);
     Budget.mk "b2" "rent" "2024-01" 1000 0 1000;
     Budget.mk "b3" "groceries" "2024-02" 0 (-150) (-200)]
    [].

Definition ledgerWinterCarry : BudgetData :=
  mkData [] [] (transactions ledgerWinter)
    [Budget.mk "b0" "groceries" "2023-12" 100 (-80) 0;
     Budget.mk "b1" "groceries" "2024-01" 250 (-320) (-50);
     Budget.mk "b2" "rent" "2024-01" 1000 0 1000;
     Budget.mk "b3" "groceries" "2024-02" 0 (-150) (-200)]
    [].

Definition ledgerWinterOlder : BudgetData :=
  mkData [] []
    (Transaction.mk "t0" expense "checking" "groceries" 75 "food" "2023-11-20" true
     :: transactions ledgerWinter)
    [Budget.mk "b0" "groceries" "2023-12" 140 (-80) 20;
     Budget.mk "b1" "groceries" "2024-01" 250 (-320) (-50);
     Budget.mk "b2" "rent" "2024-01" 1000 0 1000;
     Budget.mk "b3" "groceries" "2024-02" 0 (-150) (-200)]
    [].

(** An envelope that holds 0.1. *)
Definition ledgerTenth : BudgetData :=
  mkData [] [] [] [Budget.mk "b1" "groceries" "2024-02" 0.1 0 0.1] [].

(** The credit card of [ledgerHighRateCard]: 10000 owed at 30% a year. *)
Definition ledgerHighRateCard : BudgetData :=
  mkData [Account.mk "visa" "Visa" credit_card (-10000) true (Some 30) None]
         [] [] [] [].

(** A loan of 12000 with no interest rate entered, and the same loan
    with the rate entered as 0. *)
Definition ledgerInterestFreeLoan : BudgetData :=
  mkData [Account.mk "car" "Car loan" loan (-12000) true None None] [] [] [] [].

Definition ledgerZeroRateLoan : BudgetData :=
  mkData [Account.mk "car" "Car loan" loan (-12000) true (Some 0) None] [] [] [] [].

(** A goal whose target is 0, with 50 saved. *)
Definition ledgerZeroTarget : BudgetData :=
  mkData [] [] [] []
    [Goal.mk "g1" "vacation" "Trip" target_balance 0 None None 50 true].

End Double.

(** * Properties *)

(** ** Sums and JavaScript defaults *)

Lemma fold_sum_acc {A : Type} (f : A -> Q) (l : list A) (a : Q) :
  fold_left (fun sum x => sum + f x) l a == a + reduce_sum f l.
Proof.
  unfold reduce_sum. revert a.
  induction l as [|x l IH]; intros a; simpl.
  - lra.
  - rewrite (IH (a + f x)), (IH (0 + f x)). lra.
Qed.

Lemma reduce_sum_cons {A : Type} (f : A -> Q) (x : A) (l : list A) :
  reduce_sum f (x :: l) == f x + reduce_sum f l.
Proof.
  unfold reduce_sum at 1. simpl. rewrite fold_sum_acc. lra.
Qed.

Lemma reduce_sum_app {A : Type} (f : A -> Q) (l1 l2 : list A) :
  reduce_sum f (l1 ++ l2) == reduce_sum f l1 + reduce_sum f l2.
Proof.
  induction l1 as [|x l1 IH]; simpl.
  - unfold reduce_sum at 2. simpl. lra.
  - rewrite !reduce_sum_cons, IH. lra.
Qed.

Lemma truthy_false (q : Q) : truthy q = false -> q == 0.
Proof.
  unfold truthy. intros H. apply negb_false_iff in H. now apply Qeq_bool_eq.
Qed.

Lemma orZero_Some (q : Q) : orZero (Some q) == q.
Proof.
  simpl. destruct (truthy q) eqn:E; [reflexivity|].
  symmetry. now apply truthy_false.
Qed.

Lemma Qlt_bool_iff (x y : Q) : Qlt_bool x y = true <-> x < y.
Proof.
  unfold Qlt_bool. rewrite negb_true_iff.
  split; intros H.
  - apply Qnot_le_lt. intros C. apply Qle_bool_iff in C. congruence.
  - destruct (Qle_bool y x) eqn:E; [|reflexivity].
    apply Qle_bool_iff in E. lra.
Qed.

Lemma Qlt_bool_false (x y : Q) : Qlt_bool x y = false <-> y <= x.
Proof.
  unfold Qlt_bool. rewrite negb_false_iff. apply Qle_bool_iff.
Qed.

Lemma Qle_bool_false (x y : Q) : Qle_bool x y = false <-> y < x.
Proof.
  rewrite <- Qlt_bool_iff. unfold Qlt_bool. now rewrite negb_true_iff.
Qed.

(** ** Carry-forward of an envelope (C1) *)

Lemma getCategoryActivity_activitySum (categoryId month : string) (d : BudgetData) :
  getCategoryActivity categoryId month d == activitySum categoryId month (transactions d).
Proof.
  unfold getCategoryActivity.
  induction (transactions d) as [|t ts IH]; simpl.
  - reflexivity.
  - destruct (String.prefix month (Transaction.date t)
              && (Transaction.categoryId t =? categoryId)%string); simpl.
    + rewrite reduce_sum_cons, IH. unfold signedAmount.
      destruct (Transaction.type t); simpl; lra.
    + rewrite IH. lra.
Qed.

Lemma assigned_orZero (categoryId month : string) (d : BudgetData) :
  orZero (option_map Budget.assigned (find (budgetFor categoryId month) (budgets d)))
  == assignedOf categoryId month d.
Proof.
  unfold assignedOf.
  destruct (find (budgetFor categoryId month) (budgets d)); simpl option_map.
  - apply orZero_Some.
  - reflexivity.
Qed.

Lemma available_orZero (categoryId month : string) (d : BudgetData) :
  orZero (option_map Budget.available (find (budgetFor categoryId month) (budgets d)))
  == storedAvailable categoryId month d.
Proof.
  unfold storedAvailable.
  destruct (find (budgetFor categoryId month) (budgets d)); simpl option_map.
  - apply orZero_Some.
  - reflexivity.
Qed.

(** C1, as stated, fails: on [ledgerStale] the February balance of
    groceries is the 30 stored in the January record, while the January
    balance recomputed with the purchase is 20. *)
Lemma carryForwardRecursion_fails : ~ carryForwardRecursion ledgerStale.
Proof.
  intros H. specialize (H "groceries" "2024-02").
  vm_compute in H. discriminate.
Qed.

Lemma calculateCategoryAvailable_eq (categoryId month : string) (d : BudgetData) :
  calculateCategoryAvailable categoryId month d
  == storedAvailable categoryId (getPreviousMonth month) d
     + assignedOf categoryId month d
     + activitySum categoryId month (transactions d).
Proof.
  unfold calculateCategoryAvailable.
  rewrite assigned_orZero, available_orZero, getCategoryActivity_activitySum.
  reflexivity.
Qed.

(** C1 (amended): [calculateCategoryAvailable(c, M)] is the [available]
    field stored in the (c, M-1) Budget record (0 if there is none) plus
    the [assigned] field of the (c, M) record (0 if absent) plus the
    signed sum of c's transactions dated in M (expenses negative, other
    types positive). *)
Theorem calculateCategoryAvailable_carry_forward
    (categoryId month : string) (d : BudgetData) :
  calculateCategoryAvailable categoryId month d
  == storedAvailable categoryId (getPreviousMonth month) d
     + assignedOf categoryId month d
     + activitySum categoryId month (transactions d).
Proof. apply calculateCategoryAvailable_eq. Qed.

(** ** Available to budget *)

Lemma getMonthlyIncome_incomeSum (month : string) (d : BudgetData) :
  getMonthlyIncome month d == incomeSum month (transactions d).
Proof.
  unfold getMonthlyIncome.
  induction (transactions d) as [|t ts IH]; simpl.
  - reflexivity.
  - destruct (String.prefix month (Transaction.date t)); simpl.
    + destruct (Transaction.type t); simpl;
        rewrite ?reduce_sum_cons, IH; lra.
    + rewrite IH. lra.
Qed.

Lemma reduce_sum_month (f : Budget.t -> Q) (month : string) (bs : list Budget.t) :
  reduce_sum f (filter (fun b => (Budget.month b =? month)%string) bs)
  == sumOverMonth f month bs.
Proof.
  induction bs as [|b bs IH]; simpl.
  - reflexivity.
  - destruct (Budget.month b =? month)%string.
    + rewrite reduce_sum_cons, IH. reflexivity.
    + rewrite IH. lra.
Qed.





Lemma budgetFor_month (categoryId month : string) (b : Budget.t) :
  budgetFor categoryId month b = true ->
  Budget.categoryId b = categoryId /\ Budget.month b = month.
Proof.
  unfold budgetFor. intros H. apply andb_true_iff in H as [H1 H2].
  apply String.eqb_eq in H1, H2. now split.
Qed.





Lemma calculateAvailableToBudget_formula (month : string) (d : BudgetData) :
  calculateAvailableToBudget month d
  == incomeSum month (transactions d)
     + Qmax 0 (incomeSum (getPreviousMonth month) (transactions d)
               - sumOverMonth Budget.assigned (getPreviousMonth month) (budgets d))
     - sumOverMonth
         (fun b => Qmax 0 (- calculateCategoryAvailable (Budget.categoryId b)
                               (getPreviousMonth month) d))
         (getPreviousMonth month) (budgets d).
Proof.
  unfold calculateAvailableToBudget, calculateOverspending, totalAssignedIn.
  rewrite !getMonthlyIncome_incomeSum, !reduce_sum_month. reflexivity.
Qed.



(** ** The two branches of assignMoney *)

Lemma findIndex_None {A : Type} (p : A -> bool) (l : list A) :
  findIndex p l = None <-> find p l = None.
Proof.
  induction l as [|x l IH]; simpl.
  - tauto.
  - destruct (p x).
    + split; discriminate.
    + destruct (findIndex p l); simpl.
      * split; [discriminate|]. intros H. apply IH in H. discriminate.
      * tauto.
Qed.

Lemma findIndex_Some {A : Type} (p : A -> bool) (l : list A) (i : nat) :
  findIndex p l = Some i ->
  exists x, nth_error l i = Some x /\ p x = true /\ find p l = Some x.
Proof.
  revert i. induction l as [|x l IH]; simpl; intros i H.
  - discriminate.
  - destruct (p x) eqn:E.
    + injection H as <-. exists x. simpl. auto.
    + destruct (findIndex p l) as [j|]; simpl in H; [|discriminate].
      injection H as <-. destruct (IH j eq_refl) as (y & Hn & Hp & Hf).
      exists y. simpl. auto.
Qed.

Lemma findIndex_update_at {A : Type} (p : A -> bool) (f : A -> A) (l : list A) (i : nat) :
  (forall x, p (f x) = p x) ->
  findIndex p l = Some i ->
  findIndex p (update_at i f l) = Some i
  /\ find p (update_at i f l) = option_map f (find p l).
Proof.
  intros Hf. revert i. induction l as [|x l IH]; simpl; intros i H.
  - discriminate.
  - destruct (p x) eqn:E.
    + injection H as <-. simpl. rewrite Hf, E. auto.
    + destruct (findIndex p l) as [j|]; simpl in H; [|discriminate].
      injection H as <-. simpl. rewrite E.
      destruct (IH j eq_refl) as [-> ->]. auto.
Qed.

Lemma find_app_new {A : Type} (p : A -> bool) (l : list A) (x : A) :
  find p l = None -> p x = true ->
  findIndex p (l ++ [x]) = Some (List.length l) /\ find p (l ++ [x]) = Some x.
Proof.
  intros Hn Hx. induction l as [|y l IH]; simpl in *.
  - rewrite Hx. auto.
  - destruct (p y); [discriminate|].
    destruct (IH Hn) as [-> ->]. auto.
Qed.

Lemma update_at_last {A : Type} (f : A -> A) (l : list A) (x : A) :
  update_at (List.length l) f (l ++ [x]) = l ++ [f x].
Proof.
  induction l as [|y l IH]; simpl; [reflexivity|]. now rewrite IH.
Qed.

Lemma update_at_twice {A : Type} (f g : A -> A) (l : list A) (i : nat) :
  update_at i g (update_at i f l) = update_at i (fun x => g (f x)) l.
Proof.
  revert i. induction l as [|x l IH]; intros [|i]; simpl; try reflexivity.
  now rewrite IH.
Qed.

Lemma map_update_at {A B : Type} (k : A -> B) (f : A -> A) (l : list A) (i : nat) :
  (forall x, k (f x) = k x) -> map k (update_at i f l) = map k l.
Proof.
  intros Hk. revert i. induction l as [|x l IH]; intros [|i]; simpl; try reflexivity.
  - now rewrite Hk.
  - now rewrite IH.
Qed.

Lemma reduce_sum_update_at {A : Type} (g : A -> Q) (f : A -> A) (l : list A)
    (i : nat) (x : A) :
  nth_error l i = Some x ->
  reduce_sum g (update_at i f l) == reduce_sum g l - g x + g (f x).
Proof.
  revert i. induction l as [|y l IH]; intros [|i] H; simpl in *; try discriminate.
  - injection H as ->. rewrite !reduce_sum_cons. lra.
  - rewrite !reduce_sum_cons, (IH i H). lra.
Qed.

Lemma budgetFor_reassign (categoryId month : string) (amount available : Q) (b : Budget.t) :
  budgetFor categoryId month (reassign amount available b) = budgetFor categoryId month b.
Proof. reflexivity. Qed.

Lemma budgetFor_new (id categoryId month : string) (x y z : Q) :
  budgetFor categoryId month (Budget.mk id categoryId month x y z) = true.
Proof. unfold budgetFor. simpl. now rewrite !String.eqb_refl. Qed.

(** [assignMoney] either rewrites the first record of the pair in place,
    or, when there is none, pushes a record with [assigned = amount]. *)
Lemma assignMoney_cases (now : Z) (categoryId month : string) (amount : Q)
    (d : BudgetData) :
  (exists i b available,
      findIndex (budgetFor categoryId month) (budgets d) = Some i
      /\ nth_error (budgets d) i = Some b
      /\ find (budgetFor categoryId month) (budgets d) = Some b
      /\ assignMoney now categoryId month amount d
         = (i, set_budgets (update_at i (reassign amount available) (budgets d)) d))
  \/ (exists available,
      find (budgetFor categoryId month) (budgets d) = None
      /\ assignMoney now categoryId month amount d
         = (List.length (budgets d),
            set_budgets
              (budgets d ++ [Budget.mk (newBudgetId now categoryId) categoryId month amount
                                       (getCategoryActivity categoryId month d) available])
              d)).
Proof.
  unfold assignMoney.
  destruct (findIndex (budgetFor categoryId month) (budgets d)) as [i|] eqn:E.
  - left. destruct (findIndex_Some _ _ _ E) as (b & Hn & _ & Hf).
    exists i, b. eexists. repeat split; try eassumption.
    simpl. rewrite update_at_twice. reflexivity.
  - right. apply findIndex_None in E. eexists. split; [exact E|]. reflexivity.
Qed.

Lemma assignMoney_find (now : Z) (categoryId month : string) (amount : Q)
    (d : BudgetData) :
  exists r,
    find (budgetFor categoryId month)
         (budgets (snd (assignMoney now categoryId month amount d))) = Some r
    /\ nth_error (budgets (snd (assignMoney now categoryId month amount d)))
                 (fst (assignMoney now categoryId month amount d)) = Some r
    /\ Budget.assigned r == assignedOf categoryId month d + amount.
Proof.
  unfold assignedOf.
  destruct (assignMoney_cases now categoryId month amount d)
    as [(i & b & v & Hi & Hn & Hf & ->)|(v & Hf & ->)]; simpl; rewrite Hf.
  - exists (reassign amount v b).
    destruct (findIndex_update_at (budgetFor categoryId month) (reassign amount v)
                (budgets d) i (budgetFor_reassign _ _ _ _) Hi) as [_ ->].
    rewrite Hf. simpl. repeat split; try reflexivity.
    clear Hi Hf. revert i Hn.
    induction (budgets d) as [|y l IH]; intros [|i] Hn; simpl in *; try discriminate.
    + now injection Hn as ->.
    + now apply IH.
  - eexists.
    destruct (find_app_new (budgetFor categoryId month) (budgets d)
                (Budget.mk (newBudgetId now categoryId) categoryId month amount
                           (getCategoryActivity categoryId month d) v)
                Hf (budgetFor_new _ _ _ _ _ _)) as [_ ->].
    repeat split; simpl; try lra.
    rewrite nth_error_app2 by lia. now rewrite Nat.sub_diag.
Qed.

(** ** Two assignments and one, with exact amounts *)


(** ** One record per category and month (C8) *)

Lemma find_None_key (categoryId month : string) (l : list Budget.t) :
  find (budgetFor categoryId month) l = None ->
  ~ In (categoryId, month) (map budgetKey l).
Proof.
  induction l as [|x l IH]; simpl; intros H; [tauto|].
  destruct (budgetFor categoryId month x) eqn:E; [discriminate|].
  intros [K|K]; [|now apply IH].
  unfold budgetKey in K. injection K as K1 K2.
  unfold budgetFor in E. rewrite K1, K2, !String.eqb_refl in E. discriminate.
Qed.

Lemma assignMoney_in_place_or_append (now : Z) (categoryId month : string)
    (amount : Q) (d : BudgetData) :
  let d' := snd (assignMoney now categoryId month amount d) in
  (find (budgetFor categoryId month) (budgets d) <> None ->
   map budgetKey (budgets d') = map budgetKey (budgets d)
   /\ map Budget.id (budgets d') = map Budget.id (budgets d))
  /\ (find (budgetFor categoryId month) (budgets d) = None ->
      exists newBudget,
        budgets d' = budgets d ++ [newBudget]
        /\ budgetKey newBudget = (categoryId, month)
        /\ Budget.assigned newBudget = amount).
Proof.
  destruct (assignMoney_cases now categoryId month amount d)
    as [(i & b & v & Hi & Hn & Hf & ->)|(v & Hf & ->)]; simpl; split; intros H.
  - split; apply map_update_at; reflexivity.
  - congruence.
  - congruence.
  - eexists. repeat split.
Qed.

Lemma assignMoney_unique (now : Z) (categoryId month : string) (amount : Q)
    (d : BudgetData) :
  uniqueBudgets d -> uniqueBudgets (snd (assignMoney now categoryId month amount d)).
Proof.
  unfold uniqueBudgets. intros U.
  destruct (assignMoney_in_place_or_append now categoryId month amount d) as [H1 H2].
  destruct (find (budgetFor categoryId month) (budgets d)) eqn:E.
  - destruct H1 as [-> _]; [discriminate|exact U].
  - destruct (H2 eq_refl) as (nb & -> & Hk & _).
    rewrite map_app. simpl. rewrite Hk.
    apply (Permutation_NoDup (Permutation_cons_append _ _)).
    constructor; [now apply find_None_key|exact U].
Qed.






(** ** Auto-assignment and the money to be budgeted, with exact amounts *)

Lemma assignMoney_sumAssigned (now : Z) (categoryId month : string) (amount : Q)
    (d : BudgetData) :
  sumAssigned (snd (assignMoney now categoryId month amount d)) == sumAssigned d + amount.
Proof.
  unfold sumAssigned.
  destruct (assignMoney_cases now categoryId month amount d)
    as [(i & b & v & Hi & Hn & Hf & ->)|(v & Hf & ->)]; simpl.
  - rewrite (reduce_sum_update_at _ _ _ _ _ Hn). simpl. lra.
  - rewrite reduce_sum_app, reduce_sum_cons. unfold reduce_sum at 2. simpl. lra.
Qed.

Lemma assignMoney_frame (now : Z) (categoryId month : string) (amount : Q)
    (d : BudgetData) :
  goals (snd (assignMoney now categoryId month amount d)) = goals d
  /\ categories (snd (assignMoney now categoryId month amount d)) = categories d
  /\ transactions (snd (assignMoney now categoryId month amount d)) = transactions d
  /\ accounts (snd (assignMoney now categoryId month amount d)) = accounts d.
Proof.
  destruct (assignMoney_cases now categoryId month amount d)
    as [(i & b & v & Hi & Hn & Hf & ->)|(v & Hf & ->)]; simpl; auto.
Qed.

Lemma find_same_id (p : Goal.t -> bool) (l : list Goal.t) (g : Goal.t) :
  find p l = Some g ->
  exists g', find (fun x => (Goal.id x =? Goal.id g)%string) l = Some g'.
Proof.
  induction l as [|x l IH]; simpl; intros H; [discriminate|].
  destruct (Goal.id x =? Goal.id g)%string eqn:E; [eauto|].
  destruct (p x).
  - injection H as ->. rewrite String.eqb_refl in E. discriminate.
  - now apply IH.
Qed.

Lemma calculateGoalProgress_found (h : Host) (goalId : string) (d : BudgetData)
    (g : Goal.t) :
  find (fun x => (Goal.id x =? goalId)%string) (goals d) = Some g ->
  exists p, calculateGoalProgress h goalId d = Ok p
            /\ progress p = if Qlt_bool 0 (Goal.targetAmount g)
                            then Goal.currentAmount g / Goal.targetAmount g * 100
                            else 0.
Proof.
  intros H. unfold calculateGoalProgress. rewrite H.
  destruct (GoalType_eqb (Goal.type g) target_date && truthy_string (Goal.targetDate g)).
  - destruct (Date_year_month h _) as [[ty tm]|]; [|eauto].
    destruct (Qlt_bool 0 (inject_Z _)); eauto.
  - destruct (GoalType_eqb (Goal.type g) monthly_funding
              && truthy_opt (Goal.monthlyFunding g)); [|eauto].
    destruct (Qlt_bool 0 _); eauto.
Qed.

Lemma Qmin_bounds (x y : Q) : 0 <= x -> 0 <= y -> 0 <= Qmin x y /\ Qmin x y <= y.
Proof.
  intros Hx Hy. split.
  - apply Q.min_glb; assumption.
  - apply Q.le_min_r.
Qed.

Lemma coverOverspent_total (h : Host) (month : string) (cats : list string)
    (assigned : list nat) (remainingMoney : Q) (d : BudgetData) :
  0 <= remainingMoney ->
  let r := coverOverspent h month cats assigned remainingMoney d in
  0 <= snd (fst r) /\ snd (fst r) <= remainingMoney
  /\ sumAssigned (snd r) == sumAssigned d + (remainingMoney - snd (fst r))
  /\ goals (snd r) = goals d.
Proof.
  revert assigned remainingMoney d.
  induction cats as [|c cats IH]; intros assigned rem d Hrem; cbn [coverOverspent].
  - simpl. repeat split; try lra.
  - destruct (Qle_bool rem 0); [simpl; repeat split; lra|].
    set (toAssign := Qmin (Qabs (calculateCategoryAvailable c month d)) rem).
    destruct (Qmin_bounds (Qabs (calculateCategoryAvailable c month d)) rem
                (Qabs_nonneg _) Hrem) as [H0 H1].
    fold toAssign in H0, H1.
    pose proof (assignMoney_sumAssigned (Date_now h (List.length assigned))
                  c month toAssign d) as Hs.
    pose proof (assignMoney_frame (Date_now h (List.length assigned))
                  c month toAssign d) as (Hg & _).
    destruct (assignMoney (Date_now h (List.length assigned)) c month toAssign d)
      as [budget d']. cbv iota beta.
    simpl snd in Hs, Hg.
    assert (Hrem' : 0 <= rem - toAssign) by lra.
    specialize (IH (assigned ++ [budget]) (rem - toAssign) d' Hrem').
    cbv zeta in IH. destruct IH as (I0 & I1 & I2 & I3).
    split; [lra|]. split; [lra|]. split; [lra|congruence].
Qed.

Lemma fundGoals_total (h : Host) (month : string) (priorities : list string)
    (assigned : list nat) (remainingMoney : Q) (d : BudgetData) :
  0 <= remainingMoney ->
  let r := fundGoals h month priorities assigned remainingMoney d in
  (exists touched, fst r = Ok touched)
  /\ 0 <= sumAssigned (snd r) - sumAssigned d
  /\ sumAssigned (snd r) - sumAssigned d <= remainingMoney.
Proof.
  revert assigned remainingMoney d.
  induction priorities as [|c cs IH]; intros assigned rem d Hrem; cbn [fundGoals].
  - simpl. split; [eauto|]. split; lra.
  - destruct (Qle_bool rem 0); [simpl; split; [eauto|split; lra]|].
    destruct (find _ (categories d)) as [category|]; [|now apply IH].
    destruct (Category.isGoal category); [|now apply IH].
    destruct (find _ (goals d)) as [goal|] eqn:Eg; [|now apply IH].
    destruct (find_same_id _ _ _ Eg) as (g' & Hg').
    destruct (calculateGoalProgress_found h _ d g' Hg') as (p & -> & _).
    set (toAssign := Qmin (Qmax 0 (recommendedMonthly p - _)) rem).
    destruct (Qlt_bool 0 toAssign) eqn:Epos; [|now apply IH].
    apply Qlt_bool_iff in Epos.
    assert (H1 : toAssign <= rem) by apply Q.le_min_r.
    pose proof (assignMoney_sumAssigned (Date_now h (List.length assigned))
                  c month toAssign d) as Hs.
    destruct (assignMoney (Date_now h (List.length assigned)) c month toAssign d)
      as [budget d']. cbv iota beta.
    simpl snd in Hs.
    assert (Hrem' : 0 <= rem - toAssign) by lra.
    specialize (IH (assigned ++ [budget]) (rem - toAssign) d' Hrem').
    cbv zeta in IH. destruct IH as (I0 & I1 & I2).
    split; [exact I0|]. split; lra.
Qed.


(** ** Goal progress *)

Lemma find_goal_None (goalId : string) (d : BudgetData) :
  find (fun g => (Goal.id g =? goalId)%string) (goals d) = None
  <-> ~ goalExists goalId d.
Proof.
  unfold goalExists. split.
  - intros H (g & Hin & Hid).
    apply (find_none _ _ H) in Hin. simpl in Hin.
    rewrite Hid, String.eqb_refl in Hin. discriminate.
  - intros H.
    destruct (find (fun g => (Goal.id g =? goalId)%string) (goals d)) as [g|] eqn:E;
      [|reflexivity].
    exfalso. apply H. apply find_some in E as [Hin Hid].
    apply String.eqb_eq in Hid. eauto.
Qed.

(** [calculateGoalProgress(goalId)] throws, with the message
    "Goal not found", if and only if the ledger has no Goal with that id;
    for the first Goal with that id it returns the [progress] the source
    computes; the ledger is the same after the call in either case. *)
Lemma calculateGoalProgress_outcome (h : Host) (goalId : string) (d : BudgetData) :
  (calculateGoalProgress h goalId d = Throw "Goal not found"
   <-> ~ goalExists goalId d)
  /\ ((exists message, calculateGoalProgress h goalId d = Throw message)
      <-> ~ goalExists goalId d)
  /\ (forall g,
        find (fun x => (Goal.id x =? goalId)%string) (goals d) = Some g ->
        exists p,
          calculateGoalProgress h goalId d = Ok p
          /\ progress p = if Qlt_bool 0 (Goal.targetAmount g)
                          then Goal.currentAmount g / Goal.targetAmount g * 100
                          else 0)
  /\ snd (call h (CalculateGoalProgress goalId) d) = d.
Proof.
  assert (Hthrow : forall message,
             calculateGoalProgress h goalId d = Throw message ->
             ~ goalExists goalId d).
  { intros message H. apply find_goal_None.
    destruct (find (fun x => (Goal.id x =? goalId)%string) (goals d)) as [g|] eqn:E;
      [|reflexivity].
    destruct (calculateGoalProgress_found h goalId d g E) as (p & Hp & _).
    congruence. }
  assert (Hnone : ~ goalExists goalId d ->
                  calculateGoalProgress h goalId d = Throw "Goal not found").
  { intros H. apply find_goal_None in H.
    unfold calculateGoalProgress. now rewrite H. }
  split; [|split; [|split]].
  - split; [apply Hthrow|apply Hnone].
  - split.
    + intros [message H]. now apply (Hthrow message).
    + intros H. eauto.
  - intros g Hg. apply calculateGoalProgress_found. exact Hg.
  - simpl. destruct (calculateGoalProgress h goalId d); reflexivity.
Qed.

(** ** Sorting *)

Section Sorting.
Context {A : Type}.
Variable compare : A -> A -> Q.

Hypothesis compare_total : forall a b, before compare a b \/ before compare b a.
Hypothesis compare_trans :
  forall a b c, before compare a b -> before compare b c -> before compare a c.

Lemma sort_insert_perm (x : A) (l : list A) :
    Permutation (sort_insert compare x l) (x :: l).
Proof.
    induction l as [|y l IH]; simpl.
    - apply Permutation_refl.
    - destruct (Qle_bool (compare x y) 0).
      + apply Permutation_refl.
      + rewrite IH. apply perm_swap.
Qed.

Lemma sort_perm (l : list A) : Permutation (sort compare l) l.
Proof.
    induction l as [|x l IH]; simpl.
    - apply Permutation_refl.
    - rewrite sort_insert_perm. now apply perm_skip.
Qed.

Lemma sort_insert_sorted (x : A) (l : list A) :
    StronglySorted (before compare) l -> StronglySorted (before compare) (sort_insert compare x l).
Proof.
    induction l as [|y l IH]; simpl; intros S.
    - repeat constructor.
    - inversion S as [|? ? S' Hy]; subst.
      destruct (Qle_bool (compare x y) 0) eqn:E.
      + apply Qle_bool_iff in E. constructor; [exact S|].
        constructor; [exact E|].
        eapply Forall_impl; [|exact Hy]. intros z Hz. now apply (compare_trans x y z).
      + assert (Hyx : before compare y x).
        { destruct (compare_total x y) as [K|K]; [|exact K].
          apply Qle_bool_iff in K. unfold before in *. congruence. }
        constructor; [now apply IH|].
        apply (Permutation_Forall (Permutation_sym (sort_insert_perm x l))).
        now constructor.
Qed.

Lemma sort_sorted (l : list A) : StronglySorted (before compare) (sort compare l).
Proof.
    induction l as [|x l IH]; simpl.
    - constructor.
    - now apply sort_insert_sorted.
Qed.
End Sorting.

Lemma forEach_indexed_nth {A : Type} (f : nat -> A -> A) (l : list A) (k i : nat) :
  nth_error (forEach_indexed f k l) i = option_map (f (k + i)%nat) (nth_error l i).
Proof.
  revert k i. induction l as [|x l IH]; intros k [|i]; simpl; try reflexivity.
  - now rewrite Nat.add_0_r.
  - rewrite IH. now rewrite Nat.add_succ_r.
Qed.

Lemma forEach_indexed_length {A : Type} (f : nat -> A -> A) (l : list A) (k : nat) :
  List.length (forEach_indexed f k l) = List.length l.
Proof.
  revert k. induction l as [|x l IH]; intros k; simpl; [reflexivity|]. now rewrite IH.
Qed.

Lemma forEach_indexed_In {A : Type} (f : nat -> A -> A) (l : list A) (k : nat) (y : A) :
  In y (forEach_indexed f k l) -> exists i x, In x l /\ y = f i x.
Proof.
  revert k. induction l as [|x l IH]; intros k; simpl.
  - tauto.
  - intros [<-|H]; [eauto|].
    destruct (IH _ H) as (i & z & Hz & ->). eauto.
Qed.

Lemma In_forEach_indexed {A : Type} (f : nat -> A -> A) (l : list A) (k : nat) (x : A) :
  In x l -> exists i, In (f i x) (forEach_indexed f k l).
Proof.
  revert k. induction l as [|z l IH]; intros k; simpl.
  - tauto.
  - intros [->|H]; [eauto|].
    destruct (IH (S k) H) as (i & Hi). eauto.
Qed.

(** ** Minimum payment of a loan *)

Lemma number_eq_refl (x : number) : number_eq x x.
Proof. destruct x; simpl; auto. reflexivity. Qed.

Lemma ndiv_Fin_eq (a a' b : Q) :
  a == a' -> number_eq (ndiv (Fin a) (Fin b)) (ndiv (Fin a') (Fin b)).
Proof.
  intros H. simpl. destruct (Qeq_bool b 0).
  - unfold inf_times. rewrite H. apply number_eq_refl.
  - simpl. now rewrite H.
Qed.

Lemma truthy_monthlyRate (rate : Q) : truthy rate = Qeq_bool (rate / 100 / 12) 0 -> False.
Proof.
  unfold truthy. intros H.
  destruct (Qeq_bool rate 0) eqn:E; simpl in H; symmetry in H.
  - apply Qeq_bool_neq in H. apply Qeq_bool_eq in E. apply H. rewrite E. reflexivity.
  - apply Qeq_bool_eq in H. apply Qeq_bool_neq in E. apply E.
    assert (K : rate == rate / 100 / 12 * 1200) by (field).
    rewrite K, H. reflexivity.
Qed.

Lemma planEntry_loan (debt : Account.t) :
  Account.type debt = loan ->
  number_eq (DebtPlan.minimumPayment (planEntry debt)) (loanPayment debt).
Proof.
  intros Ht. unfold planEntry, loanPayment, monthlyRateOf. simpl. rewrite Ht. simpl.
  destruct (Account.interestRate debt) as [rate|]; [|simpl; reflexivity].
  pose proof (truthy_monthlyRate rate) as K.
  destruct (truthy rate) eqn:T, (Qeq_bool (rate / 100 / 12) 0) eqn:E;
    try (exfalso; now apply K); [|simpl; reflexivity].
  unfold calculateLoanPayment, amortization. rewrite E.
  apply ndiv_Fin_eq. change (10 * 12)%Z with 120%Z. ring.
Qed.

Lemma schedule_keeps (h : Host) (extraPayment : Q) (index : nat) (debt : DebtPlan.t) :
  DebtPlan.accountId (schedule h extraPayment index debt) = DebtPlan.accountId debt
  /\ DebtPlan.name (schedule h extraPayment index debt) = DebtPlan.name debt
  /\ DebtPlan.balance (schedule h extraPayment index debt) = DebtPlan.balance debt
  /\ DebtPlan.interestRate (schedule h extraPayment index debt) = DebtPlan.interestRate debt
  /\ DebtPlan.minimumPayment (schedule h extraPayment index debt)
     = DebtPlan.minimumPayment debt.
Proof. repeat split. Qed.

Lemma sortPlan_perm (strategy : Strategy) (plan : list DebtPlan.t) :
  Permutation (sortPlan strategy plan) plan.
Proof. destruct strategy; apply sort_perm. Qed.

Lemma getDebtAccounts_In (d : BudgetData) (debt : Account.t) :
  In debt (getDebtAccounts d)
  <-> In debt (accounts d)
      /\ (Account.type debt = credit_card \/ Account.type debt = loan).
Proof.
  unfold getDebtAccounts. rewrite filter_In.
  destruct (Account.type debt); simpl; intuition discriminate.
Qed.

(** In the plan of [calculateDebtPayoffPlan] every loan account has an
    entry, and every entry comes from a debt account, with the minimum
    payment [loanPayment] gives. *)
Lemma calculateDebtPayoffPlan_loan_entries (h : Host) (extraPayment : Q)
    (strategy : Strategy) (d : BudgetData) :
  (forall debt,
      In debt (accounts d) -> Account.type debt = loan ->
      exists e,
        In e (calculateDebtPayoffPlan h extraPayment strategy d)
        /\ DebtPlan.accountId e = Account.id debt
        /\ DebtPlan.balance e = Qabs (Account.balance debt)
        /\ number_eq (DebtPlan.minimumPayment e) (loanPayment debt))
  /\ (forall e,
        In e (calculateDebtPayoffPlan h extraPayment strategy d) ->
        exists debt,
          In debt (accounts d)
          /\ (Account.type debt = credit_card \/ Account.type debt = loan)
          /\ DebtPlan.accountId e = Account.id debt
          /\ DebtPlan.balance e = Qabs (Account.balance debt)
          /\ (Account.type debt = loan ->
              number_eq (DebtPlan.minimumPayment e) (loanPayment debt))).
Proof.
  unfold calculateDebtPayoffPlan. split.
  - intros debt Hin Ht.
    assert (Hs : In (planEntry debt) (sortPlan strategy (map planEntry (getDebtAccounts d)))).
    { apply (Permutation_in _ (Permutation_sym (sortPlan_perm _ _))).
      apply in_map. apply getDebtAccounts_In. auto. }
    destruct (In_forEach_indexed (schedule h extraPayment) _ 0 _ Hs) as (i & Hi).
    exists (schedule h extraPayment i (planEntry debt)).
    split; [exact Hi|]. repeat split. simpl. now apply planEntry_loan.
  - intros e He.
    apply forEach_indexed_In in He as (i & x & Hx & ->).
    apply (Permutation_in _ (sortPlan_perm _ _)) in Hx.
    apply in_map_iff in Hx as (debt & <- & Hd).
    apply getDebtAccounts_In in Hd as [Hin Ht].
    exists debt. repeat split; try assumption.
    intros Hl. simpl. now apply planEntry_loan.
Qed.

(** C2: for a loan with an interest rate that is not 0 the plan of
    [calculateDebtPayoffPlan] carries the amortization payment the
    specification states: the loan of 1000 at 5 percent of
    [ledgerThreeDebts] gets [B r (1+r)^120 / ((1+r)^120 - 1)] with
    [r = 5/100/12].  For a monthly rate of 0 the specification states
    [balance / 120], and so does the zero-rate branch of
    [calculateLoanPayment]: 100 for a loan of 12000.  The plan does not
    reach that branch: it calls [calculateLoanPayment] only when
    [interestRate] is truthy and puts 0 otherwise, so the loan of 12000
    with no rate, or with the rate 0, gets the minimum payment 0, with
    exact amounts and with doubles alike. *)
Theorem calculateDebtPayoffPlan_zero_rate_loan :
  (exists e,
      nth_error (calculateDebtPayoffPlan host0 0 avalanche ledgerThreeDebts) 2 = Some e
      /\ DebtPlan.accountId e = "c"
      /\ number_eq (DebtPlan.minimumPayment e)
           (statedLoanPayment
              (Account.mk "c" "Loan C" loan (-1000) true (Some 5) None))
      /\ number_eq (DebtPlan.minimumPayment e) (amortization 1000 (5 / 100 / 12) 120))
  /\ (exists e,
        calculateDebtPayoffPlan host0 0 avalanche ledgerInterestFreeLoan = [e]
        /\ DebtPlan.balance e = 12000
        /\ DebtPlan.minimumPayment e = Fin 0)
  /\ (exists e,
        calculateDebtPayoffPlan host0 0 avalanche ledgerZeroRateLoan = [e]
        /\ DebtPlan.balance e = 12000
        /\ DebtPlan.minimumPayment e = Fin 0)
  /\ number_eq (statedLoanPayment interestFreeLoan) (Fin 100)
  /\ number_eq (statedLoanPayment zeroRateLoan) (Fin 100)
  /\ number_eq (calculateLoanPayment 12000 0 10) (Fin 100)
  /\ (exists e,
        Double.calculateDebtPayoffPlan Double.host0 0 avalanche
          Double.ledgerInterestFreeLoan = [e]
        /\ Double.DebtPlan.minimumPayment e = 0%float)
  /\ (exists e,
        Double.calculateDebtPayoffPlan Double.host0 0 avalanche
          Double.ledgerZeroRateLoan = [e]
        /\ Double.DebtPlan.minimumPayment e = 0%float)
  /\ Double.calculateLoanPayment Double.host0 12000 0 10 = 100%float.
Proof.
  split.
  { eexists. split; [vm_compute; reflexivity|]. split; [reflexivity|].
    split; vm_compute; reflexivity. }
  split; [eexists; repeat split|].
  split; [eexists; repeat split|].
  split; [reflexivity|]. split; [reflexivity|]. split; [reflexivity|].
  split; [eexists; split; reflexivity|].
  split; [eexists; split; reflexivity|].
  reflexivity.
Qed.

(** The instance the specification gives: 10000 at 6% over ten years is
    about 111.02 a month. *)
Example calculateLoanPayment_10000_6 :
  exists payment,
    calculateLoanPayment 10000 6 10 = Fin payment
    /\ 11102 # 100 <= payment /\ payment < 11103 # 100.
Proof.
  eexists. split; [vm_compute; reflexivity|].
  split; [apply Qle_bool_iff|apply Qlt_bool_iff]; vm_compute; reflexivity.
Qed.

(** ** Order of the plan (C6) *)

Lemma nadd_zero (x : number) : number_eq (nadd x (Fin 0)) x.
Proof. destruct x; simpl; auto. lra. Qed.

Lemma StronglySorted_impl {A : Type} (R R' : A -> A -> Prop) (l : list A) :
  (forall a b, R a b -> R' a b) -> StronglySorted R l -> StronglySorted R' l.
Proof.
  intros HR S. induction S as [|a l S IH Ha]; constructor.
  - exact IH.
  - eapply Forall_impl; [|exact Ha]. intros b. apply HR.
Qed.

Lemma sortPlan_sorted (strategy : Strategy) (plan : list DebtPlan.t) :
  StronglySorted (byStrategy strategy) (sortPlan strategy plan).
Proof.
  destruct strategy; simpl;
    (eapply StronglySorted_impl;
     [|apply sort_sorted; unfold before; intros; lra]);
    unfold before; simpl; intros; lra.
Qed.

Lemma forEach_indexed_sorted {A : Type} (R : A -> A -> Prop) (f : nat -> A -> A)
    (l : list A) (k : nat) :
  (forall i j a b, R a b -> R (f i a) (f j b)) ->
  StronglySorted R l -> StronglySorted R (forEach_indexed f k l).
Proof.
  intros Hf S. revert k. induction S as [|a l S IH Ha]; intros k; simpl; constructor.
  - apply IH.
  - apply Forall_forall. intros y Hy.
    apply forEach_indexed_In in Hy as (i & x & Hx & ->).
    apply Hf. rewrite Forall_forall in Ha. now apply Ha.
Qed.

(** C6: the plan is in the order of the strategy (avalanche: interest
    rate descending; snowball: balance ascending); it holds the entries of
    the debt accounts, sorted, each with [payoffOrder] its 1-based place;
    [monthsToPayoff] and [totalInterest] of an entry are those of
    [calculatePayoffTime] for its balance and rate with the payment
    [minimumPayment + extraPayment] at the first place and
    [minimumPayment + 0] at the others. *)
Theorem calculateDebtPayoffPlan_ranked (h : Host) (extraPayment : Q)
    (strategy : Strategy) (d : BudgetData) :
  let plan := calculateDebtPayoffPlan h extraPayment strategy d in
  StronglySorted (byStrategy strategy) plan
  /\ (exists sorted,
        Permutation sorted (map planEntry (getDebtAccounts d))
        /\ StronglySorted (byStrategy strategy) sorted
        /\ List.length plan = List.length sorted
        /\ forall index debt,
             nth_error sorted index = Some debt ->
             nth_error plan index = Some (schedule h extraPayment index debt))
  /\ forall index e,
       nth_error plan index = Some e ->
       DebtPlan.payoffOrder e = (Z.of_nat index + 1)%Z
       /\ exists payment,
            number_eq payment
              (if Nat.eqb index 0
               then nadd (DebtPlan.minimumPayment e) (Fin extraPayment)
               else DebtPlan.minimumPayment e)
            /\ DebtPlan.monthsToPayoff e
               = months (calculatePayoffTime h (DebtPlan.balance e)
                           (DebtPlan.interestRate e) payment)
            /\ DebtPlan.totalInterest e
               = payoffInterest (calculatePayoffTime h (DebtPlan.balance e)
                                   (DebtPlan.interestRate e) payment).
Proof.
  intros plan. subst plan. unfold calculateDebtPayoffPlan.
  set (sorted := sortPlan strategy (map planEntry (getDebtAccounts d))).
  split; [|split].
  - apply forEach_indexed_sorted; [|apply sortPlan_sorted].
    intros i j a b. destruct strategy; simpl; auto.
  - exists sorted. split; [apply sortPlan_perm|].
    split; [apply sortPlan_sorted|].
    split; [apply forEach_indexed_length|].
    intros index debt H. rewrite forEach_indexed_nth, H. reflexivity.
  - intros index e H. rewrite forEach_indexed_nth in H.
    destruct (nth_error sorted index) as [debt|]; [|discriminate].
    simpl in H. injection H as <-. split; [reflexivity|].
    exists (nadd (DebtPlan.minimumPayment debt)
                 (Fin (if Nat.eqb index 0 then extraPayment else 0))).
    split; [|split; reflexivity].
    cbn [schedule DebtPlan.minimumPayment].
    destruct (Nat.eqb index 0); [apply number_eq_refl|apply nadd_zero].
Qed.

(** The instances the specification gives: the avalanche plan ranks the
    rates 24, 12, 5 as 1, 2, 3; the snowball plan ranks the balances 500,
    5000, 1000 as 1, 3, 2. *)
Example calculateDebtPayoffPlan_ranks (h : Host) :
  map (fun e => (DebtPlan.accountId e, DebtPlan.payoffOrder e))
      (calculateDebtPayoffPlan h 0 avalanche ledgerThreeDebts)
  = [("a", 1%Z); ("b", 2%Z); ("c", 3%Z)]
  /\ map (fun e => (DebtPlan.accountId e, DebtPlan.payoffOrder e))
         (calculateDebtPayoffPlan h 0 snowball ledgerThreeDebts)
     = [("a", 1%Z); ("c", 2%Z); ("b", 3%Z)].
Proof. split; reflexivity. Qed.

(** ** Comparisons and quotients *)

Lemma Qeq_bool_false_iff (x y : Q) : Qeq_bool x y = false <-> ~ x == y.
Proof.
  split; [apply Qeq_bool_neq|].
  intros H. destruct (Qeq_bool x y) eqn:E; [|reflexivity].
  apply Qeq_bool_eq in E. contradiction.
Qed.

Lemma ndiv_Fin (a b : Q) : ~ b == 0 -> ndiv (Fin a) (Fin b) = Fin (a / b).
Proof.
  intros H. apply Qeq_bool_false_iff in H. unfold ndiv. now rewrite H.
Qed.

(** ** Determinism (C9) *)

(** C9, as stated, fails: the same [assignMoney] call on the same empty
    ledger, made at two moments one millisecond apart, returns records
    with different ids. *)
Lemma call_not_deterministic :
  fst (call host0 (AssignMoney "rent" "2024-03" 10) emptyLedger)
  <> fst (call host1 (AssignMoney "rent" "2024-03" 10) emptyLedger).
Proof. vm_compute. discriminate. Qed.

Lemma Math_log_ext (h1 h2 : Host) (x : number) :
  (forall q, ln h1 q = ln h2 q) -> Math_log h1 x = Math_log h2 x.
Proof.
  intros H. destruct x; simpl; try reflexivity. now rewrite H.
Qed.

Lemma calculatePayoffTime_ext (h1 h2 : Host) (balance annualRate : Q) (payment : number) :
  (forall q, ln h1 q = ln h2 q) ->
  calculatePayoffTime h1 balance annualRate payment
  = calculatePayoffTime h2 balance annualRate payment.
Proof.
  intros H. unfold calculatePayoffTime.
  now rewrite !(Math_log_ext h1 h2 _ H).
Qed.

Lemma forEach_indexed_ext {A : Type} (f g : nat -> A -> A) (l : list A) (k : nat) :
  (forall i x, f i x = g i x) -> forEach_indexed f k l = forEach_indexed g k l.
Proof.
  intros H. revert k. induction l as [|x l IH]; intros k; simpl; [reflexivity|].
  now rewrite H, IH.
Qed.

Lemma calculateDebtPayoffPlan_ext (h1 h2 : Host) (extraPayment : Q)
    (strategy : Strategy) (d : BudgetData) :
  (forall q, ln h1 q = ln h2 q) ->
  calculateDebtPayoffPlan h1 extraPayment strategy d
  = calculateDebtPayoffPlan h2 extraPayment strategy d.
Proof.
  intros H. unfold calculateDebtPayoffPlan. apply forEach_indexed_ext.
  intros i x. unfold schedule. now rewrite (calculatePayoffTime_ext h1 h2 _ _ _ H).
Qed.

Lemma assignMoney_ext (now1 now2 : Z) (categoryId month : string) (amount : Q)
    (d : BudgetData) :
  now1 = now2 \/ find (budgetFor categoryId month) (budgets d) <> None ->
  assignMoney now1 categoryId month amount d = assignMoney now2 categoryId month amount d.
Proof.
  intros H. unfold assignMoney.
  destruct (findIndex (budgetFor categoryId month) (budgets d)) eqn:E; [reflexivity|].
  destruct H as [H|H].
  - now rewrite H.
  - apply findIndex_None in E. contradiction.
Qed.

Lemma calculateGoalProgress_ext (h1 h2 : Host) (goalId : string) (d : BudgetData) :
  (forall s, Date_year_month h1 s = Date_year_month h2 s) ->
  (now_year h1 = now_year h2 /\ now_month h1 = now_month h2)
  \/ readsClock (CalculateGoalProgress goalId) d = false ->
  calculateGoalProgress h1 goalId d = calculateGoalProgress h2 goalId d.
Proof.
  intros Hd H. unfold calculateGoalProgress. simpl in H.
  destruct (find (fun g => (Goal.id g =? goalId)%string) (goals d)) as [g|];
    [|reflexivity].
  destruct (GoalType_eqb (Goal.type g) target_date && truthy_string (Goal.targetDate g));
    [|reflexivity].
  destruct H as [[Hy Hm]|H]; [|discriminate].
  now rewrite Hd, Hy, Hm.
Qed.

Lemma coverOverspent_ext (h1 h2 : Host) (month : string) (cats : list string)
    (assigned : list nat) (remainingMoney : Q) (d : BudgetData) :
  (forall n, Date_now h1 n = Date_now h2 n) ->
  coverOverspent h1 month cats assigned remainingMoney d
  = coverOverspent h2 month cats assigned remainingMoney d.
Proof.
  intros H. revert assigned remainingMoney d.
  induction cats as [|c cats IH]; intros assigned rem d; cbn [coverOverspent];
    [reflexivity|].
  destruct (Qle_bool rem 0); [reflexivity|].
  rewrite (H (List.length assigned)).
  destruct (assignMoney _ c month _ d). apply IH.
Qed.

Lemma fundGoals_ext (h1 h2 : Host) (month : string) (priorities : list string)
    (assigned : list nat) (remainingMoney : Q) (d : BudgetData) :
  sameMachine h1 h2 -> sameClock h1 h2 ->
  fundGoals h1 month priorities assigned remainingMoney d
  = fundGoals h2 month priorities assigned remainingMoney d.
Proof.
  intros (_ & Hd & _) (Hn & Hy & Hm & _). revert assigned remainingMoney d.
  induction priorities as [|c cs IH]; intros assigned rem d; cbn [fundGoals];
    [reflexivity|].
  destruct (Qle_bool rem 0); [reflexivity|].
  destruct (find _ (categories d)) as [category|]; [|apply IH].
  destruct (Category.isGoal category); [|apply IH].
  destruct (find _ (goals d)) as [goal|]; [|apply IH].
  rewrite (calculateGoalProgress_ext h1 h2 _ d Hd (or_introl (conj Hy Hm))).
  destruct (calculateGoalProgress h2 (Goal.id goal) d) as [p|msg]; [|reflexivity].
  destruct (Qlt_bool 0 _); [|apply IH].
  rewrite (Hn (List.length assigned)).
  destruct (assignMoney _ c month _ d). apply IH.
Qed.

Lemma fold_left_ext {A B : Type} (f g : B -> A -> B) (l : list A) (b : B) :
  (forall x y, f x y = g x y) -> fold_left f l b = fold_left g l b.
Proof.
  intros H. revert b. induction l as [|x l IH]; intros b; simpl; [reflexivity|].
  now rewrite H, IH.
Qed.

Lemma calculateAgeOfMoney_ext (h1 h2 : Host) (d : BudgetData) :
  (forall s, Date_getTime h1 s = Date_getTime h2 s) ->
  ninety_days_ago h1 = ninety_days_ago h2 ->
  calculateAgeOfMoney h1 d = calculateAgeOfMoney h2 d.
Proof.
  intros Hg Hn. unfold calculateAgeOfMoney.
  assert (R : filter (fun t => match Date_getTime h1 (Transaction.date t) with
                               | Some ms => (ninety_days_ago h1 <=? ms)%Z
                               | None => false
                               end) (transactions d)
              = filter (fun t => match Date_getTime h2 (Transaction.date t) with
                                 | Some ms => (ninety_days_ago h2 <=? ms)%Z
                                 | None => false
                                 end) (transactions d)).
  { apply filter_ext. intros t. now rewrite Hg, Hn. }
  rewrite R. unfold reduce_sum.
  rewrite !(fold_left_ext (fun sum x => sum + getTime h1 x)
                          (fun sum x => sum + getTime h2 x))
    by (intros x y; unfold getTime; now rewrite Hg).
  reflexivity.
Qed.

(** C9 (amended): an engine call is a function of its arguments, the
    ledger snapshot and what it reads of its host.  Two runs with the same
    arguments on the same snapshot, on the same machine, return the same
    value and leave the same ledger if they are made at the same moment,
    and also at different moments unless the call reads the clock: an
    [assignMoney] that creates the record (its id holds [Date.now()]), a
    [calculateGoalProgress] on a [target_date] goal with a date, an
    [autoAssignMoney], a [calculateAgeOfMoney]. *)
Theorem call_deterministic (h1 h2 : Host) (c : Call) (d : BudgetData) :
  sameMachine h1 h2 ->
  sameClock h1 h2 \/ readsClock c d = false ->
  call h1 c d = call h2 c d.
Proof.
  intros M H. pose proof M as (Hl & Hd & Hg).
  destruct c; simpl; try reflexivity.
  - rewrite (assignMoney_ext (Date_now h1 0) (Date_now h2 0) categoryId month amount d);
      [reflexivity|].
    destruct H as [(Hn & _)|H]; [left; apply Hn|right].
    simpl in H. destruct (find _ (budgets d)); [discriminate|discriminate].
  - now rewrite (calculateDebtPayoffPlan_ext h1 h2 _ _ _ Hl).
  - rewrite (calculateGoalProgress_ext h1 h2 goalId d Hd); [reflexivity|].
    destruct H as [(_ & Hy & Hm & _)|H]; [now left|now right].
  - destruct H as [C|H]; [|discriminate].
    unfold autoAssignMoney.
    destruct (Qle_bool _ 0); [reflexivity|].
    rewrite (coverOverspent_ext h1 h2) by apply C.
    destruct (coverOverspent h2 month _ [] _ d) as [[assigned rem] d1].
    now rewrite (fundGoals_ext h1 h2 _ _ _ _ _ M C).
  - destruct H as [(_ & _ & _ & Hn)|H]; [|discriminate].
    now rewrite (calculateAgeOfMoney_ext h1 h2 d Hg Hn).
Qed.

(** ** Instances *)

Example getPreviousMonth_feb : getPreviousMonth "2024-02" = "2024-01".
Proof. reflexivity. Qed.

Example getPreviousMonth_jan : getPreviousMonth "2024-01" = "2023-12".
Proof. reflexivity. Qed.

Example getPreviousMonth_bad : getPreviousMonth "2024" = "NaN-NaN".
Proof. reflexivity. Qed.

(** On [ledgerStale] the February balance is the stored 30 and the
    January balance recomputed is 20. *)
Example ledgerStale_balances :
  calculateCategoryAvailable "groceries" "2024-02" ledgerStale == 30
  /\ calculateCategoryAvailable "groceries" "2024-01" ledgerStale == 20.
Proof. split; reflexivity. Qed.

(** February 2024 on [ledgerWinter]: 3000 of income, 1750 left unassigned
    in January, 50 overspent in January. *)
Example ledgerWinter_february :
  calculateAvailableToBudget "2024-02" ledgerWinter == 4700.
Proof. reflexivity. Qed.

(** The goal instances of the specification: 1500 of 6000 is 25%; 1200
    to save in the six months to September is 200 a month, on track with
    a monthly funding of 200. *)
Example ledgerWinter_goals :
  (exists p, calculateGoalProgress host0 "g2" ledgerWinter = Ok p /\ progress p == 25)
  /\ (exists p, calculateGoalProgress host0 "g1" ledgerWinter = Ok p
                /\ monthsRemaining p = Fin 6
                /\ recommendedMonthly p == 200
                /\ onTrack p = true).
Proof. split; eexists; repeat split. Qed.

(** The net worth instance: 2000 in checking and 500 owed on a card. *)
Example ledgerWinter_netWorth :
  assets (calculateNetWorth ledgerWinter) == 2000
  /\ liabilities (calculateNetWorth ledgerWinter) == 500
  /\ netWorth (calculateNetWorth ledgerWinter) == 1500.
Proof. repeat split. Qed.

(** A record created by [assignMoney] is stored with an [available] that
    leaves the new [assigned] out (it is computed before the record is in
    the ledger), while the balance computed afterwards counts it. *)
Example assignMoney_new_record_available :
  map (fun b => (Budget.assigned b, Budget.available b))
      (budgets (snd (assignMoney (Date_now host0 0) "rent" "2024-03" 50 emptyLedger)))
  = [(50, 0)]
  /\ calculateCategoryAvailable "rent" "2024-03"
       (snd (assignMoney (Date_now host0 0) "rent" "2024-03" 50 emptyLedger)) == 50.
Proof. split; reflexivity. Qed.

(** ** The theorems at work on the example ledgers *)


Lemma call_deterministic_witness :
  call host0 (AssignMoney "groceries" "2024-02" 25) ledgerWinter
  = call host1 (AssignMoney "groceries" "2024-02" 25) ledgerWinter.
Proof.
  apply call_deterministic.
  - repeat split.
  - right. reflexivity.
Defined.

Lemma calculateDebtPayoffPlan_ranked_witness :
  exists e,
    nth_error (calculateDebtPayoffPlan host0 50 snowball ledgerThreeDebts) 0 = Some e
    /\ DebtPlan.accountId e = "a"
    /\ DebtPlan.payoffOrder e = 1%Z
    /\ exists payment,
         number_eq payment (nadd (DebtPlan.minimumPayment e) (Fin 50))
         /\ DebtPlan.monthsToPayoff e
            = months (calculatePayoffTime host0 (DebtPlan.balance e)
                        (DebtPlan.interestRate e) payment).
Proof.
  eexists. split; [reflexivity|]. split; [reflexivity|].
  destruct (proj2 (proj2 (calculateDebtPayoffPlan_ranked host0 50 snowball ledgerThreeDebts))
              0%nat _ eq_refl) as (H1 & payment & H2 & H3 & _).
  split; [exact H1|]. exists payment. split; [exact H2|exact H3].
Defined.


(** * The engine on doubles *)

(** ** Doubles through their IEEE 754 reading *)

Lemma SFcompare_refl (f : spec_float) : f <> S754_nan -> SFcompare f f = Some Eq.
Proof.
  destruct f as [s|s| |s m e]; simpl; intros H; try congruence.
  - now destruct s.
  - rewrite Z.compare_refl, Pos.compare_cont_refl. now destruct s.
Qed.

Lemma is_nan_spec (x : float) : is_nan x = true <-> Prim2SF x = S754_nan.
Proof.
  unfold is_nan. rewrite FloatAxioms.eqb_spec. unfold SFeqb. split.
  - intros H. destruct (Prim2SF x) eqn:E; try reflexivity;
      rewrite SFcompare_refl in H by discriminate; discriminate.
  - intros ->. reflexivity.
Qed.

Lemma nan_unique (x : float) : is_nan x = true -> x = nan.
Proof. intros H. apply Prim2SF_inj. apply is_nan_spec in H. now rewrite H. Qed.







(** The sign of a double, read off its comparison with 0. *)
Lemma ltb_zero_spec (x : float) :
  (x <? 0)%float = true
  <-> Prim2SF x = S754_infinity true \/ exists m e, Prim2SF x = S754_finite true m e.
Proof.
  rewrite ltb_spec. unfold SFltb. change (Prim2SF 0) with (S754_zero false).
  destruct (Prim2SF x) as [s|s| |s m e]; simpl.
  - split; [discriminate|]. intros [H|(m & e & H)]; discriminate.
  - destruct s; split; try discriminate; auto.
    intros [H|(m & e & H)]; discriminate.
  - split; [discriminate|]. intros [H|(m & e & H)]; discriminate.
  - destruct s; split; try discriminate; eauto.
    intros [H|(m' & e' & H)]; discriminate.
Qed.

Lemma zero_ltb_spec (x : float) :
  (0 <? x)%float = true
  <-> Prim2SF x = S754_infinity false \/ exists m e, Prim2SF x = S754_finite false m e.
Proof.
  rewrite ltb_spec. unfold SFltb. change (Prim2SF 0) with (S754_zero false).
  destruct (Prim2SF x) as [s|s| |s m e]; simpl.
  - split; [discriminate|]. intros [H|(m & e & H)]; discriminate.
  - destruct s; split; try discriminate; auto.
    intros [H|(m & e & H)]; discriminate.
  - split; [discriminate|]. intros [H|(m & e & H)]; discriminate.
  - destruct s; split; try discriminate; eauto.
    intros [H|(m' & e' & H)]; discriminate.
Qed.

Lemma eqb_zero_spec (x : float) :
  (x =? 0)%float = true <-> exists s, Prim2SF x = S754_zero s.
Proof.
  rewrite FloatAxioms.eqb_spec. unfold SFeqb. change (Prim2SF 0) with (S754_zero false).
  destruct (Prim2SF x) as [s|s| |s m e]; simpl.
  - split; eauto.
  - destruct s; split; try discriminate; intros [s' H]; discriminate.
  - split; [discriminate|]. intros [s' H]; discriminate.
  - destruct s; split; try discriminate; intros [s' H]; discriminate.
Qed.


(** A double is NaN, below 0, a zero or above 0, and one of these only. *)
Lemma sign_cases (x : float) :
  (is_nan x = true /\ (x <? 0)%float = false /\ (x =? 0)%float = false
   /\ (0 <? x)%float = false)
  \/ (is_nan x = false /\ (x <? 0)%float = true /\ (x =? 0)%float = false
      /\ (0 <? x)%float = false)
  \/ (is_nan x = false /\ (x <? 0)%float = false /\ (x =? 0)%float = true
      /\ (0 <? x)%float = false)
  \/ (is_nan x = false /\ (x <? 0)%float = false /\ (x =? 0)%float = false
      /\ (0 <? x)%float = true).
Proof.
  assert (N := is_nan_spec x). assert (L := ltb_zero_spec x).
  assert (E := eqb_zero_spec x). assert (G := zero_ltb_spec x).
  destruct (Prim2SF x) as [s|s| |s m e] eqn:P.
  - right. right. left.
    destruct (is_nan x); [destruct N as [N _]; discriminate (N eq_refl)|].
    destruct (x <? 0)%float;
      [destruct L as [L _]; destruct (L eq_refl) as [K|(m & e & K)]; discriminate|].
    destruct (0 <? x)%float;
      [destruct G as [G _]; destruct (G eq_refl) as [K|(m & e & K)]; discriminate|].
    destruct (x =? 0)%float; [auto|]. destruct E as [_ E]. discriminate E. eauto.
  - destruct (is_nan x); [destruct N as [N _]; discriminate (N eq_refl)|].
    destruct (x =? 0)%float;
      [destruct E as [E _]; destruct (E eq_refl) as [s' K]; discriminate|].
    destruct s.
    + right. left.
      destruct (0 <? x)%float;
        [destruct G as [G _]; destruct (G eq_refl) as [K|(m & e & K)]; discriminate|].
      destruct (x <? 0)%float; [auto|]. destruct L as [_ L]. discriminate L. auto.
    + right. right. right.
      destruct (x <? 0)%float;
        [destruct L as [L _]; destruct (L eq_refl) as [K|(m & e & K)]; discriminate|].
      destruct (0 <? x)%float; [auto|]. destruct G as [_ G]. discriminate G. auto.
  - left.
    destruct (x <? 0)%float;
      [destruct L as [L _]; destruct (L eq_refl) as [K|(m & e & K)]; discriminate|].
    destruct (x =? 0)%float;
      [destruct E as [E _]; destruct (E eq_refl) as [s' K]; discriminate|].
    destruct (0 <? x)%float;
      [destruct G as [G _]; destruct (G eq_refl) as [K|(m & e & K)]; discriminate|].
    destruct (is_nan x); [auto|]. destruct N as [_ N]. discriminate N. reflexivity.
  - destruct (is_nan x); [destruct N as [N _]; discriminate (N eq_refl)|].
    destruct (x =? 0)%float;
      [destruct E as [E _]; destruct (E eq_refl) as [s' K]; discriminate|].
    destruct s.
    + right. left.
      destruct (0 <? x)%float;
        [destruct G as [G _]; destruct (G eq_refl) as [K|(m' & e' & K)]; discriminate|].
      destruct (x <? 0)%float; [auto|]. destruct L as [_ L]. discriminate L. eauto.
    + right. right. right.
      destruct (x <? 0)%float;
        [destruct L as [L _]; destruct (L eq_refl) as [K|(m' & e' & K)]; discriminate|].
      destruct (0 <? x)%float; [auto|]. destruct G as [_ G]. discriminate G. eauto.
Qed.



(** ** [assignMoney] on doubles *)





(** Two calls with 10 and one call with 20, on a ledger without the
    record and on the envelope that holds 0.1. *)
Example assignMoney_10_10_20 :
  let assignedOf (r : nat * Double.BudgetData) :=
    option_map Double.Budget.assigned (nth_error (Double.budgets (snd r)) (fst r)) in
  let twice d :=
    Double.assignMoney 2 "groceries" "2024-02" 10
      (snd (Double.assignMoney 1 "groceries" "2024-02" 10 d)) in
  let once d := Double.assignMoney 3 "groceries" "2024-02" 20 d in
  assignedOf (twice (Double.mkData [] [] [] [] [])) = Some 20%float
  /\ assignedOf (once (Double.mkData [] [] [] [] [])) = Some 20%float
  /\ assignedOf (twice Double.ledgerTenth) = Some 20.1%float
  /\ assignedOf (once Double.ledgerTenth) = Some 20.1%float.
Proof. repeat split. Qed.

(** ** [autoAssignMoney] on doubles *)




(** ** [calculatePayoffTime] on doubles *)












(** ** [calculateGoalProgress] on doubles *)

Lemma Double_calculateGoalProgress_found (h : Double.Host) (goalId : string)
    (d : Double.BudgetData) (g : Double.Goal.t) :
  find (fun x => (Double.Goal.id x =? goalId)%string) (Double.goals d) = Some g ->
  exists p,
    Double.calculateGoalProgress h goalId d = Ok p
    /\ Double.progress p
       = if (0 <? Double.Goal.targetAmount g)%float
         then (Double.Goal.currentAmount g / Double.Goal.targetAmount g * 100)%float
         else 0%float.
Proof.
  intros H. unfold Double.calculateGoalProgress. rewrite H.
  destruct (GoalType_eqb (Double.Goal.type g) target_date
            && truthy_string (Double.Goal.targetDate g)).
  - match goal with |- context [if ?c then Ok _ else Ok _] => destruct c end; eauto.
  - destruct (GoalType_eqb (Double.Goal.type g) monthly_funding
              && Double.truthy_opt (Double.Goal.monthlyFunding g)); [|eauto].
    match goal with |- context [if ?c then Ok _ else Ok _] => destruct c end; eauto.
Qed.

(** C5: [calculateGoalProgress(goalId)] throws, with the message
    "Goal not found", if and only if the ledger has no Goal with that id,
    and the ledger is the same after the call in either case.  For the
    Goal with that id, with a target that is not negative, it returns
    [progress = currentAmount / targetAmount * 100], and 0 when the
    target is 0.  On doubles too: the quotient and the product are the
    rounded ones of the source for a positive target, and for a target
    that is a zero [progress] is the double 0, not NaN and not
    Infinity. *)
Theorem calculateGoalProgress_total :
  (forall (h : Host) (goalId : string) (d : BudgetData),
      (calculateGoalProgress h goalId d = Throw "Goal not found"
       <-> ~ goalExists goalId d)
      /\ ((exists message, calculateGoalProgress h goalId d = Throw message)
          <-> ~ goalExists goalId d)
      /\ (forall g,
            find (fun x => (Goal.id x =? goalId)%string) (goals d) = Some g ->
            0 <= Goal.targetAmount g ->
            exists p,
              calculateGoalProgress h goalId d = Ok p
              /\ progress p = if Qeq_bool (Goal.targetAmount g) 0 then 0
                              else Goal.currentAmount g / Goal.targetAmount g * 100)
      /\ snd (call h (CalculateGoalProgress goalId) d) = d)
  /\ (forall (h : Double.Host) (goalId : string) (d : Double.BudgetData),
        (Double.calculateGoalProgress h goalId d = Throw "Goal not found"
         <-> forall g, In g (Double.goals d) -> Double.Goal.id g <> goalId)
        /\ (forall g,
              find (fun x => (Double.Goal.id x =? goalId)%string) (Double.goals d)
              = Some g ->
              exists p,
                Double.calculateGoalProgress h goalId d = Ok p
                /\ ((0 <? Double.Goal.targetAmount g)%float = true ->
                    Double.progress p
                    = (Double.Goal.currentAmount g / Double.Goal.targetAmount g
                       * 100)%float)
                /\ ((Double.Goal.targetAmount g =? 0)%float = true ->
                    Double.progress p = 0%float))).
Proof.
  split.
  - intros h goalId d.
    destruct (calculateGoalProgress_outcome h goalId d) as (T1 & T2 & F & S).
    split; [exact T1|]. split; [exact T2|]. split; [|exact S].
    intros g Hg Ht. destruct (F g Hg) as (p & Hp & Hprog).
    exists p. split; [exact Hp|]. rewrite Hprog.
    unfold Qlt_bool.
    destruct (Qle_bool (Goal.targetAmount g) 0) eqn:E; simpl.
    + apply Qle_bool_iff in E.
      assert (Z : Goal.targetAmount g == 0) by lra.
      apply Qeq_bool_iff in Z. now rewrite Z.
    + destruct (Qeq_bool (Goal.targetAmount g) 0) eqn:Z; [|reflexivity].
      apply Qeq_bool_iff in Z.
      exfalso. assert (K : Goal.targetAmount g <= 0) by lra.
      apply Qle_bool_iff in K. congruence.
  - intros h goalId d. split.
    + split.
      * intros H g Hin Hid.
        destruct (find (fun x => (Double.Goal.id x =? goalId)%string) (Double.goals d))
          as [g'|] eqn:E.
        -- destruct (Double_calculateGoalProgress_found h goalId d g' E) as (p & Hp & _).
           congruence.
        -- apply (find_none _ _ E) in Hin. simpl in Hin.
           rewrite Hid, String.eqb_refl in Hin. discriminate.
      * intros H. unfold Double.calculateGoalProgress.
        destruct (find (fun x => (Double.Goal.id x =? goalId)%string) (Double.goals d))
          as [g'|] eqn:E; [|reflexivity].
        apply find_some in E as [Hin Hid]. apply String.eqb_eq in Hid.
        exfalso. exact (H g' Hin Hid).
    + intros g Hg.
      destruct (Double_calculateGoalProgress_found h goalId d g Hg) as (p & Hp & Hprog).
      exists p. split; [exact Hp|]. split.
      * intros Ht. now rewrite Hprog, Ht.
      * intros Hz. rewrite Hprog.
        destruct (sign_cases (Double.Goal.targetAmount g)) as [C|[C|[C|C]]];
          destruct C as (N & L & Z & G); try congruence.
        now rewrite G.
Qed.

Lemma calculateGoalProgress_total_witness :
  (exists p,
      calculateGoalProgress host0 "g2" ledgerWinter = Ok p
      /\ progress p == 25)
  /\ calculateGoalProgress host0 "g9" ledgerWinter = Throw "Goal not found"
  /\ (exists p,
        Double.calculateGoalProgress Double.host0 "g1" Double.ledgerZeroTarget = Ok p
        /\ Double.progress p = 0%float).
Proof.
  split; [|split].
  - destruct (proj1 (proj2 (proj2 (proj1 calculateGoalProgress_total
                                      host0 "g2" ledgerWinter)))
                (Goal.mk "g2" "vacation" "Fund" target_balance 6000 None None 1500 true)
                eq_refl ltac:(discriminate))
      as (p & Hp & Hprog).
    exists p. split; [exact Hp|]. rewrite Hprog. reflexivity.
  - apply (proj1 calculateGoalProgress_total host0 "g9" ledgerWinter).
    intros (g & Hin & Hid). simpl in Hin.
    destruct Hin as [<-|[<-|[]]]; discriminate.
  - destruct (proj2 (proj2 calculateGoalProgress_total
                       Double.host0 "g1" Double.ledgerZeroTarget)
                (Double.Goal.mk "g1" "vacation" "Trip" target_balance 0 None None 50 true)
                eq_refl)
      as (p & Hp & _ & Hz).
    exists p. split; [exact Hp|]. apply Hz. reflexivity.
Defined.

(** * Further properties *)

(** ** Month keys *)

Lemma string_append_nil_r (s : string) : (s ++ "")%string = s.
Proof. induction s as [|c s IH]; simpl; [reflexivity|]. now rewrite IH. Qed.

Lemma string_append_assoc (s t u : string) :
  ((s ++ t) ++ u)%string = (s ++ (t ++ u))%string.
Proof. induction s as [|c s IH]; simpl; [reflexivity|]. now rewrite IH. Qed.

Lemma split_dash_aux_noDash (cur s : string) :
  noDash s -> split_dash_aux cur s = [cur ++ s]%string.
Proof.
  revert cur. induction s as [|c s IH]; simpl; intros cur H.
  - now rewrite string_append_nil_r.
  - destruct H as [Hc Hs]. rewrite Hc, (IH _ Hs).
    now rewrite string_append_assoc.
Qed.

Lemma split_dash_aux_app (cur s t : string) :
  noDash s ->
  split_dash_aux cur (s ++ String "-" t) = (cur ++ s)%string :: split_dash_aux "" t.
Proof.
  revert cur. induction s as [|c s IH]; simpl; intros cur H.
  - now rewrite string_append_nil_r.
  - destruct H as [Hc Hs]. rewrite Hc, (IH _ Hs).
    now rewrite string_append_assoc.
Qed.

Lemma noDash_uint (d : Decimal.uint) : noDash (NilEmpty.string_of_uint d).
Proof. induction d; simpl; auto. Qed.

Lemma string_of_Z_pos (p : positive) :
  string_of_Z (Zpos p) = NilEmpty.string_of_uint (Pos.to_uint p)
  /\ Number_of_segment (string_of_Z (Zpos p)) = Some (Zpos p).
Proof.
  assert (E : string_of_Z (Zpos p) = NilEmpty.string_of_uint (Pos.to_uint p)).
  { unfold string_of_Z. simpl. unfold NilZero.string_of_uint.
    pose proof (DecimalPos.Unsigned.to_uint_nonnil p) as N.
    destruct (Pos.to_uint p); congruence. }
  split; [exact E|].
  unfold Number_of_segment. rewrite E, NilEmpty.usu.
  unfold Z.of_uint. now rewrite DecimalPos.Unsigned.of_to.
Qed.

Lemma padded_month (m : Z) :
  (1 <= m <= 12)%Z ->
  noDash (padStart2 (string_of_Z m))
  /\ Number_of_segment (padStart2 (string_of_Z m)) = Some m.
Proof.
  intros H.
  assert (C : (m = 1 \/ m = 2 \/ m = 3 \/ m = 4 \/ m = 5 \/ m = 6 \/ m = 7
              \/ m = 8 \/ m = 9 \/ m = 10 \/ m = 11 \/ m = 12)%Z) by lia.
  repeat (destruct C as [->|C]; [vm_compute; intuition congruence|]).
  subst m. vm_compute. intuition congruence.
Qed.

Lemma parse_monthKey (y m : Z) :
  (0 < y)%Z -> (1 <= m <= 12)%Z ->
  map Number_of_segment (split_dash (monthKey y m)) = [Some y; Some m].
Proof.
  intros Hy Hm. destruct y as [|p|p]; try lia.
  destruct (string_of_Z_pos p) as [E N].
  destruct (padded_month m Hm) as [D P].
  unfold monthKey, split_dash.
  change ("-" ++ padStart2 (string_of_Z m))%string
    with (String "-" (padStart2 (string_of_Z m))).
  rewrite E, split_dash_aux_app by apply noDash_uint.
  rewrite split_dash_aux_noDash by exact D.
  simpl. rewrite <- E, N, P. reflexivity.
Qed.

Lemma month_index (y m delta : Z) :
  (1 <= m <= 12)%Z -> (delta = 1 \/ delta = -1)%Z ->
  let idx := (y * 12 + (m - 1) + delta)%Z in
  ((idx / 12)%Z, (idx mod 12 + 1)%Z)
  = if (delta =? 1)%Z
    then (if (m =? 12)%Z then ((y + 1)%Z, 1%Z) else (y, (m + 1)%Z))
    else (if (m =? 1)%Z then ((y - 1)%Z, 12%Z) else (y, (m - 1)%Z)).
Proof.
  intros Hm Hd idx.
  pose proof (Z.div_mod idx 12 ltac:(lia)) as H1.
  pose proof (Z.mod_pos_bound idx 12 ltac:(lia)) as H2.
  destruct Hd as [-> | ->]; simpl Z.eqb.
  - destruct (Z.eqb_spec m 12) as [->|N]; f_equal; lia.
  - destruct (Z.eqb_spec m 1) as [->|N]; f_equal; lia.
Qed.

Lemma navigateMonth_key (direction : Direction) (y m : Z) :
  (100 <= y)%Z -> (1 <= m <= 12)%Z ->
  navigateMonth direction (monthKey y m)
  = match direction with
    | next => if (m =? 12)%Z then monthKey (y + 1) 1 else monthKey y (m + 1)
    | prev => if (m =? 1)%Z then monthKey (y - 1) 12 else monthKey y (m - 1)
    end.
Proof.
  intros Hy Hm. unfold navigateMonth.
  rewrite parse_monthKey by lia.
  replace ((0 <=? y) && (y <=? 99))%Z with false by lia.
  destruct direction; cbv beta iota zeta.
  - pose proof (month_index y m (-1) Hm (or_intror eq_refl)) as K.
    cbv zeta in K. simpl Z.eqb in K.
    destruct (m =? 1)%Z; injection K as -> ->; reflexivity.
  - pose proof (month_index y m 1 Hm (or_introl eq_refl)) as K.
    cbv zeta in K. simpl Z.eqb in K.
    destruct (m =? 12)%Z; injection K as -> ->; reflexivity.
Qed.

Lemma getPreviousMonth_navigateMonth (month : string) :
  getPreviousMonth month = navigateMonth prev month.
Proof.
  unfold getPreviousMonth, navigateMonth.
  destruct (map Number_of_segment (split_dash month)) as [|[year|] [|[monthNum|] l]];
    reflexivity.
Qed.

Lemma monthKey_inj (y m y' m' : Z) :
  (0 < y)%Z -> (1 <= m <= 12)%Z -> (0 < y')%Z -> (1 <= m' <= 12)%Z ->
  monthKey y m = monthKey y' m' -> y = y' /\ m = m'.
Proof.
  intros Hy Hm Hy' Hm' E.
  pose proof (parse_monthKey y m Hy Hm) as P.
  rewrite E, (parse_monthKey y' m' Hy' Hm') in P.
  injection P as -> ->. auto.
Qed.

(** The month before a well-formed month is another month, and so is the
    month before that one. *)
Lemma getPreviousMonth_other (month : string) :
  wellFormedMonth month ->
  getPreviousMonth month <> month
  /\ getPreviousMonth (getPreviousMonth month) <> month
  /\ getPreviousMonth (getPreviousMonth month) <> getPreviousMonth month.
Proof.
  intros (y & m & Hy & Hm & ->).
  rewrite !getPreviousMonth_navigateMonth.
  rewrite (navigateMonth_key prev y m) by lia.
  destruct (Z.eqb_spec m 1) as [->|N]; cbv iota.
  - rewrite !getPreviousMonth_navigateMonth.
    rewrite (navigateMonth_key prev (y - 1) 12) by lia. simpl Z.eqb. cbv iota.
    repeat split; intros E; apply monthKey_inj in E; lia.
  - rewrite !getPreviousMonth_navigateMonth.
    rewrite (navigateMonth_key prev y (m - 1)) by lia.
    destruct (Z.eqb_spec (m - 1) 1) as [K|K]; cbv iota;
      repeat split; intros E; apply monthKey_inj in E; lia.
Qed.

(** X1: for a month key [YYYY-MM] with a four-digit year and a month
    01..12, [getPreviousMonth] returns the key of the calendar month
    before: December of the year before for a January, the month before
    in the same year otherwise. *)
Theorem getPreviousMonth_calendar (y m : Z) :
  (1000 <= y <= 9999)%Z -> (1 <= m <= 12)%Z ->
  getPreviousMonth (monthKey y m)
  = if (m =? 1)%Z then monthKey (y - 1) 12 else monthKey y (m - 1).
Proof.
  intros Hy Hm. rewrite getPreviousMonth_navigateMonth.
  apply (navigateMonth_key prev); lia.
Qed.

(** X2: on a well-formed month key the two directions of
    [navigateMonth] undo each other, and going back lands on the month
    the engine calls the previous one. *)
Theorem navigateMonth_round_trip (month : string) :
  wellFormedMonth month ->
  navigateMonth next (navigateMonth prev month) = month
  /\ navigateMonth prev (navigateMonth next month) = month
  /\ navigateMonth prev month = getPreviousMonth month.
Proof.
  intros (y & m & Hy & Hm & ->).
  split; [|split; [|symmetry; apply getPreviousMonth_navigateMonth]].
  - rewrite (navigateMonth_key prev y m) by lia.
    destruct (Z.eqb_spec m 1) as [->|N]; cbv iota.
    + rewrite (navigateMonth_key next (y - 1) 12) by lia. simpl Z.eqb. cbv iota.
      f_equal. lia.
    + rewrite (navigateMonth_key next y (m - 1)) by lia.
      destruct (Z.eqb_spec (m - 1) 12) as [K|K]; [lia|]. cbv iota. f_equal. lia.
  - rewrite (navigateMonth_key next y m) by lia.
    destruct (Z.eqb_spec m 12) as [->|N]; cbv iota.
    + rewrite (navigateMonth_key prev (y + 1) 1) by lia. simpl Z.eqb. cbv iota.
      f_equal. lia.
    + rewrite (navigateMonth_key prev y (m + 1)) by lia.
      destruct (Z.eqb_spec (m + 1) 1) as [K|K]; [lia|]. cbv iota. f_equal. lia.
Qed.

(** ** Available to budget, by calendar month *)

Lemma sumOverMonth_ext (f g : Budget.t -> Q) (m : string) (l : list Budget.t) :
  (forall b, In b l -> Budget.month b = m -> f b == g b) ->
  sumOverMonth f m l == sumOverMonth g m l.
Proof.
  induction l as [|y l IH]; simpl; intros H.
  - reflexivity.
  - rewrite IH by auto.
    destruct (Budget.month y =? m)%string eqn:E.
    + apply String.eqb_eq in E. rewrite (H y) by auto. reflexivity.
    + reflexivity.
Qed.











(** ** What one assignMoney changes *)

Lemma find_update_at_other {A : Type} (p : A -> bool) (f : A -> A) (l : list A)
    (i : nat) (x : A) :
  nth_error l i = Some x -> p x = false -> p (f x) = false ->
  find p (update_at i f l) = find p l.
Proof.
  revert i. induction l as [|y l IH]; intros [|i] Hn Hx Hf; simpl in *;
    try discriminate.
  - injection Hn as ->. now rewrite Hx, Hf.
  - now rewrite (IH i Hn Hx Hf).
Qed.

Lemma filter_update_at_other {A : Type} (p : A -> bool) (f : A -> A) (l : list A)
    (i : nat) (x : A) :
  nth_error l i = Some x -> p x = false -> p (f x) = false ->
  filter p (update_at i f l) = filter p l.
Proof.
  revert i. induction l as [|y l IH]; intros [|i] Hn Hx Hf; simpl in *;
    try discriminate.
  - injection Hn as ->. now rewrite Hx, Hf.
  - now rewrite (IH i Hn Hx Hf).
Qed.

Lemma find_app_other {A : Type} (p : A -> bool) (l : list A) (x : A) :
  p x = false -> find p (l ++ [x]) = find p l.
Proof.
  intros Hx. induction l as [|y l IH]; simpl.
  - now rewrite Hx.
  - now rewrite IH.
Qed.

Lemma nth_error_update_at_other {A : Type} (f : A -> A) (l : list A) (i j : nat) :
  i <> j -> nth_error (update_at i f l) j = nth_error l j.
Proof.
  revert i j. induction l as [|y l IH]; intros [|i] [|j] H; simpl;
    try reflexivity; try congruence.
  apply IH. congruence.
Qed.

Lemma sumOverMonth_update_at (f : Budget.t -> Q) (m : string) (F : Budget.t -> Budget.t)
    (l : list Budget.t) (i : nat) (b : Budget.t) :
  nth_error l i = Some b ->
  sumOverMonth f m (update_at i F l)
  == sumOverMonth f m l
     - (if (Budget.month b =? m)%string then f b else 0)
     + (if (Budget.month (F b) =? m)%string then f (F b) else 0).
Proof.
  revert i. induction l as [|y l IH]; intros [|i] Hn; simpl in *; try discriminate.
  - injection Hn as ->. lra.
  - rewrite (IH i Hn). lra.
Qed.

Lemma sumOverMonth_app (f : Budget.t -> Q) (m : string) (l : list Budget.t)
    (x : Budget.t) :
  sumOverMonth f m (l ++ [x])
  == sumOverMonth f m l + (if (Budget.month x =? m)%string then f x else 0).
Proof.
  induction l as [|y l IH]; simpl.
  - lra.
  - rewrite IH. lra.
Qed.

Lemma budgetFor_other (categoryId month c' m' : string) (b : Budget.t) :
  budgetFor categoryId month b = true ->
  c' <> categoryId \/ m' <> month ->
  budgetFor c' m' b = false.
Proof.
  intros H N. apply budgetFor_month in H as [<- <-].
  unfold budgetFor.
  destruct (String.eqb_spec (Budget.categoryId b) c'),
           (String.eqb_spec (Budget.month b) m'); simpl; try reflexivity.
  destruct N; congruence.
Qed.

Lemma assignMoney_find_other (now : Z) (categoryId month : string) (amount : Q)
    (d : BudgetData) (c' m' : string) :
  c' <> categoryId \/ m' <> month ->
  find (budgetFor c' m') (budgets (snd (assignMoney now categoryId month amount d)))
  = find (budgetFor c' m') (budgets d).
Proof.
  intros N.
  destruct (assignMoney_cases now categoryId month amount d)
    as [(i & b & v & Hi & Hn & Hf & ->)|(v & Hf & ->)]; simpl.
  - apply findIndex_Some in Hi as (x & Hx & Hp & _).
    rewrite Hn in Hx. injection Hx as <-.
    apply (find_update_at_other _ _ _ _ b Hn).
    + now apply (budgetFor_other categoryId month).
    + rewrite budgetFor_reassign. now apply (budgetFor_other categoryId month).
  - apply find_app_other.
    apply (budgetFor_other categoryId month); [apply budgetFor_new|exact N].
Qed.

Lemma assignMoney_assignedOf (now : Z) (categoryId month : string) (amount : Q)
    (d : BudgetData) :
  assignedOf categoryId month (snd (assignMoney now categoryId month amount d))
  == assignedOf categoryId month d + amount.
Proof.
  destruct (assignMoney_find now categoryId month amount d) as (r & Hr & _ & Ha).
  unfold assignedOf at 1. rewrite Hr. exact Ha.
Qed.

Lemma assignMoney_calculateCategoryAvailable_other (now : Z) (categoryId month : string)
    (amount : Q) (d : BudgetData) (c' m' : string) :
  c' <> categoryId \/ m' <> month ->
  c' <> categoryId \/ getPreviousMonth m' <> month ->
  calculateCategoryAvailable c' m' (snd (assignMoney now categoryId month amount d))
  == calculateCategoryAvailable c' m' d.
Proof.
  intros N1 N2. rewrite !calculateCategoryAvailable_eq.
  unfold storedAvailable, assignedOf.
  rewrite !assignMoney_find_other by assumption.
  destruct (assignMoney_frame now categoryId month amount d) as (_ & _ & -> & _).
  reflexivity.
Qed.

Lemma assignMoney_calculateCategoryAvailable_own (now : Z) (categoryId month : string)
    (amount : Q) (d : BudgetData) :
  getPreviousMonth month <> month ->
  calculateCategoryAvailable categoryId month
    (snd (assignMoney now categoryId month amount d))
  == calculateCategoryAvailable categoryId month d + amount.
Proof.
  intros N. rewrite !calculateCategoryAvailable_eq.
  rewrite assignMoney_assignedOf.
  unfold storedAvailable.
  rewrite assignMoney_find_other by (right; exact N).
  destruct (assignMoney_frame now categoryId month amount d) as (_ & _ & -> & _).
  lra.
Qed.

Lemma assignMoney_sumOverMonth (now : Z) (categoryId month : string) (amount : Q)
    (d : BudgetData) (f : Budget.t -> Q) (m' : string) :
  m' <> month ->
  sumOverMonth f m' (budgets (snd (assignMoney now categoryId month amount d)))
  == sumOverMonth f m' (budgets d).
Proof.
  intros N.
  destruct (assignMoney_cases now categoryId month amount d)
    as [(i & b & v & Hi & Hn & Hf & ->)|(v & Hf & ->)]; simpl.
  - rewrite (sumOverMonth_update_at f m' _ _ _ _ Hn).
    apply find_some in Hf as [_ Hb]. apply budgetFor_month in Hb as [_ Hb].
    simpl. rewrite Hb.
    destruct (String.eqb_spec month m'); [congruence|lra].
  - rewrite sumOverMonth_app. simpl.
    destruct (String.eqb_spec month m'); [congruence|lra].
Qed.

Lemma assignMoney_totalAssignedIn (now : Z) (categoryId month : string) (amount : Q)
    (d : BudgetData) :
  totalAssignedIn month (snd (assignMoney now categoryId month amount d))
  == totalAssignedIn month d + amount.
Proof.
  unfold totalAssignedIn. rewrite !reduce_sum_month.
  destruct (assignMoney_cases now categoryId month amount d)
    as [(i & b & v & Hi & Hn & Hf & ->)|(v & Hf & ->)]; simpl.
  - rewrite (sumOverMonth_update_at Budget.assigned month _ _ _ _ Hn).
    apply find_some in Hf as [_ Hb]. apply budgetFor_month in Hb as [_ Hb].
    simpl. rewrite Hb, String.eqb_refl. lra.
  - rewrite sumOverMonth_app. simpl. rewrite String.eqb_refl. lra.
Qed.

(** [assignMoney] for a month leaves [calculateAvailableToBudget] of any
    month as it was, unless the month assigned to is the one or two
    months before it. *)
Lemma assignMoney_calculateAvailableToBudget (now : Z) (categoryId month : string)
    (amount : Q) (d : BudgetData) (target : string) :
  getPreviousMonth target <> month ->
  getPreviousMonth (getPreviousMonth target) <> month ->
  calculateAvailableToBudget target (snd (assignMoney now categoryId month amount d))
  == calculateAvailableToBudget target d.
Proof.
  intros N1 N2. rewrite !calculateAvailableToBudget_formula.
  destruct (assignMoney_frame now categoryId month amount d) as (_ & _ & Ht & _).
  rewrite Ht.
  rewrite (assignMoney_sumOverMonth now categoryId month amount d Budget.assigned)
    by exact N1.
  rewrite (assignMoney_sumOverMonth now categoryId month amount d
             (fun b => Qmax 0 (- calculateCategoryAvailable (Budget.categoryId b)
                                   (getPreviousMonth target)
                                   (snd (assignMoney now categoryId month amount d)))))
    by exact N1.
  rewrite (sumOverMonth_ext
             (fun b => Qmax 0 (- calculateCategoryAvailable (Budget.categoryId b)
                                   (getPreviousMonth target)
                                   (snd (assignMoney now categoryId month amount d))))
             (fun b => Qmax 0 (- calculateCategoryAvailable (Budget.categoryId b)
                                   (getPreviousMonth target) d))).
  - reflexivity.
  - intros b _ _.
    rewrite assignMoney_calculateCategoryAvailable_other by (right; assumption).
    reflexivity.
Qed.

Lemma assignMoney_stored (now : Z) (categoryId month : string) (amount : Q)
    (d : BudgetData) :
  getPreviousMonth month <> month ->
  let d' := snd (assignMoney now categoryId month amount d) in
  (find (budgetFor categoryId month) (budgets d) <> None ->
   storedAvailable categoryId month d' == calculateCategoryAvailable categoryId month d')
  /\ (find (budgetFor categoryId month) (budgets d) = None ->
      storedAvailable categoryId month d'
      == calculateCategoryAvailable categoryId month d' - amount).
Proof.
  intros N d'. split; intros H.
  - subst d'. unfold assignMoney.
    destruct (findIndex (budgetFor categoryId month) (budgets d)) as [i|] eqn:E;
      [|apply findIndex_None in E; contradiction].
    cbn [snd budgets set_budgets].
    set (l1 := update_at i (fun b => set_assigned (Budget.assigned b + amount) b)
                         (budgets d)).
    set (d1 := set_budgets l1 d).
    set (v := calculateCategoryAvailable categoryId month d1).
    assert (E1 : findIndex (budgetFor categoryId month) l1 = Some i
                 /\ find (budgetFor categoryId month) l1
                    = option_map (fun b => set_assigned (Budget.assigned b + amount) b)
                                 (find (budgetFor categoryId month) (budgets d))).
    { apply findIndex_update_at; [reflexivity|exact E]. }
    destruct E1 as [E1 F1].
    destruct (findIndex_update_at (budgetFor categoryId month) (set_available v) l1 i
                (fun x => eq_refl) E1) as [_ F2].
    destruct (findIndex_Some _ _ _ E1) as (x & Hx & Hp & Hfx).
    rewrite !calculateCategoryAvailable_eq.
    unfold storedAvailable, assignedOf. cbn [budgets set_budgets transactions].
    rewrite F2, Hfx. cbn [option_map set_available Budget.available Budget.assigned].
    rewrite (find_update_at_other _ (set_available v) l1 i x Hx).
    + fold (storedAvailable categoryId (getPreviousMonth month) d1).
      unfold v. rewrite calculateCategoryAvailable_eq.
      unfold assignedOf. cbn [budgets d1 set_budgets transactions]. rewrite Hfx.
      reflexivity.
    + apply (budgetFor_other categoryId month); [exact Hp|right; exact N].
    + apply (budgetFor_other categoryId month); [exact Hp|right; exact N].
  - subst d'. rewrite assignMoney_calculateCategoryAvailable_own by exact N.
    unfold assignMoney.
    destruct (findIndex (budgetFor categoryId month) (budgets d)) as [i|] eqn:E.
    { apply findIndex_Some in E as (x & _ & _ & Hx). congruence. }
    cbn [snd]. unfold storedAvailable. cbn [budgets set_budgets].
    match goal with
    | |- context [find ?p (?l ++ [?x])] =>
        destruct (find_app_new p l x H (budgetFor_new _ _ _ _ _ _)) as [_ ->]
    end.
    simpl. lra.
Qed.

(** X3: assigning to an envelope of a well-formed month leaves that
    month's [availableToBudget] as it was.  An amount that is not
    negative does not lower the month's [totalAssigned] and does not
    raise its [toBeBudgeted]; an amount that is not positive does not
    raise the one and does not lower the other. *)
Theorem assignMoney_moves_toBeBudgeted (now : Z) (categoryId month : string)
    (amount : Q) (d : BudgetData) :
  wellFormedMonth month ->
  let before := getMonthlyBudgetSummary month d in
  let after :=
    getMonthlyBudgetSummary month (snd (assignMoney now categoryId month amount d)) in
  availableToBudget after == availableToBudget before
  /\ (0 <= amount ->
      totalAssigned before <= totalAssigned after
      /\ toBeBudgeted after <= toBeBudgeted before)
  /\ (amount <= 0 ->
      totalAssigned after <= totalAssigned before
      /\ toBeBudgeted before <= toBeBudgeted after).
Proof.
  intros W. destruct (getPreviousMonth_other month W) as (N1 & N2 & _).
  cbn [getMonthlyBudgetSummary availableToBudget totalAssigned toBeBudgeted].
  rewrite assignMoney_calculateAvailableToBudget by assumption.
  rewrite assignMoney_totalAssignedIn.
  split; [reflexivity|]. split; intros H; split; lra.
Qed.

(** X4: [assignMoney(c, M, amount)] on a well-formed month does not
    lower the balance [calculateCategoryAvailable(c, M)] when the amount
    is not negative, and does not raise it when the amount is not
    positive; it leaves the balance of every other category in every
    month as it was, and the balance of [c] in every month as it was
    except M and the month after M. *)
Theorem assignMoney_moves_one_balance (now : Z) (categoryId month : string)
    (amount : Q) (d : BudgetData) :
  wellFormedMonth month ->
  let d' := snd (assignMoney now categoryId month amount d) in
  (0 <= amount ->
   calculateCategoryAvailable categoryId month d
   <= calculateCategoryAvailable categoryId month d')
  /\ (amount <= 0 ->
      calculateCategoryAvailable categoryId month d'
      <= calculateCategoryAvailable categoryId month d)
  /\ (forall c' m',
        c' <> categoryId ->
        calculateCategoryAvailable c' m' d' == calculateCategoryAvailable c' m' d)
  /\ (forall m',
        m' <> month -> getPreviousMonth m' <> month ->
        calculateCategoryAvailable categoryId m' d'
        == calculateCategoryAvailable categoryId m' d).
Proof.
  intros W d'. destruct (getPreviousMonth_other month W) as (N1 & _).
  pose proof (assignMoney_calculateCategoryAvailable_own now categoryId month amount d N1)
    as Own.
  fold d' in Own.
  split; [intros H; lra|]. split; [intros H; lra|]. split.
  - intros c' m' N. apply assignMoney_calculateCategoryAvailable_other; now left.
  - intros m' Na Nb. apply assignMoney_calculateCategoryAvailable_other; now right.
Qed.

(** X5: the [available] that [assignMoney] stores in the record of a
    well-formed month is, when the record existed, the balance
    [calculateCategoryAvailable] of the ledger the call leaves; when the
    call creates the record, it is the balance of the ledger before the
    call, computed before the record is in it, which leaves the amount
    just assigned out. *)
Theorem assignMoney_stored_available (now : Z) (categoryId month : string)
    (amount : Q) (d : BudgetData) :
  wellFormedMonth month ->
  let d' := snd (assignMoney now categoryId month amount d) in
  (find (budgetFor categoryId month) (budgets d) <> None ->
   storedAvailable categoryId month d' == calculateCategoryAvailable categoryId month d')
  /\ (find (budgetFor categoryId month) (budgets d) = None ->
      storedAvailable categoryId month d'
      == calculateCategoryAvailable categoryId month d).
Proof.
  intros W d'. destruct (getPreviousMonth_other month W) as (N1 & _).
  destruct (assignMoney_stored now categoryId month amount d N1) as [S1 S2].
  split; [exact S1|].
  intros H. pose proof (S2 H) as K. cbv zeta in K.
  pose proof (assignMoney_calculateCategoryAvailable_own now categoryId month amount d N1)
    as Own.
  subst d'. lra.
Qed.

(** X6: [assignMoney] changes one Budget record and nothing else: the
    accounts, categories, transactions and goals are kept, every record
    but the one returned is kept where it was, and a record that existed
    keeps its id, category, month and [activity]. *)
Theorem assignMoney_touches_one_record (now : Z) (categoryId month : string)
    (amount : Q) (d : BudgetData) :
  let r := assignMoney now categoryId month amount d in
  accounts (snd r) = accounts d
  /\ categories (snd r) = categories d
  /\ transactions (snd r) = transactions d
  /\ goals (snd r) = goals d
  /\ (forall j, j <> fst r -> nth_error (budgets (snd r)) j = nth_error (budgets d) j)
  /\ (forall b,
        nth_error (budgets d) (fst r) = Some b ->
        exists b',
          nth_error (budgets (snd r)) (fst r) = Some b'
          /\ Budget.id b' = Budget.id b
          /\ Budget.categoryId b' = Budget.categoryId b
          /\ Budget.month b' = Budget.month b
          /\ Budget.activity b' = Budget.activity b
          /\ Budget.assigned b' = Budget.assigned b + amount).
Proof.
  intros r. subst r.
  destruct (assignMoney_frame now categoryId month amount d) as (Hg & Hc & Ht & Ha).
  repeat (split; [assumption|]).
  destruct (assignMoney_cases now categoryId month amount d)
    as [(i & b & v & Hi & Hn & Hf & ->)|(v & Hf & ->)]; cbn [fst snd budgets set_budgets].
  - split.
    + intros j Hj. apply nth_error_update_at_other. congruence.
    + intros b0 Hb0. rewrite Hn in Hb0. injection Hb0 as <-.
      exists (reassign amount v b). repeat split.
      clear Hi Hf. revert i Hn.
      induction (budgets d) as [|y l IH]; intros [|i] Hn; simpl in *; try discriminate.
      * now injection Hn as ->.
      * now apply IH.
  - split.
    + intros j Hj.
      destruct (Nat.lt_ge_cases j (List.length (budgets d))) as [L|L].
      * now rewrite nth_error_app1.
      * assert (K : nth_error (budgets d) j = None) by now apply nth_error_None.
        rewrite K. apply nth_error_None. rewrite length_app. simpl. lia.
    + intros b0 Hb0.
      assert (K : nth_error (budgets d) (List.length (budgets d)) = None)
        by (apply nth_error_None; lia).
      congruence.
Qed.

(** ** What auto-assignment keeps *)

Lemma assignedWithin_refl (month : string) (d : BudgetData) : assignedWithin month d d.
Proof.
  unfold assignedWithin. split; [reflexivity|]. split; [reflexivity|].
  split; [intros c; lra|]. split; [lra|reflexivity].
Qed.

Lemma assignedWithin_trans (month : string) (d1 d2 d3 : BudgetData) :
  assignedWithin month d1 d2 -> assignedWithin month d2 d3 -> assignedWithin month d1 d3.
Proof.
  intros (T1 & A1 & C1 & S1 & F1) (T2 & A2 & C2 & S2 & F2).
  unfold assignedWithin.
  split; [congruence|]. split; [rewrite A2; exact A1|].
  split; [intros c; eapply Qle_trans; [apply C1|apply C2]|].
  split; [lra|congruence].
Qed.

Lemma assignMoney_other_months (now : Z) (categoryId month : string) (amount : Q)
    (d : BudgetData) :
  filter (fun b => negb (Budget.month b =? month)%string)
         (budgets (snd (assignMoney now categoryId month amount d)))
  = filter (fun b => negb (Budget.month b =? month)%string) (budgets d).
Proof.
  destruct (assignMoney_cases now categoryId month amount d)
    as [(i & b & v & Hi & Hn & Hf & ->)|(v & Hf & ->)]; simpl.
  - apply find_some in Hf as [_ Hb]. apply budgetFor_month in Hb as [_ Hb].
    apply (filter_update_at_other _ _ _ _ b Hn); simpl;
      now rewrite Hb, String.eqb_refl.
  - rewrite filter_app. simpl. rewrite String.eqb_refl. simpl.
    now rewrite app_nil_r.
Qed.

Lemma assignMoney_assignedWithin (now : Z) (categoryId month : string) (amount : Q)
    (d : BudgetData) :
  getPreviousMonth month <> month ->
  getPreviousMonth (getPreviousMonth month) <> month ->
  0 <= amount ->
  assignedWithin month d (snd (assignMoney now categoryId month amount d)).
Proof.
  intros N1 N2 Ha. unfold assignedWithin.
  split; [now destruct (assignMoney_frame now categoryId month amount d)
                as (_ & _ & -> & _)|].
  split; [now apply assignMoney_calculateAvailableToBudget|].
  split; [|split; [|apply assignMoney_other_months]].
  - intros c. destruct (String.eqb_spec c categoryId) as [->|N].
    + rewrite assignMoney_calculateCategoryAvailable_own by exact N1. lra.
    + rewrite assignMoney_calculateCategoryAvailable_other by (now left). lra.
  - rewrite assignMoney_totalAssignedIn, assignMoney_sumAssigned. lra.
Qed.

Lemma coverOverspent_assignedWithin (h : Host) (month : string) (cats : list string)
    (assigned : list nat) (remainingMoney : Q) (d : BudgetData) :
  getPreviousMonth month <> month ->
  getPreviousMonth (getPreviousMonth month) <> month ->
  0 <= remainingMoney ->
  assignedWithin month d (snd (coverOverspent h month cats assigned remainingMoney d)).
Proof.
  intros N1 N2. revert assigned remainingMoney d.
  induction cats as [|c cats IH]; intros assigned rem d Hrem; cbn [coverOverspent].
  - apply assignedWithin_refl.
  - destruct (Qle_bool rem 0); [apply assignedWithin_refl|].
    set (toAssign := Qmin (Qabs (calculateCategoryAvailable c month d)) rem).
    destruct (Qmin_bounds (Qabs (calculateCategoryAvailable c month d)) rem
                (Qabs_nonneg _) Hrem) as [H0 H1].
    fold toAssign in H0, H1.
    pose proof (assignMoney_assignedWithin (Date_now h (List.length assigned))
                  c month toAssign d N1 N2 H0) as G.
    destruct (assignMoney (Date_now h (List.length assigned)) c month toAssign d)
      as [budget d']. cbv iota beta. simpl snd in G.
    eapply assignedWithin_trans; [exact G|]. apply IH. lra.
Qed.

Lemma fundGoals_assignedWithin (h : Host) (month : string) (priorities : list string)
    (assigned : list nat) (remainingMoney : Q) (d : BudgetData) :
  getPreviousMonth month <> month ->
  getPreviousMonth (getPreviousMonth month) <> month ->
  0 <= remainingMoney ->
  assignedWithin month d (snd (fundGoals h month priorities assigned remainingMoney d)).
Proof.
  intros N1 N2. revert assigned remainingMoney d.
  induction priorities as [|c cs IH]; intros assigned rem d Hrem; cbn [fundGoals].
  - apply assignedWithin_refl.
  - destruct (Qle_bool rem 0); [apply assignedWithin_refl|].
    destruct (find _ (categories d)) as [category|]; [|now apply IH].
    destruct (Category.isGoal category); [|now apply IH].
    destruct (find _ (goals d)) as [goal|]; [|now apply IH].
    destruct (calculateGoalProgress h (Goal.id goal) d) as [p|msg];
      [|apply assignedWithin_refl].
    set (toAssign := Qmin (Qmax 0 (recommendedMonthly p - _)) rem).
    destruct (Qlt_bool 0 toAssign) eqn:Epos; [|now apply IH].
    apply Qlt_bool_iff in Epos.
    assert (H1 : toAssign <= rem) by apply Q.le_min_r.
    assert (H0 : 0 <= toAssign) by lra.
    pose proof (assignMoney_assignedWithin (Date_now h (List.length assigned))
                  c month toAssign d N1 N2 H0) as G.
    destruct (assignMoney (Date_now h (List.length assigned)) c month toAssign d)
      as [budget d']. cbv iota beta. simpl snd in G.
    eapply assignedWithin_trans; [exact G|]. apply IH. lra.
Qed.

Lemma autoAssignMoney_assignedWithin (h : Host) (month : string)
    (priorities : list string) (d : BudgetData) :
  wellFormedMonth month ->
  assignedWithin month d (snd (autoAssignMoney h month priorities d)).
Proof.
  intros W. destruct (getPreviousMonth_other month W) as (N1 & N2 & _).
  unfold autoAssignMoney.
  destruct (Qle_bool _ 0) eqn:E; [apply assignedWithin_refl|].
  apply Qle_bool_false in E.
  pose proof (coverOverspent_assignedWithin h month (getOverspentCategories month d) []
                (toBeBudgeted (getMonthlyBudgetSummary month d)) d N1 N2
                ltac:(lra)) as G.
  pose proof (coverOverspent_total h month (getOverspentCategories month d) []
                (toBeBudgeted (getMonthlyBudgetSummary month d)) d ltac:(lra)) as K.
  destruct (coverOverspent h month (getOverspentCategories month d) []
              (toBeBudgeted (getMonthlyBudgetSummary month d)) d)
    as [[assigned rem] d1].
  cbv zeta in K. simpl in K, G. destruct K as (K0 & _).
  eapply assignedWithin_trans; [exact G|].
  now apply fundGoals_assignedWithin.
Qed.

Lemma autoAssignMoney_added (h : Host) (month : string) (priorities : list string)
    (d : BudgetData) :
  0 <= sumAssigned (snd (autoAssignMoney h month priorities d)) - sumAssigned d
  /\ sumAssigned (snd (autoAssignMoney h month priorities d)) - sumAssigned d
     <= Qmax 0 (toBeBudgeted (getMonthlyBudgetSummary month d)).
Proof.
  unfold autoAssignMoney.
  set (available := toBeBudgeted (getMonthlyBudgetSummary month d)).
  destruct (Qle_bool available 0) eqn:E.
  - simpl. pose proof (Q.le_max_l 0 available). split; lra.
  - apply Qle_bool_false in E.
    pose proof (coverOverspent_total h month (getOverspentCategories month d) []
                  available d ltac:(lra)) as K.
    destruct (coverOverspent h month (getOverspentCategories month d) [] available d)
      as [[assigned rem] d1].
    cbv zeta in K. simpl in K. destruct K as (K0 & K1 & K2 & _).
    pose proof (fundGoals_total h month priorities assigned rem d1 K0) as F.
    cbv zeta in F. destruct F as (_ & F1 & F2).
    pose proof (Q.le_max_r 0 available). split; lra.
Qed.

(** X7: [autoAssignMoney] on a well-formed month leaves the month's
    [availableToBudget] as it was, does not lower its [totalAssigned]
    and does not raise its [toBeBudgeted]. *)
Theorem autoAssignMoney_lowers_toBeBudgeted (h : Host) (month : string)
    (priorities : list string) (d : BudgetData) :
  wellFormedMonth month ->
  let before := getMonthlyBudgetSummary month d in
  let d' := snd (autoAssignMoney h month priorities d) in
  let after := getMonthlyBudgetSummary month d' in
  availableToBudget after == availableToBudget before
  /\ totalAssigned before <= totalAssigned after
  /\ toBeBudgeted after <= toBeBudgeted before.
Proof.
  intros W before d' after.
  destruct (autoAssignMoney_assignedWithin h month priorities d W)
    as (_ & A & _ & S & _).
  destruct (autoAssignMoney_added h month priorities d) as (B0 & _).
  fold d' in A, S, B0.
  subst after before.
  cbn [getMonthlyBudgetSummary availableToBudget totalAssigned toBeBudgeted].
  split; [exact A|]. split; lra.
Qed.

(** X8: [autoAssignMoney] on a well-formed month never lowers the
    balance [calculateCategoryAvailable] of any category in that month,
    and it leaves the Budget records of every other month, and the
    transactions, exactly as they were. *)
Theorem autoAssignMoney_only_raises (h : Host) (month : string)
    (priorities : list string) (d : BudgetData) :
  wellFormedMonth month ->
  let d' := snd (autoAssignMoney h month priorities d) in
  (forall c, calculateCategoryAvailable c month d
             <= calculateCategoryAvailable c month d')
  /\ filter (fun b => negb (Budget.month b =? month)%string) (budgets d')
     = filter (fun b => negb (Budget.month b =? month)%string) (budgets d)
  /\ transactions d' = transactions d.
Proof.
  intros W d'.
  destruct (autoAssignMoney_assignedWithin h month priorities d W)
    as (T & _ & C & _ & F).
  auto.
Qed.

(** ** Net worth *)

Lemma netWorth_fold (l : list Account.t) (a li : Q) (ob : list (string * Q)) :
  let '(assets, liabilities, _) :=
    fold_left
      (fun '(assets, liabilities, accountBreakdown) account =>
         let accountBreakdown :=
           obj_set (Account.name account) (Account.balance account) accountBreakdown in
         if Qle_bool 0 (Account.balance account)
         then (assets + Account.balance account, liabilities, accountBreakdown)
         else (assets, liabilities + Qabs (Account.balance account), accountBreakdown))
      l (a, li, ob) in
  assets
  = fold_left (fun sum x => sum + Account.balance x)
      (filter (fun x => Qle_bool 0 (Account.balance x)) l) a
  /\ liabilities
     = fold_left (fun sum x => sum + Qabs (Account.balance x))
         (filter (fun x => negb (Qle_bool 0 (Account.balance x))) l) li
  /\ a <= assets /\ li <= liabilities.
Proof.
  revert a li ob. induction l as [|x l IH]; intros a li ob; simpl.
  - repeat split; lra.
  - destruct (Qle_bool 0 (Account.balance x)) eqn:E; simpl.
    + apply Qle_bool_iff in E.
      specialize (IH (a + Account.balance x) li
                     (obj_set (Account.name x) (Account.balance x) ob)).
      destruct (fold_left _ l _) as [[assets liabilities] br].
      destruct IH as (I1 & I2 & I3 & I4).
      split; [exact I1|]. split; [exact I2|]. split; lra.
    + apply Qle_bool_false in E.
      pose proof (Qabs_nonneg (Account.balance x)) as K.
      specialize (IH a (li + Qabs (Account.balance x))
                     (obj_set (Account.name x) (Account.balance x) ob)).
      destruct (fold_left _ l _) as [[assets liabilities] br].
      destruct IH as (I1 & I2 & I3 & I4).
      split; [exact I1|]. split; [exact I2|]. split; lra.
Qed.

(** X10: [calculateNetWorth] adds up, in the order of the ledger and
    starting from 0, the balances that are not negative into [assets]
    and the absolute values of the negative ones into [liabilities];
    [netWorth] is the one minus the other, and neither is negative. *)
Theorem calculateNetWorth_sum (d : BudgetData) :
  assets (calculateNetWorth d)
  = reduce_sum Account.balance
      (filter (fun x => Qle_bool 0 (Account.balance x)) (accounts d))
  /\ liabilities (calculateNetWorth d)
     = reduce_sum (fun x => Qabs (Account.balance x))
         (filter (fun x => negb (Qle_bool 0 (Account.balance x))) (accounts d))
  /\ netWorth (calculateNetWorth d)
     = assets (calculateNetWorth d) - liabilities (calculateNetWorth d)
  /\ 0 <= assets (calculateNetWorth d)
  /\ 0 <= liabilities (calculateNetWorth d).
Proof.
  unfold calculateNetWorth, reduce_sum.
  pose proof (netWorth_fold (accounts d) 0 0 []) as K.
  destruct (fold_left _ (accounts d) _) as [[a li] br].
  destruct K as (K1 & K2 & K3 & K4). simpl.
  split; [exact K1|]. split; [exact K2|]. split; [reflexivity|]. split; assumption.
Qed.

Lemma obj_get_put (key key' : string) (v : Q) (obj : list (string * Q)) :
  obj_get key' (obj_put key v obj)
  = if (key =? key')%string then Some v else obj_get key' obj.
Proof.
  induction obj as [|[k w] obj IH]; simpl.
  - reflexivity.
  - destruct (String.eqb_spec k key) as [->|N]; simpl.
    + destruct (key =? key')%string; reflexivity.
    + rewrite IH. destruct (String.eqb_spec k key') as [->|N'].
      * destruct (String.eqb_spec key key'); [congruence|reflexivity].
      * reflexivity.
Qed.

Lemma obj_put_keys (key : string) (v : Q) (obj : list (string * Q)) :
  NoDup (map fst obj) ->
  NoDup (map fst (obj_put key v obj))
  /\ forall k, In k (map fst (obj_put key v obj)) <-> k = key \/ In k (map fst obj).
Proof.
  induction obj as [|[k w] obj IH]; simpl; intros U.
  - split; [repeat constructor; auto|]. intros k. intuition congruence.
  - inversion U as [|? ? Hk U']; subst.
    destruct (String.eqb_spec k key) as [->|N]; simpl.
    + split; [exact U|]. intros k0. intuition congruence.
    + destruct (IH U') as [I1 I2]. split.
      * constructor; [|exact I1]. rewrite I2. intros [E|E]; congruence.
      * intros k0. rewrite I2. intuition congruence.
Qed.

(** What one [obj[key] = v] leaves: no two entries under one key,
    nothing under [__proto__], and under another key the value just
    stored or the one that was there. *)
Lemma obj_set_entries (key : string) (v : Q) (obj : list (string * Q)) :
  NoDup (map fst obj) ->
  obj_get "__proto__" obj = None ->
  NoDup (map fst (obj_set key v obj))
  /\ obj_get "__proto__" (obj_set key v obj) = None
  /\ forall name,
       name <> "__proto__" ->
       obj_get name (obj_set key v obj)
       = if (key =? name)%string then Some v else obj_get name obj.
Proof.
  intros U P. unfold obj_set.
  destruct (String.eqb_spec key "__proto__") as [->|N].
  - split; [exact U|]. split; [exact P|].
    intros name Hn. destruct (String.eqb_spec "__proto__" name); congruence.
  - split; [apply obj_put_keys; exact U|]. split.
    + rewrite obj_get_put. destruct (String.eqb_spec key "__proto__"); congruence.
    + intros name _. apply obj_get_put.
Qed.

Lemma breakdown_fold (l : list Account.t) (a li : Q) (ob : list (string * Q)) :
  NoDup (map fst ob) ->
  obj_get "__proto__" ob = None ->
  let '(_, _, accountBreakdown) :=
    fold_left
      (fun '(assets, liabilities, accountBreakdown) account =>
         let accountBreakdown :=
           obj_set (Account.name account) (Account.balance account) accountBreakdown in
         if Qle_bool 0 (Account.balance account)
         then (assets + Account.balance account, liabilities, accountBreakdown)
         else (assets, liabilities + Qabs (Account.balance account), accountBreakdown))
      l (a, li, ob) in
  NoDup (map fst accountBreakdown)
  /\ obj_get "__proto__" accountBreakdown = None
  /\ forall name,
       name <> "__proto__" ->
       obj_get name accountBreakdown
       = match lastBalance name l with
         | Some v => Some v
         | None => obj_get name ob
         end.
Proof.
  revert a li ob. induction l as [|x l IH]; intros a li ob U P; simpl.
  - split; [exact U|]. split; [exact P|]. reflexivity.
  - destruct (obj_set_entries (Account.name x) (Account.balance x) ob U P)
      as (U' & P' & G).
    destruct (Qle_bool 0 (Account.balance x)).
    + specialize (IH (a + Account.balance x) li _ U' P').
      destruct (fold_left _ l _) as [[assets liabilities] br].
      destruct IH as (I1 & I2 & I3). split; [exact I1|]. split; [exact I2|].
      intros name Hn. rewrite (I3 name Hn), (G name Hn).
      destruct (lastBalance name l); [reflexivity|].
      destruct (Account.name x =? name)%string; reflexivity.
    + specialize (IH a (li + Qabs (Account.balance x)) _ U' P').
      destruct (fold_left _ l _) as [[assets liabilities] br].
      destruct IH as (I1 & I2 & I3). split; [exact I1|]. split; [exact I2|].
      intros name Hn. rewrite (I3 name Hn), (G name Hn).
      destruct (lastBalance name l); [reflexivity|].
      destruct (Account.name x =? name)%string; reflexivity.
Qed.

Lemma lastBalance_In (a : Account.t) (l : list Account.t) :
  In a l -> lastBalance (Account.name a) l <> None.
Proof.
  induction l as [|x l IH]; simpl; intros H; [tauto|].
  destruct (lastBalance (Account.name a) l); [discriminate|].
  destruct H as [->|H]; [now rewrite String.eqb_refl|].
  now apply IH in H.
Qed.

Lemma lastBalance_Some (name : string) (l : list Account.t) (v : Q) :
  lastBalance name l = Some v ->
  exists a, In a l /\ Account.name a = name /\ Account.balance a = v.
Proof.
  induction l as [|x l IH]; simpl; intros H; [discriminate|].
  destruct (lastBalance name l) as [w|].
  - destruct (IH H) as (a & Ha & Hn & Hb). exists a. auto.
  - destruct (String.eqb_spec (Account.name x) name) as [E|E]; [|discriminate].
    injection H as <-. exists x. auto.
Qed.

(** X11: the breakdown of [calculateNetWorth], read by key.  It has no
    two entries under one name and none under [__proto__], a key on
    which the assignment of a number stores nothing.  Under any other
    name it holds the balance of the last account of the ledger with
    that name: every account with such a name has an entry, and every
    entry is the balance of an account with its name. *)
Theorem calculateNetWorth_breakdown (d : BudgetData) :
  let breakdown := accountBreakdown (calculateNetWorth d) in
  NoDup (map fst breakdown)
  /\ obj_get "__proto__" breakdown = None
  /\ (forall name,
        name <> "__proto__" ->
        obj_get name breakdown = lastBalance name (accounts d))
  /\ (forall a,
        In a (accounts d) -> Account.name a <> "__proto__" ->
        exists a',
          In a' (accounts d)
          /\ Account.name a' = Account.name a
          /\ obj_get (Account.name a) breakdown = Some (Account.balance a'))
  /\ (forall name v,
        obj_get name breakdown = Some v ->
        exists a, In a (accounts d) /\ Account.name a = name /\ Account.balance a = v).
Proof.
  unfold calculateNetWorth.
  pose proof (breakdown_fold (accounts d) 0 0 [] (NoDup_nil _) eq_refl) as K.
  destruct (fold_left _ (accounts d) _) as [[a li] br].
  destruct K as (K1 & K2 & K3). simpl.
  assert (L : forall name, name <> "__proto__" ->
                obj_get name br = lastBalance name (accounts d)).
  { intros name Hn. rewrite (K3 name Hn). now destruct (lastBalance name (accounts d)). }
  split; [exact K1|]. split; [exact K2|]. split; [exact L|]. split.
  - intros x Hx Hn. rewrite (L _ Hn).
    destruct (lastBalance (Account.name x) (accounts d)) as [v|] eqn:E.
    + destruct (lastBalance_Some _ _ _ E) as (a' & Ha & Hna & <-). exists a'. auto.
    + exfalso. now apply (lastBalance_In x (accounts d) Hx).
  - intros name v H.
    destruct (String.eqb_spec name "__proto__") as [->|Hn]; [congruence|].
    rewrite (L _ Hn) in H. now apply lastBalance_Some.
Qed.

(** ** Payoff times *)

(** X14: a plan entry whose minimum payment is 0 (a loan without an
    interest rate, or with a rate of 0) is never paid off in the plan,
    with Infinity months and no interest, unless it is ranked first and
    the extra payment is positive. *)
Theorem calculateDebtPayoffPlan_zero_payment (h : Host) (extraPayment : Q)
    (strategy : Strategy) (d : BudgetData) (index : nat) (e : DebtPlan.t) :
  nth_error (calculateDebtPayoffPlan h extraPayment strategy d) index = Some e ->
  number_eq (DebtPlan.minimumPayment e) (Fin 0) ->
  index <> O \/ extraPayment <= 0 ->
  DebtPlan.monthsToPayoff e = PInf /\ DebtPlan.totalInterest e = Fin 0.
Proof.
  unfold calculateDebtPayoffPlan. intros Hn Hz Hi.
  rewrite forEach_indexed_nth in Hn.
  destruct (nth_error _ index) as [debt|]; [|discriminate].
  simpl in Hn. injection Hn as <-.
  unfold schedule in *.
  cbn [DebtPlan.minimumPayment DebtPlan.monthsToPayoff DebtPlan.totalInterest] in *.
  destruct (DebtPlan.minimumPayment debt) as [m| | |]; simpl in Hz; try tauto.
  set (x := if Nat.eqb index 0 then extraPayment else 0).
  assert (Hx : x <= 0).
  { unfold x. destruct (Nat.eqb_spec index 0); [|lra].
    destruct Hi; [contradiction|assumption]. }
  change (nadd (Fin m) (Fin x)) with (Fin (m + x)).
  unfold calculatePayoffTime.
  assert (E : nle_bool (Fin (m + x)) (Fin 0) = true) by (apply Qle_bool_iff; lra).
  rewrite E. split; reflexivity.
Qed.

(** ** Ties in the plan *)

Lemma sort_insert_filter {A : Type} (compare : A -> A -> Q) (E : A -> bool)
    (x : A) (l : list A) :
  (forall a b, E a = true -> E b = true -> compare a b <= 0) ->
  filter E (sort_insert compare x l) = filter E (x :: l).
Proof.
  intros HE. induction l as [|y l IH]; simpl; [reflexivity|].
  destruct (Qle_bool (compare x y) 0) eqn:C; [reflexivity|].
  simpl. rewrite IH. simpl.
  destruct (E x) eqn:Ex, (E y) eqn:Ey; try reflexivity.
  apply Qle_bool_false in C. specialize (HE x y Ex Ey). lra.
Qed.

Lemma sort_filter {A : Type} (compare : A -> A -> Q) (E : A -> bool) (l : list A) :
  (forall a b, E a = true -> E b = true -> compare a b <= 0) ->
  filter E (sort compare l) = filter E l.
Proof.
  intros HE. induction l as [|x l IH]; simpl; [reflexivity|].
  rewrite sort_insert_filter by exact HE. simpl. now rewrite IH.
Qed.

Lemma forEach_indexed_filter_map {A B : Type} (f : nat -> A -> A) (E : A -> bool)
    (g : A -> B) (l : list A) (k : nat) :
  (forall i x, E (f i x) = E x) -> (forall i x, g (f i x) = g x) ->
  map g (filter E (forEach_indexed f k l)) = map g (filter E l).
Proof.
  intros HE Hg. revert k. induction l as [|x l IH]; intros k; simpl; [reflexivity|].
  rewrite HE. destruct (E x); simpl; now rewrite ?Hg, IH.
Qed.

(** X15: debts that tie on the key of the strategy keep the order they
    have in the ledger: in the avalanche plan the accounts of one
    interest rate, and in the snowball plan the accounts of one balance,
    come in ledger order ([Array.prototype.sort] being stable). *)
Theorem calculateDebtPayoffPlan_ties (h : Host) (extraPayment : Q) (d : BudgetData)
    (key : Q) :
  map DebtPlan.accountId
      (filter (fun e => Qeq_bool (DebtPlan.interestRate e) key)
              (calculateDebtPayoffPlan h extraPayment avalanche d))
  = map Account.id
        (filter (fun a => Qeq_bool (orZero (Account.interestRate a)) key)
                (getDebtAccounts d))
  /\ map DebtPlan.accountId
         (filter (fun e => Qeq_bool (DebtPlan.balance e) key)
                 (calculateDebtPayoffPlan h extraPayment snowball d))
     = map Account.id
           (filter (fun a => Qeq_bool (Qabs (Account.balance a)) key)
                   (getDebtAccounts d)).
Proof.
  assert (M : forall (E : DebtPlan.t -> bool) (l : list Account.t),
             map DebtPlan.accountId (filter E (map planEntry l))
             = map Account.id (filter (fun a => E (planEntry a)) l)).
  { intros E l. induction l as [|a l IH]; simpl; [reflexivity|].
    destruct (E (planEntry a)); simpl; now rewrite IH. }
  unfold calculateDebtPayoffPlan. split.
  - rewrite forEach_indexed_filter_map by reflexivity.
    unfold sortPlan. rewrite sort_filter.
    + apply M.
    + intros a b Ha Hb. apply Qeq_bool_eq in Ha, Hb. lra.
  - rewrite forEach_indexed_filter_map by reflexivity.
    unfold sortPlan. rewrite sort_filter.
    + apply M.
    + intros a b Ha Hb. apply Qeq_bool_eq in Ha, Hb. lra.
Qed.

(** ** The debt overview *)

Lemma nmax_NaN (x y : number) : nmax x y = NaN <-> x = NaN \/ y = NaN.
Proof.
  destruct x, y; simpl; split; intros H; try discriminate; auto;
    destruct H; discriminate.
Qed.

Lemma fold_nmax_NaN (xs : list number) (acc : number) :
  fold_left nmax xs acc = NaN <-> acc = NaN \/ In NaN xs.
Proof.
  revert acc. induction xs as [|x xs IH]; intros acc; simpl.
  - tauto.
  - rewrite IH, nmax_NaN. intuition.
Qed.

Lemma nmax_upper (x y : number) :
  x <> NaN -> y <> NaN ->
  nle x (nmax x y) /\ nle y (nmax x y) /\ (nmax x y = x \/ nmax x y = y).
Proof.
  unfold nle. intros Hx Hy.
  destruct x as [a| | |], y as [b| | |]; simpl; try congruence; auto;
    try (repeat split; auto; apply Qle_bool_iff; lra).
  repeat split.
  - apply Qle_bool_iff. apply Q.le_max_l.
  - apply Qle_bool_iff. apply Q.le_max_r.
  - unfold Qmax, GenericMinMax.gmax. destruct (a ?= b); auto.
Qed.

Lemma nle_trans (x y z : number) : nle x y -> nle y z -> nle x z.
Proof.
  unfold nle.
  destruct x as [a| | |], y as [b| | |], z as [c| | |]; simpl;
    try discriminate; auto.
  rewrite !Qle_bool_iff. apply Qle_trans.
Qed.

Lemma fold_nmax_upper (xs : list number) (acc : number) :
  acc <> NaN -> ~ In NaN xs ->
  nle acc (fold_left nmax xs acc)
  /\ (forall x, In x xs -> nle x (fold_left nmax xs acc))
  /\ (fold_left nmax xs acc = acc \/ In (fold_left nmax xs acc) xs).
Proof.
  revert acc. induction xs as [|x xs IH]; intros acc Ha Hn; simpl.
  - split; [|split; [tauto|now left]].
    unfold nle. destruct acc; simpl; try congruence; auto.
    apply Qle_bool_iff. lra.
  - assert (Hx : x <> NaN) by (intros ->; apply Hn; now left).
    destruct (nmax_upper acc x Ha Hx) as (U1 & U2 & U3).
    assert (Hm : nmax acc x <> NaN) by (rewrite nmax_NaN; tauto).
    destruct (IH (nmax acc x) Hm (fun K => Hn (or_intror K))) as (I1 & I2 & I3).
    split; [eapply nle_trans; eassumption|]. split.
    + intros y [<-|Hy]; [eapply nle_trans; eassumption|now apply I2].
    + destruct I3 as [I3|I3]; [|now right; right].
      rewrite I3. destruct U3 as [->| ->]; [now left|now right; left].
Qed.



(** X16: the [timeToPayoff] of the debt overview is minus infinity when
    the ledger has no debt account and NaN exactly when some plan entry
    has NaN months; otherwise it is the [monthsToPayoff] of a plan entry
    and none is larger.  The strategy [custom] gives the overview of
    [avalanche]. *)
Theorem debtOverview_timeToPayoff (h : Host) (extraPayment : Q)
    (strategy : DebtStrategy) (d : BudgetData) :
  let overview := debtOverview h extraPayment strategy d in
  let plan := DebtOverview.payoffPlan overview in
  (getDebtAccounts d = [] ->
   plan = [] /\ DebtOverview.timeToPayoff overview = NInf
   /\ DebtOverview.totalInterest overview = Fin 0)
  /\ (DebtOverview.timeToPayoff overview = NaN
      <-> exists e, In e plan /\ DebtPlan.monthsToPayoff e = NaN)
  /\ (plan <> [] ->
      (forall e, In e plan -> DebtPlan.monthsToPayoff e <> NaN) ->
      (exists e, In e plan
                 /\ DebtOverview.timeToPayoff overview = DebtPlan.monthsToPayoff e)
      /\ forall e, In e plan ->
                   nle (DebtPlan.monthsToPayoff e) (DebtOverview.timeToPayoff overview))
  /\ debtOverview h extraPayment custom d
     = debtOverview h extraPayment (engine_strategy avalanche) d.
Proof.
  intros overview plan. subst overview plan. unfold debtOverview.
  cbn [DebtOverview.payoffPlan DebtOverview.timeToPayoff DebtOverview.totalInterest].
  set (plan := calculateDebtPayoffPlan h extraPayment
                 (match strategy with custom => avalanche | engine_strategy s => s end) d).
  split; [|split; [|split; [|reflexivity]]].
  - intros E. assert (P : plan = []).
    { unfold plan, calculateDebtPayoffPlan. rewrite E. now destruct strategy as [[|]|]. }
    rewrite P. repeat split.
  - unfold Math_max. rewrite fold_nmax_NaN. split.
    + intros [K|K]; [discriminate|].
      apply in_map_iff in K as (e & He & Hin). eauto.
    + intros (e & Hin & He). right. rewrite <- He. now apply in_map.
  - intros Hne Hnan. unfold Math_max.
    assert (Hn : ~ In NaN (map DebtPlan.monthsToPayoff plan)).
    { intros K. apply in_map_iff in K as (e & He & Hin). now apply (Hnan e). }
    destruct (fold_nmax_upper (map DebtPlan.monthsToPayoff plan) NInf
                ltac:(discriminate) Hn) as (_ & U2 & U3).
    split.
    + destruct U3 as [U3|U3].
      * destruct plan as [|e plan']; [contradiction|].
        exists e. split; [now left|]. rewrite U3.
        pose proof (U2 (DebtPlan.monthsToPayoff e) (or_introl eq_refl)) as K.
        rewrite U3 in K. unfold nle in K.
        destruct (DebtPlan.monthsToPayoff e); simpl in K; congruence.
      * apply in_map_iff in U3 as (e & He & Hin). exists e. auto.
    + intros e Hin. apply U2. now apply in_map.
Qed.

(** ** Goal progress, by kind of goal *)

(** X18: for a goal with a target date, with [k] the months from the
    host's month to the target's: if [k] is positive, [monthsRemaining]
    is [k], [recommendedMonthly] is the gap to the target divided by
    [k], and the goal is on track exactly when its monthly funding is
    entered, not zero and at least the recommended amount as computed;
    if the date is reached or passed, nothing is recommended and
    the goal counts as on track, whatever is saved; a date that cannot be
    read gives NaN months and counts as on track as well. *)
Theorem calculateGoalProgress_target_date (h : Host) (goalId : string)
    (d : BudgetData) (goal : Goal.t) (date : string) :
  find (fun g => (Goal.id g =? goalId)%string) (goals d) = Some goal ->
  Goal.type goal = target_date ->
  Goal.targetDate goal = Some date ->
  date <> ""%string ->
  exists p,
    calculateGoalProgress h goalId d = Ok p
    /\ match Date_year_month h date with
       | Some (targetYear, targetMonth) =>
           let k := ((targetYear - now_year h) * 12 + (targetMonth - now_month h))%Z in
           ((0 < k)%Z ->
            monthsRemaining p = Fin (inject_Z k)
            /\ recommendedMonthly p
               = (Goal.targetAmount goal - Goal.currentAmount goal) / inject_Z k
            /\ (onTrack p = true
                <-> exists f, Goal.monthlyFunding goal = Some f
                              /\ ~ f == 0 /\ recommendedMonthly p <= f))
           /\ ((k <= 0)%Z ->
               monthsRemaining p = Fin 0 /\ recommendedMonthly p = 0
               /\ onTrack p = true)
       | None =>
           monthsRemaining p = NaN /\ recommendedMonthly p = 0 /\ onTrack p = true
       end.
Proof.
  intros Hfind Htype Hdate Hne. unfold calculateGoalProgress.
  rewrite Hfind, Htype, Hdate. cbn [GoalType_eqb truthy_string andb].
  apply String.eqb_neq in Hne. rewrite Hne. cbn [negb].
  destruct (Date_year_month h date) as [[ty tm]|]; [|eexists; split; [reflexivity|]; auto].
  set (k := ((ty - now_year h) * 12 + (tm - now_month h))%Z).
  destruct (Qlt_bool 0 (inject_Z (Z.max 0 k))) eqn:E.
  - apply Qlt_bool_iff in E.
    assert (Hk : (0 < k)%Z).
    { destruct (Z.max_spec 0 k) as [[L M]|[L M]]; rewrite M in E; [exact L|].
      exfalso. revert E. apply Qlt_irrefl. }
    eexists. split; [reflexivity|]. cbv zeta.
    cbn [monthsRemaining recommendedMonthly onTrack].
    rewrite Z.max_r by lia. split; [|intros; lia].
    intros _. split; [reflexivity|].
    split; [reflexivity|].
    destruct (Goal.monthlyFunding goal) as [f|].
    + unfold truthy. destruct (Qeq_bool f 0) eqn:F; cbn [negb].
      * apply Qeq_bool_iff in F. split; [discriminate|].
        intros (f' & Hf & Hn & _). injection Hf as <-. contradiction.
      * apply Qeq_bool_false_iff in F. rewrite Qle_bool_iff. split.
        -- intros L. exists f. auto.
        -- intros (f' & Hf & _ & L). injection Hf as <-. exact L.
    + split; [discriminate|]. intros (f & Hf & _). discriminate.
  - apply Qlt_bool_false in E.
    assert (Hk : (k <= 0)%Z).
    { destruct (Z.max_spec 0 k) as [[L M]|[L M]]; rewrite M in E; [|exact L].
      exfalso. unfold Qle in E. simpl in E. lia. }
    eexists. split; [reflexivity|]. cbv zeta.
    cbn [monthsRemaining recommendedMonthly onTrack].
    split; [intros; lia|]. intros _. rewrite Z.max_l by lia. auto.
Qed.

(** X19: for a goal funded monthly with a positive amount [f],
    [recommendedMonthly] is [f] and [monthsRemaining] is [Math.ceil] of
    the quotient of the gap to the target by [f], which is zero or
    negative when the target is reached.  With an amount that is not
    positive no month is counted.  Such a goal is always on track. *)
Theorem calculateGoalProgress_monthly_funding (h : Host) (goalId : string)
    (d : BudgetData) (goal : Goal.t) (f : Q) :
  find (fun g => (Goal.id g =? goalId)%string) (goals d) = Some goal ->
  Goal.type goal = monthly_funding ->
  Goal.monthlyFunding goal = Some f ->
  exists p,
    calculateGoalProgress h goalId d = Ok p
    /\ onTrack p = true
    /\ recommendedMonthly p == f
    /\ (0 < f ->
        recommendedMonthly p = f
        /\ monthsRemaining p
           = nceil (Fin ((Goal.targetAmount goal - Goal.currentAmount goal) / f))
        /\ (Goal.targetAmount goal <= Goal.currentAmount goal ->
            nle (monthsRemaining p) (Fin 0)))
    /\ (f <= 0 -> monthsRemaining p = Fin 0).
Proof.
  intros Hfind Htype Hf. unfold calculateGoalProgress.
  rewrite Hfind, Htype, Hf. cbn [GoalType_eqb truthy_opt andb].
  unfold truthy. destruct (Qeq_bool f 0) eqn:F; cbn [negb].
  - apply Qeq_bool_iff in F. eexists. split; [reflexivity|].
    cbn [monthsRemaining recommendedMonthly onTrack].
    split; [reflexivity|]. split; [symmetry; exact F|].
    split; [intros K; exfalso; lra|reflexivity].
  - apply Qeq_bool_false_iff in F.
    destruct (Qlt_bool 0 f) eqn:P.
    + apply Qlt_bool_iff in P. eexists. split; [reflexivity|].
      cbn [monthsRemaining recommendedMonthly onTrack].
      split; [reflexivity|]. split; [reflexivity|]. split; [|intros K; exfalso; lra].
      intros _. split; [reflexivity|].
      set (gap := Goal.targetAmount goal - Goal.currentAmount goal).
      split; [reflexivity|].
      intros Hc. unfold nle. cbn [nle_bool]. apply Qle_bool_iff.
      pose proof (Qceiling_lt (gap / f)) as C2.
      assert (G : gap / f <= 0).
      { apply Qle_shift_div_r; [exact P|]. subst gap. lra. }
      assert (K : inject_Z (Qceiling (gap / f) - 1) < 0) by lra.
      unfold Qlt in K. simpl in K. unfold Qle. simpl. lia.
    + apply Qlt_bool_false in P. eexists. split; [reflexivity|].
      cbn [monthsRemaining recommendedMonthly onTrack].
      split; [reflexivity|]. split; [reflexivity|].
      split; [intros K; exfalso; lra|reflexivity].
Qed.

(** ** The goals tracker *)

Lemma find_goal_id (goalId : string) (l : list Goal.t) :
  find (fun g => (Goal.id g =? goalId)%string) l = None
  <-> forall g, In g l -> Goal.id g <> goalId.
Proof.
  induction l as [|x l IH]; simpl.
  - split; [intros _ g []|reflexivity].
  - destruct (String.eqb_spec (Goal.id x) goalId) as [E|E].
    + split; [discriminate|]. intros H. exfalso. now apply (H x); [left|].
    + rewrite IH. split.
      * intros H g [<-|Hg]; [exact E|now apply H].
      * intros H g Hg. apply H. now right.
Qed.

Lemma calculateGoalProgress_throws (h : Host) (goalId : string) (d : BudgetData) :
  (exists message, calculateGoalProgress h goalId d = Throw message)
  <-> find (fun g => (Goal.id g =? goalId)%string) (goals d) = None.
Proof.
  split.
  - intros (m & H).
    destruct (find (fun g => (Goal.id g =? goalId)%string) (goals d)) as [g|] eqn:E;
      [|reflexivity].
    destruct (calculateGoalProgress_found h goalId d g E) as (p & Hp & _).
    congruence.
  - intros E. unfold calculateGoalProgress. rewrite E. eauto.
Qed.

Lemma calculateGoalProgress_message (h : Host) (goalId : string) (d : BudgetData)
    (message : string) :
  calculateGoalProgress h goalId d = Throw message -> message = "Goal not found"%string.
Proof.
  intros H.
  destruct (find (fun g => (Goal.id g =? goalId)%string) (goals d)) as [g|] eqn:E.
  - destruct (calculateGoalProgress_found h goalId d g E) as (p & Hp & _). congruence.
  - unfold calculateGoalProgress in H. rewrite E in H. congruence.
Qed.

Lemma mapGoals_Ok (h : Host) (engineData : BudgetData) (cats : list Category.t)
    (gs : list Goal.t) (l : list GoalWithProgress) :
  mapGoals h engineData cats gs = Ok l ->
  map goal_of l = gs
  /\ forall e, In e l ->
       calculateGoalProgress h (Goal.id (goal_of e)) engineData = Ok (progress_of e).
Proof.
  revert l. induction gs as [|g gs IH]; intros l; cbn [mapGoals].
  - intros H. injection H as <-. split; [reflexivity|intros e []].
  - destruct (calculateGoalProgress h (Goal.id g) engineData) as [p|m] eqn:E;
      [|discriminate].
    destruct (mapGoals h engineData cats gs) as [rest|m]; [|discriminate].
    intros H. injection H as <-. destruct (IH rest eq_refl) as (I1 & I2).
    split; [cbn; now rewrite I1|].
    intros e [<-|He]; [exact E|now apply I2].
Qed.

Lemma mapGoals_Throw (h : Host) (engineData : BudgetData) (cats : list Category.t)
    (gs : list Goal.t) :
  (exists message, mapGoals h engineData cats gs = Throw message)
  <-> exists g, In g gs /\ forall g', In g' (goals engineData) -> Goal.id g' <> Goal.id g.
Proof.
  induction gs as [|g gs IH]; cbn [mapGoals].
  - split; [intros (m & H); discriminate|intros (g & [] & _)].
  - destruct (calculateGoalProgress h (Goal.id g) engineData) as [p|m] eqn:E.
    + assert (F : ~ forall g', In g' (goals engineData) -> Goal.id g' <> Goal.id g).
      { intros K. apply find_goal_id in K.
        apply calculateGoalProgress_throws with (h := h) in K as (m & K). congruence. }
      destruct (mapGoals h engineData cats gs) as [rest|m].
      * split; [intros (m & H); discriminate|].
        intros (g0 & [<-|Hg] & K); [contradiction|].
        assert (X : exists m : string, @Ok (list GoalWithProgress) rest = Throw m)
          by (apply IH; eauto).
        destruct X as (m & X). discriminate.
      * split; [|eauto]. intros _.
        destruct (proj1 IH (ex_intro _ m eq_refl)) as (g0 & Hg & K).
        exists g0. split; [now right|exact K].
    + split; [|eauto]. intros _. exists g. split; [now left|].
      apply find_goal_id. apply calculateGoalProgress_throws with (h := h). eauto.
Qed.

Lemma mapGoals_message (h : Host) (engineData : BudgetData) (cats : list Category.t)
    (gs : list Goal.t) (message : string) :
  mapGoals h engineData cats gs = Throw message -> message = "Goal not found"%string.
Proof.
  induction gs as [|g gs IH]; cbn [mapGoals]; [discriminate|].
  destruct (calculateGoalProgress h (Goal.id g) engineData) as [p|m] eqn:E.
  - destruct (mapGoals h engineData cats gs) as [rest|m]; [discriminate|].
    intros H. injection H as <-. now apply IH.
  - intros H. injection H as <-. eapply calculateGoalProgress_message. exact E.
Qed.

(** X20: the list the goals tracker shows cannot be built, the exception
    "Goal not found" leaving the component, exactly when an active goal
    of the ledger it is given has an id that no goal of the ledger its
    engine was made with has.  Otherwise the list, in whatever order
    its [sort] leaves it, has the active goals, each as often as the
    ledger has it, and each with the progress the engine computes for
    its id.
    With the engine's own ledger the list is always built; after
    [handleAddGoal] of an active goal, whose new id no goal had, it is
    not, for a tracker that was mounted before. *)
Theorem goalsWithProgress_stale_engine (h : Host) (engineData data : BudgetData) :
  ((exists message, goalsWithProgress h engineData data = Throw message)
   <-> exists g, In g (goals data) /\ Goal.isActive g = true
                 /\ forall g', In g' (goals engineData) -> Goal.id g' <> Goal.id g)
  /\ (forall message, goalsWithProgress h engineData data = Throw message ->
                      message = "Goal not found"%string)
  /\ (forall l sorted,
        goalsWithProgress h engineData data = Ok l ->
        Permutation l sorted ->
        Permutation (map goal_of sorted) (filter Goal.isActive (goals data))
        /\ forall e, In e sorted ->
             calculateGoalProgress h (Goal.id (goal_of e)) engineData
             = Ok (progress_of e))
  /\ (exists l, goalsWithProgress h data data = Ok l)
  /\ (forall now goalData,
        Goal.isActive goalData = true ->
        (forall g, In g (goals data) ->
                   Goal.id g <> ("goal-" ++ string_of_Z now)%string) ->
        goalsWithProgress h data (handleAddGoal now goalData data)
        = Throw "Goal not found").
Proof.
  unfold goalsWithProgress.
  assert (T : (exists message,
                 mapGoals h engineData (categories data)
                          (filter Goal.isActive (goals data)) = Throw message)
              <-> exists g, In g (goals data) /\ Goal.isActive g = true
                   /\ forall g', In g' (goals engineData) -> Goal.id g' <> Goal.id g).
  { rewrite mapGoals_Throw. split.
    - intros (g & Hg & K). apply filter_In in Hg as (Hg & Ha). eauto.
    - intros (g & Hg & Ha & K). exists g. split; [|exact K].
      apply filter_In. auto. }
  split; [exact T|]. split; [intros m; apply mapGoals_message|].
  split.
  { intros l sorted Hl P. apply mapGoals_Ok in Hl as (Hmap & Hp). split.
    - rewrite <- Hmap. apply Permutation_map. now apply Permutation_sym.
    - intros e He. apply Hp. apply (Permutation_in _ (Permutation_sym P)). exact He. }
  split.
  - destruct (mapGoals h data (categories data) (filter Goal.isActive (goals data)))
      as [l|m] eqn:E; [eauto|].
    exfalso.
    destruct (proj1 (mapGoals_Throw h data (categories data)
                       (filter Goal.isActive (goals data))) (ex_intro _ m E))
      as (g & Hg & K).
    apply filter_In in Hg as (Hg & _). now apply (K g).
  - intros now goalData Ha Hfresh.
    set (d' := handleAddGoal now goalData data).
    destruct (mapGoals h data (categories d') (filter Goal.isActive (goals d')))
      as [l|m] eqn:E.
    + exfalso.
      assert (X : exists message,
                 mapGoals h data (categories d') (filter Goal.isActive (goals d'))
                 = Throw message).
      { apply mapGoals_Throw.
        exists (Goal.mk ("goal-" ++ string_of_Z now) (Goal.categoryId goalData)
                  (Goal.name goalData) (Goal.type goalData)
                  (Goal.targetAmount goalData) (Goal.targetDate goalData)
                  (Goal.monthlyFunding goalData) (Goal.currentAmount goalData)
                  (Goal.isActive goalData)).
        split; [|exact Hfresh].
        apply filter_In. split.
        - unfold d'. cbn [handleAddGoal goals]. apply in_or_app. right. now left.
        - exact Ha. }
      destruct X as (m & X). congruence.
    + f_equal. eapply mapGoals_message. exact E.
Qed.

Lemma filter_length_perm {A : Type} (p : A -> bool) (l l' : list A) :
  Permutation l l' -> List.length (filter p l) = List.length (filter p l').
Proof.
  intros P. induction P as [|x l l' P IH|x y l|l l' l'' P1 IH1 P2 IH2]; simpl.
  - reflexivity.
  - destruct (p x); simpl; congruence.
  - destruct (p x), (p y); reflexivity.
  - congruence.
Qed.



(** ** The envelope view *)

Lemma filter_negb_nil {A : Type} (p : A -> bool) (l : list A) :
  filter p (filter (fun x => negb (p x)) l) = [].
Proof.
  induction l as [|x l IH]; simpl; [reflexivity|].
  destruct (p x) eqn:E; simpl; [exact IH|]. now rewrite E.
Qed.

Lemma filter_split_perm {A : Type} (p : A -> bool) (l : list A) :
  Permutation l (filter (fun x => negb (p x)) l ++ filter p l).
Proof.
  induction l as [|x l IH]; simpl; [constructor|].
  destruct (p x); simpl.
  - apply Permutation_cons_app. exact IH.
  - now constructor.
Qed.

Lemma uniqueKeys_filter (keep : Budget.t -> bool) (bs : list Budget.t) :
  NoDup (map budgetKey bs) -> NoDup (map budgetKey (filter keep bs)).
Proof.
  intros U. induction bs as [|b bs IH]; cbn [filter]; [constructor|].
  inversion U as [|? ? Hn Hd]; subst.
  destruct (keep b); cbn [map]; [|now apply IH].
  constructor; [|now apply IH].
  intros K. apply Hn. apply in_map_iff in K as (y & Hy & Hin).
  apply filter_In in Hin as [Hin _]. apply in_map_iff. eauto.
Qed.

Lemma budgetFor_key (categoryId month : string) (b : Budget.t) :
  budgetFor categoryId month b = true <-> budgetKey b = (categoryId, month).
Proof.
  unfold budgetFor, budgetKey. rewrite andb_true_iff, !String.eqb_eq.
  split; [intros [-> ->]; reflexivity|intros H; injection H; auto].
Qed.

Lemma unique_filter (categoryId month : string) (l : list Budget.t) (r : Budget.t) :
  NoDup (map budgetKey l) ->
  find (budgetFor categoryId month) l = Some r ->
  filter (budgetFor categoryId month) l = [r].
Proof.
  induction l as [|x l IH]; simpl; intros U H; [discriminate|].
  inversion U as [|? ? Hn Hd]; subst.
  destruct (budgetFor categoryId month x) eqn:E.
  - injection H as <-. f_equal.
    destruct (filter (budgetFor categoryId month) l) as [|y ys] eqn:F; [reflexivity|].
    exfalso. assert (Hy : In y (filter (budgetFor categoryId month) l))
      by (rewrite F; now left).
    apply filter_In in Hy as [Hy Ky]. apply Hn.
    apply budgetFor_key in E. apply budgetFor_key in Ky.
    rewrite E, <- Ky. now apply in_map.
  - now apply IH.
Qed.

Lemma assignMoney_others_kept (now : Z) (categoryId month : string) (amount : Q)
    (d : BudgetData) :
  filter (fun b => negb (budgetFor categoryId month b))
         (budgets (snd (assignMoney now categoryId month amount d)))
  = filter (fun b => negb (budgetFor categoryId month b)) (budgets d).
Proof.
  destruct (assignMoney_cases now categoryId month amount d)
    as [(i & b & v & Hi & Hn & Hf & ->)|(v & Hf & ->)]; cbn [snd set_budgets budgets].
  - apply find_some in Hf as [_ Hb].
    apply (filter_update_at_other _ _ _ _ b Hn).
    + now rewrite Hb.
    + now rewrite budgetFor_reassign, Hb.
  - rewrite filter_app. cbn [filter].
    unfold budgetFor at 2. cbn [Budget.categoryId Budget.month].
    rewrite !String.eqb_refl. cbn. apply app_nil_r.
Qed.

(** X22: [handleAssignMoney] of the envelope view does nothing for an
    amount of 0.  Otherwise the list it hands on is the records of the
    other (category, month) pairs, in their order, followed by the one
    record of the pair, which is the engine's and carries the amount the
    engine had assigned plus [amount]; a list with one record a pair
    stays so.  When the engine's records are one a pair and the view's
    list agrees with the engine's on the other pairs, the list handed on
    has the records of the engine afterwards, in another order. *)
Theorem handleAssignMoney_result (now : Z) (dataBudgets : list Budget.t)
    (month categoryId : string) (amount : Q) (engineData : BudgetData) :
  let others := fun b => negb (budgetFor categoryId month b) in
  let result := handleAssignMoney now dataBudgets month categoryId amount engineData in
  (amount == 0 -> result = (None, engineData))
  /\ (~ amount == 0 ->
      snd result = snd (assignMoney now categoryId month amount engineData)
      /\ exists r,
          fst result = Some (filter others dataBudgets ++ [r])
          /\ find (budgetFor categoryId month) (budgets (snd result)) = Some r
          /\ budgetKey r = (categoryId, month)
          /\ Budget.assigned r == assignedOf categoryId month engineData + amount
          /\ filter (budgetFor categoryId month) (filter others dataBudgets ++ [r]) = [r]
          /\ (NoDup (map budgetKey dataBudgets) ->
              NoDup (map budgetKey (filter others dataBudgets ++ [r])))
          /\ (uniqueBudgets engineData ->
              Permutation (filter others dataBudgets)
                          (filter others (budgets engineData)) ->
              Permutation (filter others dataBudgets ++ [r])
                          (budgets (snd result)))).
Proof.
  intros others result. subst result others. unfold handleAssignMoney. split.
  - intros E. apply Qeq_bool_iff in E. now rewrite E.
  - intros E. apply Qeq_bool_false_iff in E. rewrite E.
    destruct (assignMoney_find now categoryId month amount engineData)
      as (r & Hfind & Hnth & Hassigned).
    destruct (assignMoney now categoryId month amount engineData)
      as [newBudget engineData'] eqn:A.
    cbn [fst snd] in *. rewrite Hnth. split; [reflexivity|].
    exists r.
    assert (Hr : budgetFor categoryId month r = true)
      by (apply find_some in Hfind; tauto).
    split; [reflexivity|]. split; [exact Hfind|].
    split; [now apply budgetFor_key|]. split; [exact Hassigned|].
    split; [|split].
    + rewrite filter_app, filter_negb_nil.
      cbn [filter app]. now rewrite Hr.
    + intros U. rewrite map_app.
      apply (Permutation_NoDup (Permutation_cons_append _ _)).
      constructor; [|now apply uniqueKeys_filter].
      intros K. apply in_map_iff in K as (y & Hy & Hin).
      apply filter_In in Hin as [_ Hin].
      assert (Ky : budgetFor categoryId month y = true)
        by (apply budgetFor_key; rewrite Hy; apply budgetFor_key; exact Hr).
      rewrite Ky in Hin. discriminate.
    + intros U P.
      pose proof (assignMoney_unique now categoryId month amount engineData U) as U'.
      pose proof (assignMoney_others_kept now categoryId month amount engineData) as K.
      rewrite A in U', K. cbn [snd] in U', K.
      rewrite (filter_split_perm (budgetFor categoryId month) (budgets engineData')).
      rewrite (unique_filter _ _ _ _ U' Hfind).
      apply Permutation_app_tail. rewrite K. exact P.
Qed.

(** ** The age of money *)



(** ** These properties at work on the example ledgers *)

Lemma getPreviousMonth_calendar_witness :
  getPreviousMonth (monthKey 2024 1) = monthKey 2023 12.
Proof.
  apply (getPreviousMonth_calendar 2024 1); lia.
Defined.

Lemma navigateMonth_round_trip_witness :
  navigateMonth next (navigateMonth prev "2024-01") = "2024-01"%string
  /\ navigateMonth prev (navigateMonth next "2024-01") = "2024-01"%string
  /\ navigateMonth prev "2024-01" = getPreviousMonth "2024-01".
Proof.
  apply (navigateMonth_round_trip "2024-01").
  exists 2024%Z, 1%Z. split; [lia|]. split; [lia|reflexivity].
Defined.

Lemma assignMoney_moves_toBeBudgeted_witness :
  let after amount :=
    getMonthlyBudgetSummary "2024-02"
      (snd (assignMoney (Date_now host0 0) "groceries" "2024-02" amount ledgerWinter)) in
  let before := getMonthlyBudgetSummary "2024-02" ledgerWinter in
  availableToBudget (after 25) == availableToBudget before
  /\ (totalAssigned before <= totalAssigned (after 25)
      /\ toBeBudgeted (after 25) <= toBeBudgeted before)
  /\ (totalAssigned (after (-25)) <= totalAssigned before
      /\ toBeBudgeted before <= toBeBudgeted (after (-25))).
Proof.
  assert (W : wellFormedMonth "2024-02")
    by (exists 2024%Z, 2%Z; split; [lia|]; split; [lia|reflexivity]).
  cbv zeta. split; [|split].
  - apply (assignMoney_moves_toBeBudgeted (Date_now host0 0) "groceries" "2024-02" 25
             ledgerWinter W).
  - apply (assignMoney_moves_toBeBudgeted (Date_now host0 0) "groceries" "2024-02" 25
             ledgerWinter W).
    discriminate.
  - apply (assignMoney_moves_toBeBudgeted (Date_now host0 0) "groceries" "2024-02" (-25)
             ledgerWinter W).
    discriminate.
Defined.

Lemma assignMoney_moves_one_balance_witness :
  let d' := snd (assignMoney (Date_now host0 0) "groceries" "2024-02" 25 ledgerWinter) in
  calculateCategoryAvailable "groceries" "2024-02" ledgerWinter
  <= calculateCategoryAvailable "groceries" "2024-02" d'
  /\ calculateCategoryAvailable "rent" "2024-02" d'
     == calculateCategoryAvailable "rent" "2024-02" ledgerWinter
  /\ calculateCategoryAvailable "groceries" "2024-01" d'
     == calculateCategoryAvailable "groceries" "2024-01" ledgerWinter.
Proof.
  assert (W : wellFormedMonth "2024-02")
    by (exists 2024%Z, 2%Z; split; [lia|]; split; [lia|reflexivity]).
  destruct (assignMoney_moves_one_balance (Date_now host0 0) "groceries" "2024-02" 25
              ledgerWinter W) as (Up & _ & Other & Own).
  cbv zeta. split; [|split].
  - apply Up. discriminate.
  - apply Other. discriminate.
  - apply Own; discriminate.
Defined.

Lemma assignMoney_stored_available_witness :
  storedAvailable "groceries" "2024-02"
    (snd (assignMoney (Date_now host0 0) "groceries" "2024-02" 25 ledgerWinter))
  == calculateCategoryAvailable "groceries" "2024-02"
       (snd (assignMoney (Date_now host0 0) "groceries" "2024-02" 25 ledgerWinter))
  /\ storedAvailable "rent" "2024-02"
       (snd (assignMoney (Date_now host0 0) "rent" "2024-02" 25 ledgerWinter))
     == calculateCategoryAvailable "rent" "2024-02" ledgerWinter.
Proof.
  assert (W : wellFormedMonth "2024-02")
    by (exists 2024%Z, 2%Z; split; [lia|]; split; [lia|reflexivity]).
  split.
  - apply (proj1 (assignMoney_stored_available (Date_now host0 0) "groceries" "2024-02"
                    25 ledgerWinter W)).
    discriminate.
  - apply (proj2 (assignMoney_stored_available (Date_now host0 0) "rent" "2024-02"
                    25 ledgerWinter W)).
    reflexivity.
Defined.

Lemma assignMoney_touches_one_record_witness :
  exists b',
    nth_error
      (budgets (snd (assignMoney (Date_now host0 0) "groceries" "2024-02" 25
                                 ledgerWinter))) 3
    = Some b'
    /\ Budget.id b' = "b3"%string
    /\ Budget.categoryId b' = "groceries"%string
    /\ Budget.month b' = "2024-02"%string
    /\ Budget.activity b' = - (150)
    /\ Budget.assigned b' = 0 + 25.
Proof.
  apply (proj2 (proj2 (proj2 (proj2 (proj2
           (assignMoney_touches_one_record (Date_now host0 0) "groceries" "2024-02"
              25 ledgerWinter)))))
           (Budget.mk "b3" "groceries" "2024-02" 0 (-150) (-200))).
  reflexivity.
Defined.

Lemma autoAssignMoney_lowers_toBeBudgeted_witness :
  let before := getMonthlyBudgetSummary "2024-02" ledgerWinter in
  let after :=
    getMonthlyBudgetSummary "2024-02"
      (snd (autoAssignMoney host0 "2024-02" ["vacation"] ledgerWinter)) in
  availableToBudget after == availableToBudget before
  /\ totalAssigned before <= totalAssigned after
  /\ toBeBudgeted after <= toBeBudgeted before.
Proof.
  assert (W : wellFormedMonth "2024-02")
    by (exists 2024%Z, 2%Z; split; [lia|]; split; [lia|reflexivity]).
  exact (autoAssignMoney_lowers_toBeBudgeted host0 "2024-02" ["vacation"]
           ledgerWinter W).
Defined.

Lemma autoAssignMoney_only_raises_witness :
  (forall c,
     calculateCategoryAvailable c "2024-02" ledgerWinter
     <= calculateCategoryAvailable c "2024-02"
          (snd (autoAssignMoney host0 "2024-02" ["vacation"] ledgerWinter)))
  /\ filter (fun b => negb (Budget.month b =? "2024-02")%string)
            (budgets (snd (autoAssignMoney host0 "2024-02" ["vacation"] ledgerWinter)))
     = filter (fun b => negb (Budget.month b =? "2024-02")%string)
              (budgets ledgerWinter)
  /\ transactions (snd (autoAssignMoney host0 "2024-02" ["vacation"] ledgerWinter))
     = transactions ledgerWinter.
Proof.
  apply (autoAssignMoney_only_raises host0 "2024-02" ["vacation"] ledgerWinter).
  exists 2024%Z, 2%Z. split; [lia|]. split; [lia|reflexivity].
Defined.

Lemma calculateNetWorth_breakdown_witness :
  obj_get "Visa" (accountBreakdown (calculateNetWorth ledgerWinter)) = Some (- (500))
  /\ exists a',
       In a' (accounts ledgerWinter)
       /\ Account.name a' = "Primary Checking"
       /\ obj_get "Primary Checking" (accountBreakdown (calculateNetWorth ledgerWinter))
          = Some (Account.balance a').
Proof.
  destruct (calculateNetWorth_breakdown ledgerWinter) as (_ & _ & L & E & _).
  split.
  - rewrite (L "Visa") by discriminate. reflexivity.
  - apply (E (Account.mk "checking" "Primary Checking" checking 2000 true None None)).
    + left. reflexivity.
    + discriminate.
Defined.

Lemma calculateDebtPayoffPlan_zero_payment_witness :
  exists e,
    nth_error (calculateDebtPayoffPlan host0 0 avalanche ledgerInterestFreeLoan) 0
    = Some e
    /\ DebtPlan.monthsToPayoff e = PInf
    /\ DebtPlan.totalInterest e = Fin 0.
Proof.
  eexists. split; [reflexivity|].
  apply (calculateDebtPayoffPlan_zero_payment host0 0 avalanche ledgerInterestFreeLoan
           0%nat _ eq_refl).
  - reflexivity.
  - right. vm_compute. discriminate.
Defined.

Lemma debtOverview_timeToPayoff_witness :
  DebtOverview.timeToPayoff (debtOverview host0 100 custom emptyLedger) = NInf
  /\ DebtOverview.timeToPayoff
       (debtOverview host0 0 (engine_strategy avalanche) ledgerHighRateCard) = NaN
  /\ (let overview := debtOverview host0 50 (engine_strategy snowball) ledgerThreeDebts in
      (exists e, In e (DebtOverview.payoffPlan overview)
                 /\ DebtOverview.timeToPayoff overview = DebtPlan.monthsToPayoff e)
      /\ forall e, In e (DebtOverview.payoffPlan overview) ->
                   nle (DebtPlan.monthsToPayoff e) (DebtOverview.timeToPayoff overview)).
Proof.
  split; [|split].
  - apply (proj1 (debtOverview_timeToPayoff host0 100 custom emptyLedger)).
    reflexivity.
  - apply (proj1 (proj2 (debtOverview_timeToPayoff host0 0 (engine_strategy avalanche)
                           ledgerHighRateCard))).
    eexists. split; [left; reflexivity|]. reflexivity.
  - apply (proj1 (proj2 (proj2 (debtOverview_timeToPayoff host0 50
                                  (engine_strategy snowball) ledgerThreeDebts)))).
    + discriminate.
    + intros e He. vm_compute in He.
      destruct He as [<-|[<-|[<-|[]]]]; discriminate.
Defined.

Lemma calculateGoalProgress_target_date_witness :
  exists p,
    calculateGoalProgress host0 "g1" ledgerWinter = Ok p
    /\ monthsRemaining p = Fin (inject_Z 6)
    /\ recommendedMonthly p = (1200 - 0) / inject_Z 6
    /\ onTrack p = true.
Proof.
  destruct (calculateGoalProgress_target_date host0 "g1" ledgerWinter
              (Goal.mk "g1" "vacation" "Trip" target_date 1200 (Some "2024-09-01")
                       (Some 200) 0 true)
              "2024-09-01" eq_refl eq_refl eq_refl ltac:(discriminate))
    as (p & Hp & H).
  exists p. split; [exact Hp|].
  destruct (proj1 H ltac:(reflexivity)) as (M & R & T).
  split; [exact M|]. split; [exact R|].
  apply T. exists 200. split; [reflexivity|]. split.
  - intros K. vm_compute in K. discriminate.
  - rewrite R. vm_compute. discriminate.
Defined.

Lemma calculateGoalProgress_monthly_funding_witness :
  exists p,
    calculateGoalProgress host0 "g1" ledgerSavingPlan = Ok p
    /\ onTrack p = true
    /\ recommendedMonthly p = 150
    /\ monthsRemaining p = Fin 4.
Proof.
  destruct (calculateGoalProgress_monthly_funding host0 "g1" ledgerSavingPlan
              (Goal.mk "g1" "vacation" "Trip" monthly_funding 1000 None (Some 150)
                       400 true)
              150 eq_refl eq_refl eq_refl)
    as (p & Hp & T & _ & F & _).
  destruct (F ltac:(reflexivity)) as (R & M & _).
  exists p. split; [exact Hp|]. split; [exact T|]. split; [exact R|].
  rewrite M. reflexivity.
Defined.

Lemma goalsWithProgress_stale_engine_witness :
  goalsWithProgress host0 ledgerWinter
    (handleAddGoal (Date_now host0 0)
       (Goal.mk "" "vacation" "Bike" target_balance 800 None None 0 true)
       ledgerWinter)
  = Throw "Goal not found".
Proof.
  apply (proj2 (proj2 (proj2 (proj2
           (goalsWithProgress_stale_engine host0 ledgerWinter ledgerWinter))))).
  - reflexivity.
  - intros g [<-|[<-|[]]]; discriminate.
Defined.


Lemma handleAssignMoney_result_witness :
  handleAssignMoney (Date_now host0 0) (budgets ledgerWinter) "2024-02" "groceries"
                    0 ledgerWinter
  = (None, ledgerWinter)
  /\ snd (handleAssignMoney (Date_now host0 0) (budgets ledgerWinter) "2024-02"
                            "groceries" 25 ledgerWinter)
     = snd (assignMoney (Date_now host0 0) "groceries" "2024-02" 25 ledgerWinter).
Proof.
  split.
  - apply (proj1 (handleAssignMoney_result (Date_now host0 0) (budgets ledgerWinter)
                    "2024-02" "groceries" 0 ledgerWinter)).
    reflexivity.
  - apply (proj2 (handleAssignMoney_result (Date_now host0 0) (budgets ledgerWinter)
                    "2024-02" "groceries" 25 ledgerWinter)).
    intros K. vm_compute in K. discriminate.
Defined.

